(** * Payroll-fund (FOT) pipeline: a shallow embedding of [fot_analysis_dag.py]

    The tasks of the DAG ([extract_*], [transform_data],
    [load_to_database], [generate_report], [send_email_with_attachments])
    are embedded as functions over explicit state: the XCom hand-off
    store, the SQLite database behind a connection, the file system and
    the mail transport.

    Numbers.  The cells of the three inputs are integers (the generator
    draws [hours_worked] and [rate_per_hour] with [random.randint]);
    fractional hours or rates are outside the embedding.  What the code
    computes from them is modelled with the machine arithmetic of the
    libraries: a pandas column of integers that fit 64 bits is an int64
    column, whose products and sums wrap around; an int64 column that
    meets a missing value in a left merge becomes a float64 column (the
    missing cell is NaN, here [None]), whose products are rounded to the
    nearest double and whose group sums are accumulated with Kahan's
    compensation, as pandas does.  A column holding an integer outside
    int64 is a column of Python integers; its arithmetic is taken to be
    Python's exact one (pandas' uint64 inference and its mixed-type
    coercions are not modelled, and no theorem about computed values
    speaks of such data).  The REAL columns of the table hold doubles: a
    finite double is an integer over a power of two ([Float.t]); NaN and
    the infinities are left out, as is the sign of zero.  SQLite takes a
    Python integer only if it fits 64 bits and raises [OverflowError]
    otherwise.

    Join keys are never null: [employee_id] is an integer and [position]
    a string, as the input formats declare them.

    Environment.  The statements the Loader sends to SQLite can fail at
    will (a schedule of faults, as for the mail transport), and the
    connection records the image of the database file after every
    statement, which is what another reader finds, or what is left when
    the process stops there.  The Report Generator's one query, and file
    reads and writes, fail only through the code's own logic (a missing
    table, a missing attachment). *)

From Stdlib Require Import ZArith List String Ascii Bool Lia.
From Stdlib Require Import Permutation Sorted DecimalString.
Import ListNotations.
Open Scope string_scope.
Open Scope list_scope.
Open Scope Z_scope.

(** String concatenation, kept apart from the list append. *)
Infix "+++" := String.append (right associativity, at level 60).

(* ------------------------------------------------------------------ *)
(** ** Exceptions and outcomes *)

Inductive exception : Type :=
| KeyError (key : string)
| ValueError (msg : string)
| TypeError (msg : string)
| OverflowError (msg : string)
| OperationalError (msg : string)
| DatabaseError (msg : string)
| FileNotFoundError (path : string)
| SMTPException (msg : string).

Inductive outcome (A : Type) : Type :=
| Returned (a : A)
| Raised (e : exception).
Arguments Returned {A} a.
Arguments Raised {A} e.

Definition is_raised {A} (o : outcome A) : bool :=
  match o with Raised _ => true | Returned _ => false end.

Definition sq : string := String "039"%char EmptyString.
Definition dq : string := String "034"%char EmptyString.

(** [str(e)]: the message, and for a [KeyError] the repr of the key. *)
Definition exception_str (e : exception) : string :=
  match e with
  | KeyError k => sq +++ k +++ sq
  | ValueError m | TypeError m | OverflowError m | OperationalError m
  | DatabaseError m | SMTPException m => m
  | FileNotFoundError p =>
      "[Errno 2] No such file or directory: " +++ sq +++ p +++ sq
  end.

Definition str_of_nat (n : nat) : string :=
  NilZero.string_of_uint (Nat.to_uint n).
Definition str_of_int (z : Z) : string :=
  NilZero.string_of_int (Z.to_int z).

(* ------------------------------------------------------------------ *)
(** ** Numbers *)

(** A signed 64-bit integer, and the value an int64 operation leaves when
    its exact result is [z]. *)
Definition in_int64 (z : Z) : bool := (- 2 ^ 63 <=? z) && (z <? 2 ^ 63).
Definition wrap64 (z : Z) : Z := (z + 2 ^ 63) mod 2 ^ 64 - 2 ^ 63.

(** Finite doubles.  [mk n k] is the number [n / 2^k], with [k = 0] or
    [n] odd, so that a number has one representation and an integer [z]
    is [mk z 0]. *)
Module Float.

Record t : Type := mk { num : Z; scale : nat }.

Definition zero : t := mk 0 0.

Definition denominator (a : t) : Z := 2 ^ Z.of_nat (scale a).

Fixpoint reduce (n : Z) (k : nat) : t :=
  match k with
  | O => mk n 0
  | S k' => if Z.even n then reduce (Z.div2 n) k' else mk n k
  end.

(** [n / d] to the nearest integer, a half to the even one ([0 < d]). *)
Definition div_half_even (n d : Z) : Z :=
  let q := n / d in
  match 2 * (n mod d) ?= d with
  | Lt => q
  | Gt => q + 1
  | Eq => if Z.even q then q else q + 1
  end.

(** The binary exponent of [p / q]: [2^e <= p / q < 2^(e+1)]. *)
Definition floor_log2 (p q : Z) : Z :=
  let e := Z.log2 p - Z.log2 q in
  if (if 0 <=? e then q * 2 ^ e <=? p else q <=? p * 2 ^ (- e)) then e else e - 1.

(** The double nearest to [p / q] ([0 < q]): 53 significant bits, or
    fewer below [2^-1022]; a tie goes to the even significand. *)
Definition of_ratio (p q : Z) : t :=
  if p =? 0 then zero
  else
    let s := Z.max (floor_log2 (Z.abs p) q - 52) (- 1074) in
    if 0 <=? s then mk (div_half_even p (q * 2 ^ s) * 2 ^ s) 0
    else reduce (div_half_even (p * 2 ^ (- s)) q) (Z.to_nat (- s)).

(** [float(z)], and the three operations, each rounded once. *)
Definition of_int (z : Z) : t := of_ratio z 1.

Definition mul (a b : t) : t :=
  of_ratio (num a * num b) (denominator a * denominator b).
Definition add (a b : t) : t :=
  of_ratio (num a * denominator b + num b * denominator a)
           (denominator a * denominator b).
Definition sub (a b : t) : t :=
  of_ratio (num a * denominator b - num b * denominator a)
           (denominator a * denominator b).

Definition leb (a b : t) : bool :=
  num a * denominator b <=? num b * denominator a.

Definition eqb (a b : t) : bool :=
  (num a =? num b) && Nat.eqb (scale a) (scale b).

Definition two_digits (n : Z) : string :=
  (if n <? 10 then "0" else "") +++ str_of_int n.

(** The [.2f] format: the number rounded to hundredths from its exact
    value, a half to the even one. *)
Definition fixed2 (a : t) : string :=
  let cents := div_half_even (Z.abs (num a) * 100) (denominator a) in
  (if num a <? 0 then "-" else "") +++
  str_of_int (cents / 100) +++ "." +++ two_digits (cents mod 100).

(** [repr]: the shortest decimal that reads back as the same double,
    printed with an exponent from [1e16] on and below [1e-4]. *)
Definition below_pow10 (p q k : Z) : bool :=
  if 0 <=? k then p <? q * 10 ^ k else p * 10 ^ (- k) <? q.

Fixpoint search_up (fuel : nat) (p q k : Z) : Z :=
  match fuel with
  | O => k
  | S f => if below_pow10 p q k then k else search_up f p q (k + 1)
  end.

(** The least [k] with [p / q < 10^k]. *)
Definition decimal_point (p q : Z) : Z :=
  search_up 6 p q ((Z.log2 p - Z.log2 q) * 30103 / 100000 - 2).

Fixpoint strip_zeros (fuel : nat) (d : Z) : Z :=
  match fuel with
  | O => d
  | S f => if (d mod 10 =? 0) && negb (d =? 0) then strip_zeros f (d / 10) else d
  end.

Definition digits_count (d : Z) : Z := Z.of_nat (String.length (str_of_int d)).

(** The decimals of [nd] digits next to [p / q], if one of them reads
    back as [a]: its digits and the place of its decimal point. *)
Definition candidate (a : t) (p q dp nd : Z) : option (Z * Z) :=
  let k := nd - dp in
  let x := if 0 <=? k then p * 10 ^ k else p in
  let y := if 0 <=? k then q else q * 10 ^ (- k) in
  let lo := x / y in
  let hi := lo + 1 in
  let back d := if 0 <=? k then of_ratio d (10 ^ k) else of_ratio (d * 10 ^ (- k)) 1 in
  let pick d := Some (strip_zeros 400 d, digits_count d - k) in
  match (0 <? lo) && eqb (back lo) a, eqb (back hi) a with
  | true, false => pick lo
  | false, true => pick hi
  | true, true =>
      match 2 * (x mod y) ?= y with
      | Lt => pick lo
      | Gt => pick hi
      | Eq => if Z.even lo then pick lo else pick hi
      end
  | false, false => None
  end.

Fixpoint shortest (fuel : nat) (a : t) (p q dp nd : Z) : Z * Z :=
  match fuel with
  | O => (0, 0)
  | S f =>
      match candidate a p q dp nd with
      | Some r => r
      | None => shortest f a p q dp (nd + 1)
      end
  end.

Definition zeros (n : Z) : string :=
  string_of_list_ascii (repeat "0"%char (Z.to_nat n)).

Definition repr (a : t) : string :=
  if num a =? 0 then "0.0"
  else
    let p := Z.abs (num a) in
    let q := denominator a in
    let (d, dp) := shortest 17 (mk p (scale a)) p q (decimal_point p q) 1 in
    let ds := str_of_int d in
    let n := Z.of_nat (String.length ds) in
    (if num a <? 0 then "-" else "") +++
    (if (dp <=? - 4) || (16 <? dp) then
       String.substring 0 1 ds +++
       (if 1 <? n then "." +++ String.substring 1 (String.length ds - 1) ds else "") +++
       "e" +++ (if dp - 1 <? 0 then "-" else "+") +++
       (if Z.abs (dp - 1) <? 10 then "0" else "") +++ str_of_int (Z.abs (dp - 1))
     else if dp <=? 0 then "0." +++ zeros (- dp) +++ ds
     else if n <=? dp then ds +++ zeros (dp - n) +++ ".0"
     else String.substring 0 (Z.to_nat dp) ds +++ "." +++
          String.substring (Z.to_nat dp) (String.length ds - Z.to_nat dp) ds).

End Float.

(** [str] of a float and the [.2f] format, as the report prints them. *)
Definition str_of_float (f : Float.t) : string := Float.repr f.
Definition format_2f (f : Float.t) : string := Float.fixed2 f.

(** A Python number in a record: an [int] or a [float]. *)
Inductive number : Type :=
| PyInt (z : Z)
| PyFloat (f : Float.t).

(** The integer a number stands for, if it is integral. *)
Definition integral (n : number) : option Z :=
  match n with
  | PyInt z => Some z
  | PyFloat f => match Float.scale f with O => Some (Float.num f) | S _ => None end
  end.

(* ------------------------------------------------------------------ *)
(** ** Records of the three inputs and of the aggregate *)

Module Employee.
Record t : Type := mk { employee_id : Z; position : string }.
End Employee.

Module Project.
Record t : Type := mk { project_id : Z; employee_id : Z; hours_worked : Z }.
End Project.

Module Rate.
Record t : Type := mk { position : string; rate_per_hour : Z }.
End Rate.

(** A row of the aggregate: [total_hours] is a sum of integers,
    [total_payment] an [int] or a [float] by the type of its column. *)
Module Fot.
Record t : Type := mk { project_id : Z; total_hours : Z; total_payment : number }.
End Fot.

(** A row of table [project_fot]; the two REAL columns hold doubles. *)
Module Stored.
Record t : Type := mk {
  id : Z;
  project_id : Z;
  total_hours : Float.t;
  total_payment : Float.t;
  analysis_date : string
}.
End Stored.

(** The three data columns of a row of the table. *)
Module Values.
Record t : Type := mk {
  project_id : Z;
  total_hours : Float.t;
  total_payment : Float.t
}.
End Values.

(** The XCom store, one slot per key the tasks push.  A key that was never
    pushed pulls as [None]. *)
Record XCom : Type := mkXCom {
  employees_data : option (list Employee.t);
  projects_data : option (list Project.t);
  rates_data : option (list Rate.t);
  fot_stats : option (list Fot.t);
  report : option string;
  report_file_path : option string;
  csv_file_path : option string;
  result_data : option (list Stored.t)
}.

Definition empty_xcom : XCom :=
  mkXCom None None None None None None None None.

Definition push_fot_stats (v : list Fot.t) (x : XCom) : XCom :=
  mkXCom (employees_data x) (projects_data x) (rates_data x) (Some v)
         (report x) (report_file_path x) (csv_file_path x) (result_data x).

Definition extracted (e : list Employee.t) (p : list Project.t)
    (r : list Rate.t) : XCom :=
  mkXCom (Some e) (Some p) (Some r) None None None None None.

(* ------------------------------------------------------------------ *)
(** ** The pandas operations [transform_data] uses *)

(** [pd.DataFrame(records)]: the rows; [None] gives the empty frame.  A
    frame built from no record has no column at all. *)
Definition DataFrame {A} (records : option (list A)) : list A :=
  match records with Some l => l | None => [] end.

Definition has_columns {A} (df : list A) : bool :=
  match df with [] => false | _ :: _ => true end.

Section Merge.
Context {L R K : Type}.
Variable eqb : K -> K -> bool.
Variable key_l : L -> option K.
Variable key_r : R -> K.

Definition matches (l : L) (right : list R) : list R :=
  match key_l l with
  | Some k => filter (fun r => eqb k (key_r r)) right
  | None => []
  end.

(** [pd.merge(left, right, how='left')]: every left row is kept, in order,
    once per matching right row, and once with nulls when none matches. *)
Definition merge_left (left : list L) (right : list R) : list (L * option R) :=
  flat_map (fun l =>
              match matches l right with
              | [] => [(l, None)]
              | ms => map (fun r => (l, Some r)) ms
              end) left.
End Merge.


(** The frame after both merges: the assignment, its roster row and its
    rate row. *)
Definition merged_row : Type := (Project.t * option Employee.t) * option Rate.t.

Definition col_project_id (m : merged_row) : Z := Project.project_id (fst (fst m)).
Definition col_hours_worked (m : merged_row) : Z := Project.hours_worked (fst (fst m)).
Definition col_position (m : Project.t * option Employee.t) : option string :=
  option_map Employee.position (snd m).
Definition col_rate_per_hour (m : merged_row) : option Z :=
  option_map Rate.rate_per_hour (snd m).

Definition merge_employees (projects_df : list Project.t)
    (employees_df : list Employee.t) : list (Project.t * option Employee.t) :=
  merge_left Z.eqb (fun p => Some (Project.employee_id p)) Employee.employee_id
             projects_df employees_df.

Definition merge_rates (merged_df : list (Project.t * option Employee.t))
    (rates_df : list Rate.t) : list merged_row :=
  merge_left String.eqb col_position Rate.position merged_df rates_df.

Definition merged (employees_df : list Employee.t) (rates_df : list Rate.t)
    (projects_df : list Project.t) : list merged_row :=
  merge_rates (merge_employees projects_df employees_df) rates_df.

(** The types of the numeric columns. *)
Inductive dtype : Type := int64 | float64 | object.

(** The column [pd.DataFrame(records)] makes of integer cells. *)
Definition infer_dtype (cells : list Z) : dtype :=
  if forallb in_int64 cells then int64 else object.

Definition is_null {A} (c : option A) : bool :=
  match c with None => true | Some _ => false end.

(** A column that a left merge takes from the right frame: a row without
    a match holds NaN there, which turns an int64 column into float64. *)
Definition merged_dtype (right : dtype) (cells : list (option Z)) : dtype :=
  match right with
  | int64 => if existsb is_null cells then float64 else int64
  | other => other
  end.

Definition product_dtype (a b : dtype) : dtype :=
  match a, b with
  | int64, int64 => int64
  | int64, float64 => float64
  | _, _ => object
  end.

Definition hours_dtype (projects_df : list Project.t) : dtype :=
  infer_dtype (map Project.hours_worked projects_df).

Definition rate_dtype (rates_df : list Rate.t) (merged_df : list merged_row) : dtype :=
  merged_dtype (infer_dtype (map Rate.rate_per_hour rates_df))
               (map col_rate_per_hour merged_df).

Definition payment_dtype (projects_df : list Project.t) (rates_df : list Rate.t)
    (merged_df : list merged_row) : dtype :=
  product_dtype (hours_dtype projects_df) (rate_dtype rates_df merged_df).

(** One cell of [hours_worked * rate_per_hour] in a column of type [dt]:
    the 64-bit product, the product of the two doubles, or Python's. *)
Definition multiply (dt : dtype) (hours rate : Z) : number :=
  match dt with
  | int64 => PyInt (wrap64 (hours * rate))
  | float64 => PyFloat (Float.mul (Float.of_int hours) (Float.of_int rate))
  | object => PyInt (hours * rate)
  end.

(** [merged_df['hours_worked'] * merged_df['rate_per_hour']]: null when the
    rate is. *)
Definition col_payment (dt : dtype) (m : merged_row) : option number :=
  option_map (multiply dt (col_hours_worked m)) (col_rate_per_hour m).

(** Exact sums, nulls skipped: what Python's integers add up to in a
    column of type [object], and what the machine sums below are compared
    with. *)
Definition sum (l : list Z) : Z := fold_right Z.add 0 l.

Definition sum_skipna (l : list (option Z)) : Z :=
  fold_right (fun c acc => match c with Some v => v + acc | None => acc end) 0 l.

(** The group sum of an int64 column: a 64-bit accumulator. *)
Definition sum_int64 (l : list Z) : Z :=
  fold_left (fun acc val => wrap64 (acc + val)) l 0.

(** The group sum of a float64 column: NaN is skipped, and the doubles are
    added with Kahan's compensation (an all-null group sums to 0.0). *)
Definition kahan_add (state : Float.t * Float.t) (val : Float.t)
    : Float.t * Float.t :=
  let (sumx, compensation) := state in
  let y := Float.sub val compensation in
  let t := Float.add sumx y in
  (t, Float.sub (Float.sub t sumx) y).

Definition sum_float64 (l : list (option Float.t)) : Float.t :=
  fst (fold_left (fun state c =>
                    match c with
                    | Some val => kahan_add state val
                    | None => state
                    end) l (Float.zero, Float.zero)).

Definition int_cell (c : option number) : option Z :=
  match c with Some (PyInt z) => Some z | _ => None end.
Definition float_cell (c : option number) : option Float.t :=
  match c with Some (PyFloat f) => Some f | _ => None end.

Fixpoint present {A} (l : list (option A)) : list A :=
  match l with
  | [] => []
  | Some a :: rest => a :: present rest
  | None :: rest => present rest
  end.

Definition column_sum (dt : dtype) (cells : list (option number)) : number :=
  match dt with
  | int64 => PyInt (sum_int64 (present (map int_cell cells)))
  | float64 => PyFloat (sum_float64 (map float_cell cells))
  | object => PyInt (sum_skipna (map int_cell cells))
  end.

(** The group keys of [groupby('project_id')]: distinct, ascending. *)
Fixpoint insert_key (k : Z) (keys : list Z) : list Z :=
  match keys with
  | [] => [k]
  | h :: t =>
      if k <? h then k :: keys
      else if k =? h then keys
      else h :: insert_key k t
  end.

Definition group_keys (col : list Z) : list Z := fold_right insert_key [] col.

Definition group (df : list merged_row) (k : Z) : list merged_row :=
  filter (fun m => col_project_id m =? k) df.

Definition group_total_hours (hours : dtype) (df : list merged_row) (k : Z) : Z :=
  match hours with
  | int64 => sum_int64 (map col_hours_worked (group df k))
  | _ => sum (map col_hours_worked (group df k))
  end.

Definition group_total_payment (payment : dtype) (df : list merged_row) (k : Z)
    : number :=
  column_sum payment (map (col_payment payment) (group df k)).

(** [groupby('project_id').agg(total_hours=..., total_payment=...)
    .reset_index()], on a frame whose [hours_worked] and [payment] columns
    have the given types. *)
Definition groupby_agg (hours payment : dtype) (df : list merged_row)
    : list Fot.t :=
  map (fun k => Fot.mk k (group_total_hours hours df k)
                       (group_total_payment payment df k))
      (group_keys (map col_project_id df)).

(** The aggregate of three non-empty record lists. *)
Definition aggregate (employees_df : list Employee.t) (rates_df : list Rate.t)
    (projects_df : list Project.t) : list Fot.t :=
  let merged_df := merged employees_df rates_df projects_df in
  groupby_agg (hours_dtype projects_df)
              (payment_dtype projects_df rates_df merged_df) merged_df.

(* ------------------------------------------------------------------ *)
(** ** Transformer *)

Definition transform_message (fot : list Fot.t) : string :=
  "Проанализировано " +++ str_of_nat (List.length fot) +++ " проектов".

(** [pd.merge(left, right, on=column, how='left')] on frames built from
    record lists: a frame built from no record has no column, and a merge
    on a column one of its frames lacks raises [KeyError]. *)
Definition pd_merge {L R K} (on : string) (eqb : K -> K -> bool)
    (key_l : L -> option K) (key_r : R -> K) (left : list L) (right : list R)
    : outcome (list (L * option R)) :=
  if has_columns left && has_columns right
  then Returned (merge_left eqb key_l key_r left right)
  else Raised (KeyError on).

(** [transform_data]: the three pulls, the two merges, the payment column
    (read through [col_payment]), the aggregation and the push. *)
Definition transform_data (x : XCom) : XCom * outcome string :=
  let employees_df := DataFrame (employees_data x) in
  let projects_df := DataFrame (projects_data x) in
  let rates_df := DataFrame (rates_data x) in
  match pd_merge "employee_id" Z.eqb (fun p => Some (Project.employee_id p))
                 Employee.employee_id projects_df employees_df with
  | Raised e => (x, Raised e)
  | Returned merged_df =>
      match pd_merge "position" String.eqb col_position Rate.position
                     merged_df rates_df with
      | Raised e => (x, Raised e)
      | Returned merged_df =>
          let fot_df :=
            groupby_agg (hours_dtype projects_df)
                        (payment_dtype projects_df rates_df merged_df)
                        merged_df in
          (push_fot_stats fot_df x, Returned (transform_message fot_df))
      end
  end.

(* ------------------------------------------------------------------ *)
(** ** SQLite behind a Python [sqlite3] connection *)

(** The database file: table [project_fot] (absent until created) and the
    [sqlite_sequence] entry of its AUTOINCREMENT key, the largest rowid the
    table ever held. *)
Record Database : Type := mkDatabase {
  project_fot : option (list Stored.t);
  sqlite_sequence : Z
}.

Definition empty_database : Database := mkDatabase None 0.

Definition contents (db : Database) : list Stored.t :=
  match project_fot db with Some rows => rows | None => [] end.

Definition max_rowid (rows : list Stored.t) : Z :=
  fold_right (fun r m => Z.max (Stored.id r) m) 0 rows.

(** An AUTOINCREMENT key: one more than the largest rowid the table holds
    or ever held. *)
Definition next_rowid (db : Database) : Z :=
  Z.max (sqlite_sequence db) (max_rowid (contents db)) + 1.

Inductive statement : Type :=
| CreateTableIfNotExists
| DeleteFrom
| HasTable
| InsertInto (now : string) (row : Fot.t)
| Commit
| Rollback.

Definition no_such_table : string := "no such table: project_fot".

Definition too_large : exception :=
  OverflowError "Python int too large to convert to SQLite INTEGER".

(** Binding a row to the INSERT: [sqlite3] takes a Python [int] only if it
    fits 64 bits; a [float] always. *)
Definition fits_sqlite (n : number) : bool :=
  match n with PyInt z => in_int64 z | PyFloat _ => true end.

Definition binds (row : Fot.t) : bool :=
  in_int64 (Fot.project_id row) && in_int64 (Fot.total_hours row) &&
  fits_sqlite (Fot.total_payment row).

Definition storable (df : list Fot.t) : bool := forallb binds df.

(** An aggregate whose [total_payment] column holds integers throughout or
    floats throughout, as every aggregate the Transformer pushes does.
    [pd.DataFrame(fot_stats)] gives a column that mixes both one type;
    that coercion is not modelled, and what is said about numbers that do
    not bind is said of uniform aggregates. *)
Definition is_int (n : number) : bool :=
  match n with PyInt _ => true | PyFloat _ => false end.

Definition uniform (df : list Fot.t) : bool :=
  forallb (fun row => is_int (Fot.total_payment row)) df ||
  forallb (fun row => negb (is_int (Fot.total_payment row))) df.

(** What a REAL column keeps of a number: an integer is converted to the
    nearest double. *)
Definition to_real (n : number) : Float.t :=
  match n with PyInt z => Float.of_int z | PyFloat f => f end.

Definition stored_values (row : Fot.t) : Values.t :=
  Values.mk (Fot.project_id row) (Float.of_int (Fot.total_hours row))
            (to_real (Fot.total_payment row)).

Definition store (rowid : Z) (now : string) (row : Fot.t) : Stored.t :=
  Stored.mk rowid (Fot.project_id row) (Float.of_int (Fot.total_hours row))
            (to_real (Fot.total_payment row)) now.

(** What a statement does to a database image.  [InsertInto] names the
    three data columns; [id] and [analysis_date] take their defaults.
    [HasTable] is the look-up in [sqlite_master] by which pandas decides
    whether to create the table. *)
Definition apply_statement (s : statement) (db : Database) : outcome Database :=
  match s with
  | CreateTableIfNotExists =>
      match project_fot db with
      | Some _ => Returned db
      | None => Returned (mkDatabase (Some []) (sqlite_sequence db))
      end
  | DeleteFrom =>
      match project_fot db with
      | Some _ => Returned (mkDatabase (Some []) (sqlite_sequence db))
      | None => Raised (OperationalError no_such_table)
      end
  | InsertInto now row =>
      match project_fot db with
      | Some rows =>
          if binds row then
            let rowid := next_rowid db in
            Returned (mkDatabase (Some (rows ++ [store rowid now row])) rowid)
          else Raised too_large
      | None => Raised (OperationalError no_such_table)
      end
  | HasTable | Commit | Rollback => Returned db
  end.

(** A connection: the committed image on disk, which every other reader
    sees and which survives the process, and the image of the open
    transaction, if one is open.  [autocommit] is false for
    [sqlite3.connect(path)]: the module then opens a transaction before the
    first DELETE or INSERT and leaves it open until commit or rollback.
    [sql_faults] tells for each coming statement whether the environment makes
    it fail (past its end none does); [seen] lists the images the disk
    held after each statement so far. *)
Record Connection : Type := mkConnection {
  disk : Database;
  pending : option Database;
  autocommit : bool;
  sql_faults : list (option exception);
  seen : list Database
}.

(** The fault the environment has in store for the next statement. *)
Definition next_fault (env : list (option exception)) : option exception :=
  match env with
  | Some e :: _ => Some e
  | _ => None
  end.

Definition connect (env : list (option exception)) (db : Database) : Connection :=
  mkConnection db None false env [db].

(** [conn.close()]: an open transaction is dropped. *)
Definition close (c : Connection) : Database := disk c.

Definition view (c : Connection) : Database :=
  match pending c with Some w => w | None => disk c end.

Definition is_dml (s : statement) : bool :=
  match s with DeleteFrom | InsertInto _ _ => true | _ => false end.

(** The connection after one statement that left the disk as [d] and the
    open transaction as [p]. *)
Definition step (c : Connection) (d : Database) (p : option Database) : Connection :=
  mkConnection d p (autocommit c) (tl (sql_faults c)) (seen c ++ [d]).

(** A statement that fails changes nothing; the transaction it ran in
    stays open. *)
Definition execute (s : statement) (c : Connection) : Connection * outcome unit :=
  match next_fault (sql_faults c) with
  | Some e => (step c (disk c) (pending c), Raised e)
  | None =>
      match s with
      | Commit => (step c (view c) None, Returned tt)
      | Rollback => (step c (disk c) None, Returned tt)
      | _ =>
          match apply_statement s (view c) with
          | Raised e => (step c (disk c) (pending c), Raised e)
          | Returned db' =>
              match pending c with
              | Some _ => (step c (disk c) (Some db'), Returned tt)
              | None =>
                  if is_dml s && negb (autocommit c)
                  then (step c (disk c) (Some db'), Returned tt)
                  else (step c db' None, Returned tt)
              end
          end
      end
  end.

(** Code over a connection that may raise. *)
Definition Sql (A : Type) : Type := Connection -> Connection * outcome A.

Definition ret {A} (a : A) : Sql A := fun c => (c, Returned a).

Definition bind {A B} (m : Sql A) (k : A -> Sql B) : Sql B :=
  fun c => match m c with
           | (c', Returned a) => k a c'
           | (c', Raised e) => (c', Raised e)
           end.

Notation "m ;; k" := (bind m (fun _ => k))
  (at level 61, right associativity).

Fixpoint executemany (ss : list statement) : Sql unit :=
  match ss with
  | [] => ret tt
  | s :: rest => execute s ;; executemany rest
  end.

(** [df.to_sql('project_fot', conn, if_exists='append', index=False)]:
    pandas finds the table, then inserts the rows and commits; when an
    insert or the commit raises it rolls back and re-raises. *)
Definition to_sql (now : string) (df : list Fot.t) : Sql unit :=
  execute HasTable ;;
  fun c => match (executemany (map (InsertInto now) df) ;; execute Commit) c with
           | (c', Returned _) => (c', Returned tt)
           | (c', Raised e) =>
               match execute Rollback c' with
               | (c'', Returned _) => (c'', Raised e)
               | (c'', Raised e') => (c'', Raised e')
               end
           end.

(** [ORDER BY total_payment DESC], ties in stored order. *)
Fixpoint insert_desc (r : Stored.t) (l : list Stored.t) : list Stored.t :=
  match l with
  | [] => [r]
  | h :: t =>
      if Float.leb (Stored.total_payment h) (Stored.total_payment r) then r :: l
      else h :: insert_desc r t
  end.

Definition order_by_total_payment_desc (rows : list Stored.t) : list Stored.t :=
  fold_right insert_desc [] rows.

(** The order of the result: no row is followed by one with a larger
    [total_payment]. *)
Definition by_payment_desc (a b : Stored.t) : Prop :=
  Float.leb (Stored.total_payment b) (Stored.total_payment a) = true.

(** [pd.read_sql(query, conn)] for a query that selects all rows of
    [project_fot] by descending [total_payment]; pandas wraps the error of
    a failed query. *)
Definition read_sql (query : string) : Sql (list Stored.t) :=
  fun c =>
    match next_fault (sql_faults c) with
    | Some e => (step c (disk c) (pending c), Raised e)
    | None =>
        match project_fot (view c) with
        | Some rows =>
            (step c (disk c) (pending c),
             Returned (order_by_total_payment_desc rows))
        | None =>
            (step c (disk c) (pending c),
             Raised (DatabaseError ("Execution failed on sql '" +++ query +++
                                    "': " +++ no_such_table)))
        end
    end.

(* ------------------------------------------------------------------ *)
(** ** Loader *)

Definition verification_query : string :=
  "SELECT * FROM project_fot ORDER BY total_payment DESC".

(** The body of the inner [try] of [load_to_database]. *)
Definition load_body (now : string) (df : list Fot.t) : Sql unit :=
  execute CreateTableIfNotExists ;;
  execute DeleteFrom ;;
  to_sql now df ;;
  execute Commit ;;
  bind (read_sql verification_query) (fun _ => ret tt).

Definition load_message (df : list Fot.t) : string :=
  "Загружено " +++ str_of_nat (List.length df) +++ " записей".

(** [load_to_database] in an environment [env] of statement faults: [now]
    is the database's CURRENT_TIMESTAMP during the run.  Beside the
    database it leaves and its outcome, the result lists the images of
    the database file during the run. *)
Definition load_to_database_in (env : list (option exception)) (now : string)
    (x : XCom) (db : Database) : (Database * list Database) * outcome string :=
  match fot_stats x with
  | None | Some [] => ((db, [db]), Raised (ValueError "Нет данных для загрузки"))
  | Some fot =>
      let df := fot in
      let (conn, res) := load_body now df (connect env db) in
      ((close conn, seen conn),
       match res with
       | Returned _ => Returned (load_message df)
       | Raised e => Raised e
       end)
  end.

(** [load_to_database] where no statement fails of itself. *)
Definition load_to_database (now : string) (x : XCom) (db : Database)
    : Database * outcome string :=
  let '((db', _), res) := load_to_database_in [] now x db in (db', res).

Definition payload (r : Stored.t) : Values.t :=
  Values.mk (Stored.project_id r) (Stored.total_hours r) (Stored.total_payment r).

(** The rows of [df] as stored from key [rowid] on. *)
Fixpoint number_rows (now : string) (rowid : Z) (df : list Fot.t) : list Stored.t :=
  match df with
  | [] => []
  | row :: rest => store rowid now row :: number_rows now (rowid + 1) rest
  end.

(** The database a run leaves that loads the non-empty [df]. *)
Definition loaded (now : string) (df : list Fot.t) (db : Database) : Database :=
  mkDatabase (Some (number_rows now (Z.max (sqlite_sequence db) 0 + 1) df))
             (Z.max (sqlite_sequence db) 0 + Z.of_nat (List.length df)).

(** The image after [CREATE TABLE IF NOT EXISTS]: the rows are untouched. *)
Definition created (db : Database) : Database :=
  match project_fot db with
  | Some _ => db
  | None => mkDatabase (Some []) (sqlite_sequence db)
  end.

(** No stored key exceeds the recorded sequence value. *)
Definition ids_bounded (db : Database) : Prop :=
  Forall (fun r => Stored.id r <= sqlite_sequence db) (contents db).

Definition with_fot_stats (df : list Fot.t) : XCom := push_fot_stats df empty_xcom.

(** Whether the environment fails one of the next [k] statements. *)
Fixpoint strikes (k : nat) (env : list (option exception)) : bool :=
  match k with
  | O => false
  | S k' => negb (is_null (next_fault env)) || strikes k' (tl env)
  end.

(** An image with the rows and the sequence value of [db]: [db] itself,
    or [db] with its table just created. *)
Definition unchanged (db d : Database) : Prop :=
  contents d = contents db /\ sqlite_sequence d = sqlite_sequence db.

(** Every image the disk held on a connection is such an image of [db]. *)
Definition keeps_rows (db : Database) (c : Connection) : Prop :=
  unchanged db (disk c) /\ Forall (unchanged db) (seen c).

(* ------------------------------------------------------------------ *)
(** ** Files *)

Definition FileSystem : Type := string -> option string.

Definition no_files : FileSystem := fun _ => None.

(** [open(path, 'w').write(content)]: the file is created or overwritten. *)
Definition write_file (path content : string) (fs : FileSystem) : FileSystem :=
  fun p => if String.eqb p path then Some content else fs p.

Definition path_exists (fs : FileSystem) (path : string) : bool :=
  match fs path with Some _ => true | None => false end.

Definition report_file : string := "/opt/airflow/project_fot_report.txt".
Definition csv_file : string := "/opt/airflow/project_fot_data.csv".

Definition nl : string := String "010"%char EmptyString.

(* ------------------------------------------------------------------ *)
(** ** Report Generator *)

Definition report_header (now : string) (df : list Stored.t) : string :=
"
ОТЧЕТ ПО ФОНДУ ОПЛАТЫ ТРУДА ПО ПРОЕКТАМ
====================================================
Дата анализа: " +++ now +++ "
Всего проектов: " +++ str_of_nat (List.length df) +++ "

".

Definition report_block (row : Stored.t) : string :=
"
Проект " +++ str_of_int (Stored.project_id row) +++ ":
- общие Часы: " +++ str_of_float (Stored.total_hours row) +++ "
- общий ФОТ: " +++ format_2f (Stored.total_payment row) +++ "
".

(** The header, then the loop over [df.iterrows()]. *)
Definition render_report (now : string) (df : list Stored.t) : string :=
  fold_left (fun report row => report +++ report_block row) df
            (report_header now df).

Definition csv_header : string :=
  "id,project_id,total_hours,total_payment,analysis_date" +++ nl.

Definition csv_line (row : Stored.t) : string :=
  str_of_int (Stored.id row) +++ "," +++
  str_of_int (Stored.project_id row) +++ "," +++
  str_of_float (Stored.total_hours row) +++ "," +++
  str_of_float (Stored.total_payment row) +++ "," +++
  Stored.analysis_date row +++ nl.

Definition join (parts : list string) : string :=
  fold_right String.append "" parts.

(** [df.to_csv(path, index=False)]. *)
Definition to_csv (df : list Stored.t) : string :=
  csv_header +++ join (map csv_line df).

Definition push_report (v : string) (x : XCom) : XCom :=
  mkXCom (employees_data x) (projects_data x) (rates_data x) (fot_stats x)
         (Some v) (report_file_path x) (csv_file_path x) (result_data x).
Definition push_report_file_path (v : string) (x : XCom) : XCom :=
  mkXCom (employees_data x) (projects_data x) (rates_data x) (fot_stats x)
         (report x) (Some v) (csv_file_path x) (result_data x).
Definition push_csv_file_path (v : string) (x : XCom) : XCom :=
  mkXCom (employees_data x) (projects_data x) (rates_data x) (fot_stats x)
         (report x) (report_file_path x) (Some v) (result_data x).
Definition push_result_data (v : list Stored.t) (x : XCom) : XCom :=
  mkXCom (employees_data x) (projects_data x) (rates_data x) (fot_stats x)
         (report x) (report_file_path x) (csv_file_path x) (Some v).

(** The query as the source writes it, in a triple-quoted string. *)
Definition report_query : string :=
"
            SELECT * 
            FROM project_fot 
            ORDER BY total_payment DESC

            ".

(** [generate_report]: [now] is [datetime.now()] as [strftime] prints it. *)
Definition generate_report (now : string) (db : Database) (fs : FileSystem)
    (x : XCom) : (FileSystem * XCom) * outcome string :=
  let conn := connect [] db in
  match read_sql report_query conn with
  | (_, Raised e) => ((fs, x), Raised e)
  | (_, Returned df) =>
      let report := render_report now df in
      let fs := write_file report_file report fs in
      let fs := write_file csv_file (to_csv df) fs in
      let x := push_report report x in
      let x := push_report_file_path report_file x in
      let x := push_csv_file_path csv_file x in
      let x := push_result_data df x in
      ((fs, x), Returned "Отчет успешно создан")
  end.

(* ------------------------------------------------------------------ *)
(** ** Notifier *)

Record Email : Type := mkEmail {
  to : list string;
  subject : string;
  html_content : string;
  files : list string
}.

(** The mail transport: what it delivered, and whether each of the coming
    sends fails (a send past the end of [faults] succeeds). *)
Record Transport : Type := mkTransport {
  delivered : list Email;
  faults : list (option exception)
}.

(** Airflow's [send_email]: the attachments are read while the message is
    built, then the message goes to the transport. *)
Definition send_email (fs : FileSystem) (m : Email) (t : Transport)
    : Transport * outcome unit :=
  match find (fun f => negb (path_exists fs f)) (files m) with
  | Some f => (t, Raised (FileNotFoundError f))
  | None =>
      match faults t with
      | Some e :: rest => (mkTransport (delivered t) rest, Raised e)
      | None :: rest => (mkTransport (delivered t ++ [m]) rest, Returned tt)
      | [] => (mkTransport (delivered t ++ [m]) [], Returned tt)
      end
  end.

(** Whether the transport takes the next message. *)
Definition accepts_next (t : Transport) : bool :=
  match faults t with Some _ :: _ => false | _ => true end.

Definition html_head (ds : string) : string :=
"
        <h2> Анализ ФОТ по проектам</h2>

        <h3>информация о выполнении </h3>
        <ul> 
            <li><strong>DAG:</strong> analysis fot </li>
            <li><strong>Дата выполнения:</strong> " +++ ds +++ "</li>
            <li><strong>Статус:</strong> ✅ Все задачи выполнены без ошибок</li>
            <li><strong>Результаты:</strong> Сохранены в базе данных SQLite</li>
        </ul>

        
        <h3>📈 Краткие результаты анализа::</h3>
        <table border=" +++ dq +++ "1" +++ dq +++ " style=" +++ dq +++ "border-collapse: collapse; width: 100%;" +++ dq +++ ">
            <tr style=" +++ dq +++ "background-color: #f2f2f2;" +++ dq +++ ">
                <th>project_id</th>
                <th>total_hours</th>
                <th>total_payment</th>
            </tr>
        ".

Definition html_row (row : Stored.t) : string :=
"
            <tr>
                <td>" +++ str_of_int (Stored.project_id row) +++ "</td>
                <td>" +++ str_of_float (Stored.total_hours row) +++ "</td>
                <td>" +++ format_2f (Stored.total_payment row) +++ "</td>
            </tr>
            ".

(** The closing part is a plain string, so its braces go out as written. *)
Definition html_tail : string :=
"
        </table>
        
        <h3>📎 Прикрепленные файлы:</h3>
        <ul>
            <li><strong>project_fot_report.txt</strong> - Подробный текстовый отчет</li>
            <li><strong>project_fot_data.csv</strong> - Данные в формате CSV</li>
        </ul>
        
        <p><em>Детальный отчет также доступен в логах задачи generate_report в Airflow UI.</em></p>
        
        <hr>
        <p style=" +++ dq +++ "color: #666; font-size: 12px;" +++ dq +++ ">
            Это автоматическое уведомление от системы Apache Airflow<br>
            Время отправки: {datetime.now().strftime('%Y-%m-%d %H:%M:%S')}
        </p>
        ".

Definition fallback_html (ds : string) (e : exception) : string :=
"
            <h3>Анализ ФОТ по проектам завершен успешно!</h3>
            <p>Дата выполнения: " +++ ds +++ "</p>
            <p>Все задачи выполнены без ошибок.</p>
            <p><strong>Примечание:</strong> Файлы результатов не удалось прикрепить из-за ошибки: " +++ exception_str e +++ "</p>
            <p>Результаты доступны в логах задачи generate_report.</p>
            ".

Definition recipients : list string := ["test@example.com"].

(** Building [html_content]: the loop over [result_data] raises when the
    key was never pushed. *)
Definition compose_html (ds : string) (x : XCom) : outcome string :=
  match result_data x with
  | None => Raised (TypeError "'NoneType' object is not iterable")
  | Some rows =>
      Returned (fold_left (fun html row => html +++ html_row row) rows
                          (html_head ds) +++ html_tail)
  end.

(** The two [os.path.exists] tests. *)
Definition attachments (fs : FileSystem) : list string :=
  (if path_exists fs report_file then [report_file] else []) ++
  (if path_exists fs csv_file then [csv_file] else []).

Definition report_email (html : string) (attached : list string) : Email :=
  mkEmail recipients "📈 ФОТ по проектам — отчет" html attached.

Definition fallback_email (ds : string) (e : exception) : Email :=
  mkEmail recipients "⚠️ Анализ ФОТ по проектам - Завершен (без файлов)"
          (fallback_html ds e) [].

(** The [try] block of [send_email_with_attachments]. *)
Definition send_report (ds : string) (x : XCom) (fs : FileSystem)
    (t : Transport) : Transport * outcome string :=
  match compose_html ds x with
  | Raised e => (t, Raised e)
  | Returned html =>
      match send_email fs (report_email html (attachments fs)) t with
      | (t', Returned _) => (t', Returned "Email отправлен с прикрепленными файлами")
      | (t', Raised e) => (t', Raised e)
      end
  end.

(** [send_email_with_attachments]: the handler sends the notice and then
    re-raises with a bare [raise]; an exception of the handler's own send
    leaves the function in its place. *)
Definition send_email_with_attachments (ds : string) (x : XCom)
    (fs : FileSystem) (t : Transport) : Transport * outcome string :=
  match send_report ds x fs t with
  | (t', Returned s) => (t', Returned s)
  | (t', Raised e) =>
      match send_email fs (fallback_email ds e) t' with
      | (t'', Returned _) => (t'', Raised e)
      | (t'', Raised e') => (t'', Raised e')
      end
  end.

(* ------------------------------------------------------------------ *)
(** ** The specification's payroll formula *)

(** [position(employee(assignment))] and [rate_per_hour(position)] as
    look-ups in the roster and in the rate card. *)
Definition spec_position (employees : list Employee.t) (eid : Z) : option string :=
  option_map Employee.position
             (find (fun e => eid =? Employee.employee_id e) employees).

Definition spec_rate (rates : list Rate.t) (pos : string) : option Z :=
  option_map Rate.rate_per_hour
             (find (fun r => String.eqb pos (Rate.position r)) rates).

(** [hours_worked x rate_per_hour], and 0 when the employee or the position
    has no match. *)
Definition spec_payment (employees : list Employee.t) (rates : list Rate.t)
    (a : Project.t) : Z :=
  match spec_position employees (Project.employee_id a) with
  | Some pos =>
      match spec_rate rates pos with
      | Some rate => Project.hours_worked a * rate
      | None => 0
      end
  | None => 0
  end.

Definition assignments_of (projects : list Project.t) (p : Z) : list Project.t :=
  filter (fun a => Project.project_id a =? p) projects.

Definition spec_total_payment (employees : list Employee.t)
    (rates : list Rate.t) (projects : list Project.t) (p : Z) : Z :=
  sum (map (spec_payment employees rates) (assignments_of projects p)).

Definition spec_total_hours (projects : list Project.t) (p : Z) : Z :=
  sum (map Project.hours_worked (assignments_of projects p)).

(** The row of project [p] in an aggregate. *)
Definition fot_row (fot : list Fot.t) (p : Z) : option Fot.t :=
  find (fun row => Fot.project_id row =? p) fot.

(** The rows the two merges make of one assignment. *)
Definition rows_of (employees : list Employee.t) (rates : list Rate.t)
    (a : Project.t) : list merged_row :=
  merged employees rates [a].

(** The payment of a merged row, and the totals of a group, in exact
    arithmetic. *)
Definition exact_payment (m : merged_row) : option Z :=
  option_map (fun rate => col_hours_worked m * rate) (col_rate_per_hour m).

Definition exact_total_hours (df : list merged_row) (k : Z) : Z :=
  sum (map col_hours_worked (group df k)).

Definition exact_total_payment (df : list merged_row) (k : Z) : Z :=
  sum_skipna (map exact_payment (group df k)).

(** Data on which the machine arithmetic is exact: hours and rates are
    non-negative integers, no rate reaches 2^53, and over the merged frame
    the hours, and the payments, add up to less than 2^53. *)
Definition exact_range (employees : list Employee.t) (rates : list Rate.t)
    (projects : list Project.t) : bool :=
  forallb (fun a => 0 <=? Project.hours_worked a) projects &&
  forallb (fun rt => (0 <=? Rate.rate_per_hour rt) &&
                     (Rate.rate_per_hour rt <? 2 ^ 53)) rates &&
  (sum (map col_hours_worked (merged employees rates projects)) <? 2 ^ 53) &&
  (sum_skipna (map exact_payment (merged employees rates projects)) <? 2 ^ 53).

(** Whether some merged row lacks a rate, which makes the payment column
    a float64 column; and the integer [z] as that column holds it. *)
Definition unmatched (employees : list Employee.t) (rates : list Rate.t)
    (projects : list Project.t) : bool :=
  existsb is_null (map col_rate_per_hour (merged employees rates projects)).

Definition as_payment (float : bool) (z : Z) : number :=
  if float then PyFloat (Float.mk z 0) else PyInt z.

(** A store whose aggregate, if it holds one, is uniform. *)
Definition uniform_payments (x : XCom) : bool :=
  match fot_stats x with Some df => uniform df | None => true end.

(** Records whose integers all fit 64 bits. *)
Definition int64_records (x : XCom) : bool :=
  forallb (fun a => in_int64 (Project.project_id a) &&
                    in_int64 (Project.hours_worked a))
          (DataFrame (projects_data x)) &&
  forallb (fun rt => in_int64 (Rate.rate_per_hour rt)) (DataFrame (rates_data x)).

(* ------------------------------------------------------------------ *)
(** ** Sample inputs *)

(** The scenario of the specification: two employees, two rates, three
    assignments. *)
Definition scenario_employees : list Employee.t :=
  [Employee.mk 1 "developer"; Employee.mk 2 "qa"].
Definition scenario_rates : list Rate.t :=
  [Rate.mk "developer" 50; Rate.mk "qa" 30].
Definition scenario_projects : list Project.t :=
  [Project.mk 1 1 10; Project.mk 2 2 5; Project.mk 3 1 8].
Definition scenario_fot : list Fot.t :=
  [Fot.mk 1 10 (PyInt 500); Fot.mk 2 5 (PyInt 150); Fot.mk 3 8 (PyInt 400)].

(** The database of the scenario after one run, and an XCom store that
    holds the rows the Report Generator read from it. *)
Definition scenario_database : Database :=
  loaded "2025-01-01 00:00:00" scenario_fot empty_database.
Definition scenario_report : XCom :=
  snd (fst (generate_report "2025-01-01 00:05:00" scenario_database no_files
              (with_fot_stats scenario_fot))).

(** A transport whose next two sends fail. *)
Definition transport_down : Transport :=
  mkTransport [] [Some (SMTPException "Connection refused");
                  Some (SMTPException "Connection refused again")].

(** One developer paid 2 an hour, with 2^62 hours on project 1. *)
Definition long_hours : list Project.t := [Project.mk 1 1 (2 ^ 62)].
Definition cheap_rates : list Rate.t := [Rate.mk "developer" 2].

(** An aggregate whose one row holds integers of 65 bits. *)
Definition huge_fot : list Fot.t := [Fot.mk 1 (2 ^ 64) (PyInt (2 ^ 64))].

(** A roster file that lists employee 1 twice. *)
Definition doubled_employees : list Employee.t :=
  [Employee.mk 1 "developer"; Employee.mk 1 "developer"].
Definition one_project : list Project.t := [Project.mk 1 1 10].

(** Projects 7 and 3 are worked on by employees 8 and 9 alone, whom the
    roster lacks; project 5 by employee 1. *)
Definition unmatched_projects : list Project.t :=
  [Project.mk 7 8 4; Project.mk 3 9 2; Project.mk 7 9 1; Project.mk 5 1 6].

(** Project 7 has two assignments; the first names employee 9, whom the
    roster lacks. *)
Definition stranger_projects : list Project.t :=
  [Project.mk 7 9 4; Project.mk 7 1 10].

(* ------------------------------------------------------------------ *)
(** ** Extractors *)

(** The data files as their readers see them: what [pd.read_csv],
    [pd.read_excel] and [json.load] give for a path, [None] where no file
    is. *)
Record DataFiles : Type := mkDataFiles {
  csv_tables : string -> option (list Employee.t);
  excel_tables : string -> option (list Project.t);
  json_values : string -> option (list Rate.t)
}.

Definition no_data_files : DataFiles :=
  mkDataFiles (fun _ => None) (fun _ => None) (fun _ => None).

Definition ends_with_slash (s : string) : bool :=
  match rev (list_ascii_of_string s) with
  | c :: _ => Ascii.eqb c "/"%char
  | [] => false
  end.

(** [os.path.join(directory, name)] on POSIX paths. *)
Definition os_path_join (directory name : string) : string :=
  if String.prefix "/" name then name
  else if String.eqb directory "" || ends_with_slash directory
       then directory +++ name
       else directory +++ "/" +++ name.

Definition DATA_DIR : string := "/opt/airflow/dags/data".

Definition push_employees_data (v : list Employee.t) (x : XCom) : XCom :=
  mkXCom (Some v) (projects_data x) (rates_data x) (fot_stats x)
         (report x) (report_file_path x) (csv_file_path x) (result_data x).
Definition push_projects_data (v : list Project.t) (x : XCom) : XCom :=
  mkXCom (employees_data x) (Some v) (rates_data x) (fot_stats x)
         (report x) (report_file_path x) (csv_file_path x) (result_data x).
Definition push_rates_data (v : list Rate.t) (x : XCom) : XCom :=
  mkXCom (employees_data x) (projects_data x) (Some v) (fot_stats x)
         (report x) (report_file_path x) (csv_file_path x) (result_data x).

Definition extract_emplooyes_data (files : DataFiles) (x : XCom)
    : XCom * outcome string :=
  let csv_path := os_path_join DATA_DIR "employees.csv" in
  match csv_tables files csv_path with
  | None => (x, Raised (FileNotFoundError csv_path))
  | Some employees_df =>
      (push_employees_data employees_df x,
       Returned ("Извлечено " +++ str_of_nat (List.length employees_df)
                 +++ " сотрудников"))
  end.

Definition extract_projects_data (files : DataFiles) (x : XCom)
    : XCom * outcome string :=
  let excel_path := os_path_join DATA_DIR "projects.xlsx" in
  match excel_tables files excel_path with
  | None => (x, Raised (FileNotFoundError excel_path))
  | Some projects_df =>
      (push_projects_data projects_df x,
       Returned ("Извлечено " +++ str_of_nat (List.length projects_df)
                 +++ " записей проектов"))
  end.

Definition extract_rates_data (files : DataFiles) (x : XCom)
    : XCom * outcome string :=
  let json_path := os_path_join DATA_DIR "rates.json" in
  match json_values files json_path with
  | None => (x, Raised (FileNotFoundError json_path))
  | Some rates_data =>
      (push_rates_data rates_data x,
       Returned ("Извлечено " +++ str_of_nat (List.length rates_data) +++ " ставок"))
  end.

(* ------------------------------------------------------------------ *)
(** ** The DAG *)

(** What the tasks of a run share. *)
Record World : Type := mkWorld {
  data_files : DataFiles;
  xcom : XCom;
  database : Database;
  file_system : FileSystem;
  transport : Transport
}.

Definition Task : Type := World -> World * outcome string.

Inductive extractor : Type := ExtractEmployees | ExtractProjects | ExtractRates.

Definition extractor_id (e : extractor) : string :=
  match e with
  | ExtractEmployees => "extract_emplooyes"
  | ExtractProjects => "extract_projects"
  | ExtractRates => "extract_rates"
  end.

Definition extract_task (e : extractor) : Task :=
  fun w =>
    let (x, o) :=
      match e with
      | ExtractEmployees => extract_emplooyes_data (data_files w) (xcom w)
      | ExtractProjects => extract_projects_data (data_files w) (xcom w)
      | ExtractRates => extract_rates_data (data_files w) (xcom w)
      end in
    (mkWorld (data_files w) x (database w) (file_system w) (transport w), o).

Definition transform_task : Task :=
  fun w =>
    let (x, o) := transform_data (xcom w) in
    (mkWorld (data_files w) x (database w) (file_system w) (transport w), o).

Definition load_task (now : string) : Task :=
  fun w =>
    let (db, o) := load_to_database now (xcom w) (database w) in
    (mkWorld (data_files w) (xcom w) db (file_system w) (transport w), o).

Definition report_task (now : string) : Task :=
  fun w =>
    let '((fs, x), o) := generate_report now (database w) (file_system w) (xcom w) in
    (mkWorld (data_files w) x (database w) fs (transport w), o).

Definition email_task (ds : string) : Task :=
  fun w =>
    let (t, o) :=
      send_email_with_attachments ds (xcom w) (file_system w) (transport w) in
    (mkWorld (data_files w) (xcom w) (database w) (file_system w) t, o).

(** ['retries': 1]: a task that raises is tried once more; [task k] is its
    [k]-th try. *)
Definition with_retries (task : nat -> Task) : Task :=
  fun w =>
    match task 1%nat w with
    | (w', Raised _) => task 2%nat w'
    | result => result
    end.

(** Tasks without dependencies among them: each one runs. *)
Fixpoint run_independent (tasks : list (string * Task)) (w : World)
    : World * list (string * outcome string) :=
  match tasks with
  | [] => (w, [])
  | (task_id, task) :: rest =>
      let (w1, o) := task w in
      let (w2, log) := run_independent rest w1 in
      (w2, (task_id, o) :: log)
  end.

(** A chain [a >> b >> ...]: a task runs when the one before it returned. *)
Fixpoint run_chain (tasks : list (string * Task)) (w : World)
    : World * list (string * outcome string) :=
  match tasks with
  | [] => (w, [])
  | (task_id, task) :: rest =>
      match task w with
      | (w1, Returned s) =>
          let (w2, log) := run_chain rest w1 in
          (w2, (task_id, Returned s) :: log)
      | (w1, Raised e) => (w1, [(task_id, Raised e)])
      end
  end.

Definition all_returned (log : list (string * outcome string)) : bool :=
  forallb (fun entry => negb (is_raised (snd entry))) log.

Definition extract_tasks (order : list extractor) : list (string * Task) :=
  map (fun e => (extractor_id e, with_retries (fun _ => extract_task e))) order.

Definition chain_tasks (ds : string) (now : string -> nat -> string)
    : list (string * Task) :=
  [("transform_data", with_retries (fun _ => transform_task));
   ("load_to_database",
    with_retries (fun k => load_task (now "load_to_database" k)));
   ("generate_report",
    with_retries (fun k => report_task (now "generate_report" k)));
   ("send_email_notification", with_retries (fun _ => email_task ds))].

(** One run of the DAG: the three extractors in the order the scheduler
    picks, then, when all three returned, the chain Transformer, Loader,
    Report Generator, Notifier.  [now task_id k] is the clock at the
    [k]-th try of a task.  The result is the state of every task that
    ran.  The scheduler's own failure alerts are no part of it. *)
Definition run_dag (order : list extractor) (ds : string)
    (now : string -> nat -> string) (w : World)
    : World * list (string * outcome string) :=
  let (w1, log1) := run_independent (extract_tasks order) w in
  if all_returned log1 then
    let (w2, log2) := run_chain (chain_tasks ds now) w1 in
    (w2, log1 ++ log2)
  else (w1, log1).

Definition all_extractors : list extractor :=
  [ExtractEmployees; ExtractProjects; ExtractRates].

(* ------------------------------------------------------------------ *)
(** ** Data Generator ([data_generation.py]) *)

(** The random source: the raw draws to come.  [random.choice] and
    [random.randint] each take one draw, reduced to the range asked for. *)
Definition Rng : Type := nat -> nat.

Definition randbelow (n : nat) (g : Rng) : nat * Rng :=
  (Nat.modulo (g 0%nat) n, fun i => g (S i)).

Definition randint (a b : Z) (g : Rng) : Z * Rng :=
  let (v, g') := randbelow (Z.to_nat (b - a + 1)) g in
  (a + Z.of_nat v, g').

Definition choice (seq : list string) (g : Rng) : string * Rng :=
  let (i, g') := randbelow (List.length seq) g in
  (nth i seq "", g').

Definition positions : list string :=
  ["manager"; "developer"; "analyst"; "designer"; "qa"; "hr"; "support"].

(** [[random.choice(positions) for _ in range(n)]]. *)
Fixpoint choices (n : nat) (seq : list string) (g : Rng) : list string * Rng :=
  match n with
  | O => ([], g)
  | S m =>
      let (c, g1) := choice seq g in
      let (cs, g2) := choices m seq g1 in
      (c :: cs, g2)
  end.

(** [range(first, first + n)]. *)
Fixpoint range (first : Z) (n : nat) : list Z :=
  match n with
  | O => []
  | S m => first :: range (first + 1) m
  end.

Definition write_csv (path : string) (rows : list Employee.t)
    (files : DataFiles) : DataFiles :=
  mkDataFiles (fun p => if String.eqb p path then Some rows else csv_tables files p)
              (excel_tables files) (json_values files).

Definition write_excel (path : string) (rows : list Project.t)
    (files : DataFiles) : DataFiles :=
  mkDataFiles (csv_tables files)
              (fun p => if String.eqb p path then Some rows else excel_tables files p)
              (json_values files).

Definition write_json (path : string) (rows : list Rate.t)
    (files : DataFiles) : DataFiles :=
  mkDataFiles (csv_tables files) (excel_tables files)
              (fun p => if String.eqb p path then Some rows else json_values files p).

(** [generate_employees_data]: 100 employees, numbered from 1, each with a
    position drawn from the list; the frame is written and returned. *)
Definition generate_employees_data (data_dir : string) (g : Rng)
    (files : DataFiles) : (list Employee.t * Rng) * DataFiles :=
  let (drawn, g') := choices 100 positions g in
  let df := map (fun c => Employee.mk (fst c) (snd c)) (combine (range 1 100) drawn) in
  ((df, g'), write_csv (os_path_join data_dir "employees.csv") df files).

(** [[{'position': pos, 'rate_per_hour': random.randint(20, 100)} for pos
    in positions]]. *)
Fixpoint draw_rates (seq : list string) (g : Rng) : list Rate.t * Rng :=
  match seq with
  | [] => ([], g)
  | pos :: rest =>
      let (rate, g1) := randint 20 100 g in
      let (more, g2) := draw_rates rest g1 in
      (Rate.mk pos rate :: more, g2)
  end.

Definition generate_rates_data (data_dir : string) (g : Rng)
    (files : DataFiles) : (list Rate.t * Rng) * DataFiles :=
  let (rates_data, g') := draw_rates positions g in
  ((rates_data, g'), write_json (os_path_join data_dir "rates.json") rates_data files).

(** The inner loop of [generate_projects_data]: [n] projects of one
    employee, numbered from [project_id_counter]. *)
Fixpoint employee_projects (n : nat) (employee_id project_id_counter : Z)
    (g : Rng) : (list Project.t * Z) * Rng :=
  match n with
  | O => (([], project_id_counter), g)
  | S m =>
      let (hours_worked, g1) := randint 5 40 g in
      let '((rest, counter), g2) :=
        employee_projects m employee_id (project_id_counter + 1) g1 in
      ((Project.mk project_id_counter employee_id hours_worked :: rest, counter), g2)
  end.

(** The outer loop: one to three projects per employee. *)
Fixpoint projects_records (employee_ids : list Z) (project_id_counter : Z)
    (g : Rng) : (list Project.t * Z) * Rng :=
  match employee_ids with
  | [] => (([], project_id_counter), g)
  | employee_id :: rest =>
      let (num_projects, g1) := randint 1 3 g in
      let '((own, counter1), g2) :=
        employee_projects (Z.to_nat num_projects) employee_id project_id_counter g1 in
      let '((others, counter2), g3) := projects_records rest counter1 g2 in
      ((own ++ others, counter2), g3)
  end.

Definition generate_projects_data (employees_df : list Employee.t)
    (data_dir : string) (g : Rng) (files : DataFiles)
    : (list Project.t * Rng) * DataFiles :=
  let '((records, _), g') :=
    projects_records (map Employee.employee_id employees_df) 1 g in
  ((records, g'), write_excel (os_path_join data_dir "projects.xlsx") records files).

(** The three generators in the order [main] calls them. *)
Definition generate_all (data_dir : string) (g : Rng) (files : DataFiles)
    : ((list Employee.t * list Rate.t * list Project.t) * Rng) * DataFiles :=
  let '((employees_df, g1), files1) := generate_employees_data data_dir g files in
  let '((rates_data, g2), files2) := generate_rates_data data_dir g1 files1 in
  let '((projects_df, g3), files3) :=
    generate_projects_data employees_df data_dir g2 files2 in
  (((employees_df, rates_data, projects_df), g3), files3).

(** A random source for examples, and the data set and the world the
    generator makes of it in the DAG's data directory. *)
Definition sample_rng : Rng := fun i => (7 * i + 3)%nat.

Definition sample_generated
    : ((list Employee.t * list Rate.t * list Project.t) * Rng) * DataFiles :=
  generate_all DATA_DIR sample_rng no_data_files.

Definition sample_employees : list Employee.t := fst (fst (fst (fst sample_generated))).
Definition sample_rates : list Rate.t := snd (fst (fst (fst sample_generated))).
Definition sample_projects : list Project.t := snd (fst (fst sample_generated)).

Definition new_world (files : DataFiles) : World :=
  mkWorld files empty_xcom empty_database no_files (mkTransport [] []).

(** The scenario of the specification as data files. *)
Definition scenario_files : DataFiles :=
  write_json (os_path_join DATA_DIR "rates.json") scenario_rates
    (write_excel (os_path_join DATA_DIR "projects.xlsx") scenario_projects
       (write_csv (os_path_join DATA_DIR "employees.csv") scenario_employees
          no_data_files)).

Definition sample_order : list extractor :=
  [ExtractRates; ExtractEmployees; ExtractProjects].

Definition sample_clock : string -> nat -> string :=
  fun _ _ => "2025-01-01 00:00:00".

(* ------------------------------------------------------------------ *)
(** * Properties of the Transformer *)

Section MergeFacts.
Context {L R K : Type}.
Variable eqb : K -> K -> bool.
Variable key_l : L -> option K.
Variable key_r : R -> K.
Hypothesis eqb_eq : forall a b, eqb a b = true <-> a = b.

Lemma merge_left_app (l1 l2 : list L) (right : list R) :
  merge_left eqb key_l key_r (l1 ++ l2) right =
  merge_left eqb key_l key_r l1 right ++ merge_left eqb key_l key_r l2 right.
Proof. unfold merge_left. apply flat_map_app. Qed.

Lemma filter_unique_key (k : K) (right : list R) :
  NoDup (map key_r right) ->
  filter (fun r => eqb k (key_r r)) right =
  match find (fun r => eqb k (key_r r)) right with
  | Some r => [r]
  | None => []
  end.
Proof.
  induction right as [|h t IH]; intros Hnd; simpl; [reflexivity|].
  inversion Hnd as [|? ? Hnotin Hnd']; subst.
  destruct (eqb k (key_r h)) eqn:E.
  - f_equal. apply eqb_eq in E. subst k.
    clear IH Hnd Hnd'. induction t as [|h' t' IHt]; simpl; [reflexivity|].
    destruct (eqb (key_r h) (key_r h')) eqn:E'.
    + exfalso. apply Hnotin. left. symmetry. now apply eqb_eq.
    + apply IHt. intros Hin. apply Hnotin. now right.
  - now apply IH.
Qed.

Lemma filter_absent_key (k : K) (right : list R) :
  ~ In k (map key_r right) ->
  filter (fun r => eqb k (key_r r)) right = [].
Proof.
  induction right as [|h t IH]; intros Hnotin; simpl; [reflexivity|].
  destruct (eqb k (key_r h)) eqn:E.
  - exfalso. apply Hnotin. left. symmetry. now apply eqb_eq.
  - apply IH. intros Hin. apply Hnotin. now right.
Qed.

Lemma merge_left_keeps_left (left : list L) (right : list R) (row : L * option R) :
  In row (merge_left eqb key_l key_r left right) -> In (fst row) left.
Proof.
  unfold merge_left. rewrite in_flat_map. intros [l [Hl Hin]].
  destruct (matches eqb key_l key_r l right) as [|m ms].
  - destruct Hin as [<-|[]]. exact Hl.
  - apply in_map_iff in Hin. destruct Hin as [r [<- _]]. exact Hl.
Qed.

Lemma merge_left_covers_left (left : list L) (right : list R) (l : L) :
  In l left -> exists o, In (l, o) (merge_left eqb key_l key_r left right).
Proof.
  intros Hl. unfold merge_left.
  destruct (matches eqb key_l key_r l right) as [|m ms] eqn:E.
  - exists None. apply in_flat_map. exists l. split; [exact Hl|].
    rewrite E. now left.
  - exists (Some m). apply in_flat_map. exists l. split; [exact Hl|].
    rewrite E. now left.
Qed.
End MergeFacts.

Lemma merged_cons e r a l : merged e r (a :: l) = rows_of e r a ++ merged e r l.
Proof.
  unfold rows_of, merged, merge_rates, merge_employees.
  change (a :: l) with ([a] ++ l).
  now rewrite !merge_left_app.
Qed.

Lemma merged_app e r l1 l2 : merged e r (l1 ++ l2) = merged e r l1 ++ merged e r l2.
Proof.
  unfold merged, merge_rates, merge_employees. now rewrite !merge_left_app.
Qed.

Lemma rows_of_project e r a m :
  In m (rows_of e r a) -> fst (fst m) = a.
Proof.
  unfold rows_of, merged, merge_rates, merge_employees. intros H.
  apply merge_left_keeps_left in H. apply merge_left_keeps_left in H.
  destruct H as [H|[]]. now symmetry.
Qed.

Lemma rows_of_nonempty e r a : rows_of e r a <> [].
Proof.
  unfold rows_of, merged, merge_rates, merge_employees.
  destruct (merge_left_covers_left Z.eqb (fun p => Some (Project.employee_id p))
              Employee.employee_id [a] e a (or_introl eq_refl)) as [o Ho].
  destruct (merge_left_covers_left String.eqb col_position Rate.position _ r _ Ho)
    as [o' Ho'].
  intros E. rewrite E in Ho'. exact Ho'.
Qed.

Lemma sum_app l1 l2 : sum (l1 ++ l2) = sum l1 + sum l2.
Proof. unfold sum. induction l1 as [|h t IH]; simpl; [reflexivity|]. rewrite IH. lia. Qed.

Lemma sum_skipna_app l1 l2 : sum_skipna (l1 ++ l2) = sum_skipna l1 + sum_skipna l2.
Proof.
  unfold sum_skipna. induction l1 as [|[v|] t IH]; simpl; [reflexivity| |exact IH].
  rewrite IH. lia.
Qed.

Lemma group_app df1 df2 k : group (df1 ++ df2) k = group df1 k ++ group df2 k.
Proof. unfold group. apply filter_app. Qed.

Lemma group_rows_of e r a k :
  group (rows_of e r a) k =
  if Project.project_id a =? k then rows_of e r a else [].
Proof.
  unfold group.
  assert (H : forall m, In m (rows_of e r a) ->
             (col_project_id m =? k) = (Project.project_id a =? k)).
  { intros m Hm. unfold col_project_id. now rewrite (rows_of_project _ _ _ _ Hm). }
  induction (rows_of e r a) as [|m ms IH]; simpl.
  - now destruct (Project.project_id a =? k).
  - rewrite (H m (or_introl eq_refl)), IH by (intros; apply H; now right).
    now destruct (Project.project_id a =? k).
Qed.

(** The group of project [k] holds the rows of the assignments of [k], and
    no other row. *)
Lemma group_merged e r projects k :
  group (merged e r projects) k =
  flat_map (rows_of e r) (assignments_of projects k).
Proof.
  induction projects as [|a l IH]; [reflexivity|].
  rewrite merged_cons, group_app, group_rows_of, IH. simpl.
  now destruct (Project.project_id a =? k).
Qed.


Lemma exact_total_hours_merged e r projects k :
  exact_total_hours (merged e r projects) k =
  sum (map (fun a => sum (map col_hours_worked (rows_of e r a)))
           (assignments_of projects k)).
Proof.
  unfold exact_total_hours. rewrite group_merged.
  induction (assignments_of projects k) as [|a l IH]; [reflexivity|].
  simpl. rewrite map_app, sum_app. fold (sum (map (fun a0 => sum (map col_hours_worked (rows_of e r a0))) l)).
  now rewrite IH.
Qed.

Lemma exact_total_payment_merged e r projects k :
  exact_total_payment (merged e r projects) k =
  sum (map (fun a => sum_skipna (map exact_payment (rows_of e r a)))
           (assignments_of projects k)).
Proof.
  unfold exact_total_payment. rewrite group_merged.
  induction (assignments_of projects k) as [|a l IH]; [reflexivity|].
  simpl. rewrite map_app, sum_skipna_app.
  fold (sum (map (fun a0 => sum_skipna (map exact_payment (rows_of e r a0))) l)).
  now rewrite IH.
Qed.
Lemma Zeqb_eq' : forall a b : Z, (a =? b) = true <-> a = b.
Proof. intros. apply Z.eqb_eq. Qed.

Lemma merge_left_single {L R K} (eqb : K -> K -> bool) (key_l : L -> option K)
    (key_r : R -> K) (l : L) (right : list R) :
  merge_left eqb key_l key_r [l] right =
  match matches eqb key_l key_r l right with
  | [] => [(l, None)]
  | ms => map (fun r => (l, Some r)) ms
  end.
Proof. unfold merge_left. simpl. apply app_nil_r. Qed.


(** With unique keys each assignment keeps exactly one row. *)
Lemma rows_of_unique_keys e r a :
  NoDup (map Employee.employee_id e) ->
  NoDup (map Rate.position r) ->
  exists oe orate,
    rows_of e r a = [((a, oe), orate)] /\
    exact_payment ((a, oe), orate) =
      match spec_position e (Project.employee_id a) with
      | Some pos => option_map (fun rate => Project.hours_worked a * rate) (spec_rate r pos)
      | None => None
      end.
Proof.
  intros He Hr.
  unfold rows_of, merged, merge_employees, merge_rates.
  rewrite (merge_left_single Z.eqb). unfold matches.
  rewrite (filter_unique_key Z.eqb Employee.employee_id Zeqb_eq' _ e He).
  unfold spec_position.
  destruct (find (fun e0 => Project.employee_id a =? Employee.employee_id e0) e)
    as [emp|]; cbn [map option_map]; rewrite merge_left_single;
    unfold matches; cbn [col_position snd option_map].
  - rewrite (filter_unique_key String.eqb Rate.position String.eqb_eq _ r Hr).
    unfold spec_rate.
    destruct (find (fun r0 => String.eqb (Employee.position emp) (Rate.position r0)) r)
      as [rt|]; simpl.
    + exists (Some emp), (Some rt). split; reflexivity.
    + exists (Some emp), None. split; reflexivity.
  - exists None, None. split; reflexivity.
Qed.

(** An assignment of an employee the roster lacks keeps one row, with a
    null payment. *)
Lemma rows_of_absent_employee e r a :
  ~ In (Project.employee_id a) (map Employee.employee_id e) ->
  rows_of e r a = [((a, None), None)].
Proof.
  intros Habs.
  unfold rows_of, merged, merge_employees, merge_rates.
  rewrite (merge_left_single Z.eqb). unfold matches.
  rewrite (filter_absent_key Z.eqb Employee.employee_id Zeqb_eq' _ e Habs).
  rewrite merge_left_single. reflexivity.
Qed.

Lemma insert_key_In k keys x : In x (insert_key k keys) <-> x = k \/ In x keys.
Proof.
  induction keys as [|h t IH]; simpl.
  - intuition.
  - destruct (k <? h) eqn:Elt; [simpl; intuition|].
    destruct (k =? h) eqn:Eeq.
    + apply Z.eqb_eq in Eeq. subst h. simpl. intuition.
    + simpl. rewrite IH. intuition.
Qed.

Lemma insert_key_sorted k keys :
  StronglySorted Z.lt keys -> StronglySorted Z.lt (insert_key k keys).
Proof.
  induction keys as [|h t IH]; intros Hs; simpl.
  - constructor; constructor.
  - inversion Hs as [|? ? Hst Hall]; subst.
    destruct (k <? h) eqn:Elt.
    + apply Z.ltb_lt in Elt. constructor; [exact Hs|].
      constructor; [exact Elt|].
      eapply Forall_impl; [|exact Hall]. simpl. intros; lia.
    + destruct (k =? h) eqn:Eeq; [exact Hs|].
      apply Z.ltb_ge in Elt. apply Z.eqb_neq in Eeq.
      constructor; [now apply IH|].
      apply Forall_forall. intros x Hx. apply insert_key_In in Hx.
      destruct Hx as [->|Hx]; [lia|].
      rewrite Forall_forall in Hall. now apply Hall.
Qed.

Lemma group_keys_In col x : In x (group_keys col) <-> In x col.
Proof.
  induction col as [|h t IH]; simpl; [tauto|].
  rewrite insert_key_In, IH. intuition.
Qed.

Lemma group_keys_sorted col : StronglySorted Z.lt (group_keys col).
Proof.
  induction col as [|h t IH]; simpl; [constructor|]. now apply insert_key_sorted.
Qed.

Lemma sorted_lt_NoDup keys : StronglySorted Z.lt keys -> NoDup keys.
Proof.
  induction 1 as [|h t Hs IH Hall]; constructor; [|exact IH].
  intros Hin. rewrite Forall_forall in Hall. specialize (Hall h Hin). lia.
Qed.

(** ** The machine arithmetic where it is exact *)

Lemma wrap64_small z : - 2 ^ 63 <= z < 2 ^ 63 -> wrap64 z = z.
Proof.
  intros H. unfold wrap64.
  change (2 ^ 63) with 9223372036854775808 in *.
  change (2 ^ 64) with 18446744073709551616.
  rewrite Z.mod_small by lia. lia.
Qed.

Lemma wrap64_in_int64 z : in_int64 (wrap64 z) = true.
Proof.
  unfold in_int64, wrap64.
  change (2 ^ 63) with 9223372036854775808.
  change (2 ^ 64) with 18446744073709551616.
  pose proof (Z.mod_pos_bound (z + 9223372036854775808) 18446744073709551616 eq_refl).
  apply andb_true_intro. split; [apply Z.leb_le|apply Z.ltb_lt]; lia.
Qed.

Lemma in_int64_small z : 0 <= z < 2 ^ 53 -> in_int64 z = true.
Proof.
  intros H. unfold in_int64.
  change (2 ^ 53) with 9007199254740992 in H.
  change (2 ^ 63) with 9223372036854775808.
  apply andb_true_intro. split; [apply Z.leb_le|apply Z.ltb_lt]; lia.
Qed.

Lemma sum_nonneg l : Forall (fun v => 0 <= v) l -> 0 <= sum l.
Proof. unfold sum. induction 1; simpl; lia. Qed.

Lemma sum_int64_from l : forall acc,
  0 <= acc -> Forall (fun v => 0 <= v) l -> acc + sum l < 2 ^ 63 ->
  fold_left (fun acc val => wrap64 (acc + val)) l acc = acc + sum l.
Proof.
  induction l as [|v l IH]; intros acc Hacc Hl Hb.
  - unfold sum. simpl. lia.
  - inversion Hl as [|? ? Hv Hl']; subst.
    pose proof (sum_nonneg l Hl') as Hs.
    change (sum (v :: l)) with (v + sum l) in *.
    cbn [fold_left]. rewrite wrap64_small by lia.
    rewrite IH by (try assumption; lia). lia.
Qed.

Lemma sum_int64_exact l :
  Forall (fun v => 0 <= v) l -> sum l < 2 ^ 63 -> sum_int64 l = sum l.
Proof.
  intros Hl Hb. unfold sum_int64. rewrite sum_int64_from by (try assumption; lia). lia.
Qed.

Lemma sum_int64_in_int64 l : in_int64 (sum_int64 l) = true.
Proof.
  unfold sum_int64.
  assert (H : forall acc, in_int64 acc = true ->
            in_int64 (fold_left (fun acc val => wrap64 (acc + val)) l acc) = true).
  { induction l as [|v l IH]; intros acc Hacc; [exact Hacc|].
    cbn [fold_left]. apply IH, wrap64_in_int64. }
  now apply H.
Qed.

Lemma reduce_pow2 k z : Float.reduce (z * 2 ^ Z.of_nat k) k = Float.mk z 0.
Proof.
  revert z. induction k as [|k IH]; intros z.
  - cbn [Float.reduce]. f_equal. change (2 ^ Z.of_nat 0) with 1. lia.
  - cbn [Float.reduce].
    replace (z * 2 ^ Z.of_nat (S k)) with (2 * (z * 2 ^ Z.of_nat k))
      by (rewrite Nat2Z.inj_succ, Z.pow_succ_r by lia; lia).
    rewrite Z.even_mul. cbn [Z.even orb].
    rewrite Z.div2_div, Z.mul_comm, Z.div_mul by lia. apply IH.
Qed.

Lemma div_half_even_1 n : Float.div_half_even n 1 = n.
Proof.
  unfold Float.div_half_even. rewrite Z.mod_1_r, Z.div_1_r. reflexivity.
Qed.

(** An integer below 2^53 in magnitude is a double. *)
Lemma of_ratio_small z : - 2 ^ 53 < z < 2 ^ 53 -> Float.of_ratio z 1 = Float.mk z 0.
Proof.
  intros Hz. unfold Float.of_ratio.
  destruct (z =? 0) eqn:E0; [apply Z.eqb_eq in E0; now subst z|].
  apply Z.eqb_neq in E0.
  assert (Habs : 0 < Z.abs z < 2 ^ 53) by lia.
  pose proof (Z.log2_spec (Z.abs z) (proj1 Habs)) as [Hlo Hhi].
  pose proof (Z.log2_nonneg (Z.abs z)) as Hnn.
  assert (Hlt : Z.log2 (Z.abs z) < 53).
  { apply Z.log2_lt_pow2; lia. }
  assert (Hfl : Float.floor_log2 (Z.abs z) 1 = Z.log2 (Z.abs z)).
  { unfold Float.floor_log2. change (Z.log2 1) with 0. rewrite Z.sub_0_r.
    destruct (0 <=? Z.log2 (Z.abs z)) eqn:E1; [|apply Z.leb_gt in E1; lia].
    rewrite Z.mul_1_l.
    destruct (2 ^ Z.log2 (Z.abs z) <=? Z.abs z) eqn:E2; [reflexivity|].
    apply Z.leb_gt in E2. lia. }
  rewrite Hfl.
  rewrite Z.max_l by lia.
  destruct (0 <=? Z.log2 (Z.abs z) - 52) eqn:Es.
  - apply Z.leb_le in Es.
    replace (Z.log2 (Z.abs z) - 52) with 0 by lia.
    change (2 ^ 0) with 1. rewrite Z.mul_1_l, div_half_even_1. f_equal. lia.
  - apply Z.leb_gt in Es. rewrite div_half_even_1.
    rewrite <- (Z2Nat.id (- (Z.log2 (Z.abs z) - 52))) at 1 by lia.
    apply reduce_pow2.
Qed.

Lemma of_int_small z : - 2 ^ 53 < z < 2 ^ 53 -> Float.of_int z = Float.mk z 0.
Proof. apply of_ratio_small. Qed.

Lemma mul_small a b :
  - 2 ^ 53 < a * b < 2 ^ 53 ->
  Float.mul (Float.mk a 0) (Float.mk b 0) = Float.mk (a * b) 0.
Proof.
  intros H. unfold Float.mul, Float.denominator. cbn [Float.num Float.scale].
  change (2 ^ Z.of_nat 0 * 2 ^ Z.of_nat 0) with 1. now apply of_ratio_small.
Qed.

Lemma add_small a b :
  - 2 ^ 53 < a + b < 2 ^ 53 ->
  Float.add (Float.mk a 0) (Float.mk b 0) = Float.mk (a + b) 0.
Proof.
  intros H. unfold Float.add, Float.denominator. cbn [Float.num Float.scale].
  change (2 ^ Z.of_nat 0) with 1. rewrite !Z.mul_1_r.
  now apply of_ratio_small.
Qed.

Lemma sub_small a b :
  - 2 ^ 53 < a - b < 2 ^ 53 ->
  Float.sub (Float.mk a 0) (Float.mk b 0) = Float.mk (a - b) 0.
Proof.
  intros H. unfold Float.sub, Float.denominator. cbn [Float.num Float.scale].
  change (2 ^ Z.of_nat 0) with 1. rewrite !Z.mul_1_r.
  now apply of_ratio_small.
Qed.

(** Kahan's step on integers that stay below 2^53 adds them exactly and
    leaves no compensation. *)
Lemma kahan_add_small s v :
  0 <= s -> 0 <= v -> s + v < 2 ^ 53 ->
  kahan_add (Float.mk s 0, Float.zero) (Float.mk v 0) =
  (Float.mk (s + v) 0, Float.zero).
Proof.
  intros Hs Hv Hb. unfold kahan_add, Float.zero.
  assert (H53 : 0 < 2 ^ 53) by reflexivity.
  rewrite (sub_small v 0) by lia. rewrite Z.sub_0_r.
  rewrite (add_small s v) by lia.
  rewrite (sub_small (s + v) s) by lia.
  replace (s + v - s) with v by lia.
  rewrite (sub_small v v) by lia. now rewrite Z.sub_diag.
Qed.

Lemma sum_skipna_nonneg l :
  Forall (fun c => match c with Some v => 0 <= v | None => True end) l ->
  0 <= sum_skipna l.
Proof.
  unfold sum_skipna. induction 1 as [|[v|] l Hc Hl IH]; simpl; lia.
Qed.

Lemma sum_float64_from (l : list (option Z)) : forall s,
  0 <= s ->
  Forall (fun c => match c with Some v => 0 <= v | None => True end) l ->
  s + sum_skipna l < 2 ^ 53 ->
  fold_left (fun state c => match c with
                            | Some val => kahan_add state val
                            | None => state
                            end)
            (map (option_map (fun z => Float.mk z 0)) l)
            (Float.mk s 0, Float.zero) =
  (Float.mk (s + sum_skipna l) 0, Float.zero).
Proof.
  induction l as [|[v|] l IH]; intros s Hs Hl Hb;
    inversion Hl as [|? ? Hv Hl']; subst.
  - unfold sum_skipna. simpl. now rewrite Z.add_0_r.
  - pose proof (sum_skipna_nonneg l Hl') as Hnn.
    change (sum_skipna (Some v :: l)) with (v + sum_skipna l) in *.
    cbn [map option_map fold_left].
    rewrite kahan_add_small by lia.
    rewrite IH by (try assumption; lia). f_equal. f_equal. lia.
  - change (sum_skipna (None :: l)) with (sum_skipna l) in *.
    cbn [map option_map fold_left]. now apply IH.
Qed.

(** The facts about the rows of a frame on which its sums are exact. *)
Lemma exact_payment_nonneg (g : list merged_row) :
  Forall (fun m => 0 <= col_hours_worked m) g ->
  Forall (fun m => match col_rate_per_hour m with
                   | Some rate => 0 <= rate < 2 ^ 53
                   | None => True
                   end) g ->
  Forall (fun c => match c with Some v => 0 <= v | None => True end)
         (map exact_payment g).
Proof.
  intros Hh Hr. induction g as [|m g IH]; [constructor|].
  inversion Hh; inversion Hr; subst. constructor; [|now apply IH].
  unfold exact_payment. destruct (col_rate_per_hour m) as [rate|]; simpl; [|trivial].
  nia.
Qed.

Lemma In_le_sum l v : Forall (fun v => 0 <= v) l -> In v l -> v <= sum l.
Proof.
  unfold sum. induction 1 as [|h t Hh Ht IH]; intros Hin; [destruct Hin|].
  simpl. pose proof (sum_nonneg t Ht) as Hs. unfold sum in Hs.
  destruct Hin as [->|Hin]; [lia|]. specialize (IH Hin). lia.
Qed.

Lemma In_le_sum_skipna l v :
  Forall (fun c => match c with Some v => 0 <= v | None => True end) l ->
  In (Some v) l -> v <= sum_skipna l.
Proof.
  unfold sum_skipna. induction 1 as [|h t Hh Ht IH]; intros Hin; [destruct Hin|].
  pose proof (sum_skipna_nonneg t Ht) as Hs. unfold sum_skipna in Hs.
  simpl. destruct Hin as [->|Hin]; [lia|]. specialize (IH Hin).
  destruct h; lia.
Qed.

Lemma present_nonneg (l : list (option Z)) :
  Forall (fun c => match c with Some v => 0 <= v | None => True end) l ->
  Forall (fun v => 0 <= v) (present l).
Proof.
  induction l as [|[v|] l IH]; intros H; inversion H; subst; cbn [present].
  - constructor.
  - constructor; [assumption|now apply IH].
  - now apply IH.
Qed.

(** The sums of a group of rows, by column type, where the exact sums
    stay below 2^53. *)
Lemma machine_sums (g : list merged_row) :
  Forall (fun m => 0 <= col_hours_worked m) g ->
  Forall (fun m => match col_rate_per_hour m with
                   | Some rate => 0 <= rate < 2 ^ 53
                   | None => True
                   end) g ->
  sum (map col_hours_worked g) < 2 ^ 53 ->
  sum_skipna (map exact_payment g) < 2 ^ 53 ->
  sum_int64 (map col_hours_worked g) = sum (map col_hours_worked g) /\
  column_sum float64 (map (col_payment float64) g) =
    PyFloat (Float.mk (sum_skipna (map exact_payment g)) 0) /\
  (existsb is_null (map col_rate_per_hour g) = false ->
   column_sum int64 (map (col_payment int64) g) =
     PyInt (sum_skipna (map exact_payment g))).
Proof.
  intros Hh Hr Hsh Hsp.
  assert (H53 : 2 ^ 53 < 2 ^ 63) by reflexivity.
  pose proof (exact_payment_nonneg g Hh Hr) as Hpn.
  assert (Hhn : Forall (fun v => 0 <= v) (map col_hours_worked g)).
  { rewrite Forall_map. exact Hh. }
  split; [apply sum_int64_exact; [exact Hhn|lia]|].
  assert (Hrow : forall m, In m g ->
            0 <= col_hours_worked m < 2 ^ 53 /\
            match col_rate_per_hour m with
            | Some rate => 0 <= rate < 2 ^ 53 /\
                           0 <= col_hours_worked m * rate < 2 ^ 53
            | None => True
            end).
  { intros m Hm. rewrite Forall_forall in Hh, Hr.
    pose proof (Hh m Hm) as Hhm. pose proof (Hr m Hm) as Hrm.
    pose proof (In_le_sum _ _ Hhn (in_map col_hours_worked _ _ Hm)) as Hle.
    split; [lia|].
    destruct (col_rate_per_hour m) as [rate|] eqn:Er; [|trivial].
    split; [exact Hrm|].
    assert (Hin : In (Some (col_hours_worked m * rate)) (map exact_payment g)).
    { apply in_map_iff. exists m. split; [|exact Hm].
      unfold exact_payment. now rewrite Er. }
    pose proof (In_le_sum_skipna _ _ Hpn Hin). nia. }
  split.
  - unfold column_sum, sum_float64.
    assert (Hcells : map float_cell (map (col_payment float64) g) =
                     map (option_map (fun z => Float.mk z 0)) (map exact_payment g)).
    { rewrite !map_map. apply map_ext_in. intros m Hm.
      destruct (Hrow m Hm) as [Hhm Hrm].
      unfold col_payment, exact_payment.
      destruct (col_rate_per_hour m) as [rate|]; [|reflexivity].
      cbn [option_map float_cell multiply]. f_equal.
      rewrite !of_int_small by lia. apply mul_small. lia. }
    rewrite Hcells.
    change (Float.zero, Float.zero) with (Float.mk 0 0, Float.zero).
    rewrite (sum_float64_from (map exact_payment g) 0) by (try assumption; lia).
    reflexivity.
  - intros Hnull. unfold column_sum. f_equal.
    assert (Hcells : present (map int_cell (map (col_payment int64) g)) =
                     present (map exact_payment g)).
    { clear Hsh Hsp Hpn Hhn Hh Hr.
      induction g as [|m g IH]; [reflexivity|].
      cbn [map existsb] in Hnull. apply orb_false_elim in Hnull.
      destruct Hnull as [Hm Hnull].
      destruct (Hrow m (or_introl eq_refl)) as [Hhm Hrm].
      destruct (col_rate_per_hour m) as [rate|] eqn:Er; [|discriminate].
      cbn [map]. unfold col_payment at 1, exact_payment at 1. rewrite Er.
      cbn [option_map int_cell multiply present].
      rewrite wrap64_small by lia. f_equal.
      apply IH; [intros; apply Hrow; now right|exact Hnull]. }
    rewrite Hcells.
    assert (Hsum : forall l : list (option Z), sum (present l) = sum_skipna l).
    { induction l as [|[v|] l IHl]; [reflexivity| |exact IHl].
      change (sum (present (Some v :: l))) with (v + sum (present l)).
      change (sum_skipna (Some v :: l)) with (v + sum_skipna l). now rewrite IHl. }
    rewrite <- Hsum. apply sum_int64_exact.
    + now apply present_nonneg.
    + rewrite Hsum. lia.
Qed.

Lemma sum_filter_le {A} (v : A -> Z) (f : A -> bool) l :
  Forall (fun a => 0 <= v a) l ->
  sum (map v (filter f l)) <= sum (map v l).
Proof.
  unfold sum. induction 1 as [|a l Ha Hl IH]; simpl; [lia|].
  destruct (f a); simpl; lia.
Qed.

Lemma sum_skipna_filter_le {A} (v : A -> option Z) (f : A -> bool) l :
  Forall (fun a => match v a with Some z => 0 <= z | None => True end) l ->
  sum_skipna (map v (filter f l)) <= sum_skipna (map v l).
Proof.
  unfold sum_skipna. induction 1 as [|a l Ha Hl IH]; simpl; [lia|].
  destruct (f a); simpl; destruct (v a); lia.
Qed.

Lemma existsb_map_filter_false {A B} (v : A -> B) (t : B -> bool) (f : A -> bool) l :
  existsb t (map v l) = false -> existsb t (map v (filter f l)) = false.
Proof.
  induction l as [|a l IH]; simpl; [trivial|]. intros H.
  apply orb_false_elim in H. destruct H as [Ha Hl].
  destruct (f a); simpl; [rewrite Ha|]; now apply IH.
Qed.

Section MergeRight.
Context {L R K : Type}.
Variable eqb : K -> K -> bool.
Variable key_l : L -> option K.
Variable key_r : R -> K.

Lemma merge_left_right_in (left : list L) (right : list R) l x :
  In (l, Some x) (merge_left eqb key_l key_r left right) -> In x right.
Proof.
  unfold merge_left. rewrite in_flat_map. intros [l0 [_ Hin]].
  unfold matches in Hin.
  destruct (key_l l0) as [k|]; [|destruct Hin as [H|[]]; discriminate].
  destruct (filter (fun r => eqb k (key_r r)) right) as [|m ms] eqn:E.
  - destruct Hin as [H|[]]. discriminate.
  - apply in_map_iff in Hin. destruct Hin as [x0 [Hx Hin]].
    injection Hx as _ <-. rewrite <- E in Hin. now apply filter_In in Hin.
Qed.
End MergeRight.

Lemma merged_row_sources e r p m :
  In m (merged e r p) ->
  In (fst (fst m)) p /\
  match snd m with Some rt => In rt r | None => True end.
Proof.
  unfold merged, merge_rates, merge_employees. intros H. split.
  - apply merge_left_keeps_left in H. now apply merge_left_keeps_left in H.
  - destruct m as [l [rt|]]; [|exact I].
    cbn [snd]. eapply merge_left_right_in. exact H.
Qed.

(** What [exact_range] says of the merged frame. *)
Lemma exact_range_facts e r p :
  exact_range e r p = true ->
  hours_dtype p = int64 /\
  infer_dtype (map Rate.rate_per_hour r) = int64 /\
  Forall (fun m => 0 <= col_hours_worked m) (merged e r p) /\
  Forall (fun m => match col_rate_per_hour m with
                   | Some rate => 0 <= rate < 2 ^ 53
                   | None => True
                   end) (merged e r p) /\
  sum (map col_hours_worked (merged e r p)) < 2 ^ 53 /\
  sum_skipna (map exact_payment (merged e r p)) < 2 ^ 53.
Proof.
  unfold exact_range. intros H.
  apply andb_prop in H. destruct H as [H Hsp]. apply Z.ltb_lt in Hsp.
  apply andb_prop in H. destruct H as [H Hsh]. apply Z.ltb_lt in Hsh.
  apply andb_prop in H. destruct H as [Hh Hr].
  rewrite forallb_forall in Hh, Hr.
  assert (Hhm : Forall (fun m => 0 <= col_hours_worked m) (merged e r p)).
  { apply Forall_forall. intros m Hm.
    destruct (merged_row_sources e r p m Hm) as [Hp _].
    specialize (Hh _ Hp). apply Z.leb_le in Hh. exact Hh. }
  assert (Hrm : Forall (fun m => match col_rate_per_hour m with
                                 | Some rate => 0 <= rate < 2 ^ 53
                                 | None => True
                                 end) (merged e r p)).
  { apply Forall_forall. intros m Hm.
    destruct (merged_row_sources e r p m Hm) as [_ Hrt].
    unfold col_rate_per_hour. destruct (snd m) as [rt|]; [|exact I].
    specialize (Hr _ Hrt). apply andb_prop in Hr. destruct Hr as [H1 H2].
    apply Z.leb_le in H1. apply Z.ltb_lt in H2. simpl. lia. }
  repeat split; try assumption.
  - unfold hours_dtype, infer_dtype.
    assert (Hall : forallb in_int64 (map Project.hours_worked p) = true).
    { apply forallb_forall. intros h Hin. apply in_map_iff in Hin.
      destruct Hin as [a [<- Ha]]. apply in_int64_small.
      specialize (Hh _ Ha). apply Z.leb_le in Hh. split; [exact Hh|].
      assert (Hcov : exists m, In m (merged e r p) /\ fst (fst m) = a).
      { unfold merged, merge_rates, merge_employees.
        destruct (merge_left_covers_left Z.eqb (fun p => Some (Project.employee_id p))
                    Employee.employee_id p e a Ha) as [o Ho].
        destruct (merge_left_covers_left String.eqb col_position Rate.position _ r _ Ho)
          as [o' Ho'].
        eexists. split; [exact Ho'|reflexivity]. }
      destruct Hcov as [m [Hm Hfst]].
      assert (Hle : col_hours_worked m <= sum (map col_hours_worked (merged e r p))).
      { apply In_le_sum; [now rewrite Forall_map|]. now apply in_map. }
      unfold col_hours_worked in Hle at 1. rewrite Hfst in Hle. lia. }
    now rewrite Hall.
  - unfold infer_dtype.
    assert (Hall : forallb in_int64 (map Rate.rate_per_hour r) = true).
    { apply forallb_forall. intros x Hin. apply in_map_iff in Hin.
      destruct Hin as [rt [<- Hrt]]. apply in_int64_small.
      specialize (Hr _ Hrt). apply andb_prop in Hr. destruct Hr as [H1 H2].
      apply Z.leb_le in H1. apply Z.ltb_lt in H2. lia. }
    now rewrite Hall.
Qed.

(** On such data the aggregate holds the exact totals, the payments as
    integers when every row has a rate and as floats otherwise. *)
Lemma aggregate_exact e r p :
  exact_range e r p = true ->
  aggregate e r p =
  map (fun k => Fot.mk k (exact_total_hours (merged e r p) k)
                       (as_payment (unmatched e r p)
                                   (exact_total_payment (merged e r p) k)))
      (group_keys (map col_project_id (merged e r p))).
Proof.
  intros H. destruct (exact_range_facts e r p H) as [Hhd [Hrd [Hh [Hr [Hsh Hsp]]]]].
  unfold aggregate, groupby_agg. apply map_ext. intros k.
  pose proof (exact_payment_nonneg _ Hh Hr) as Hpn.
  assert (Hgh : Forall (fun m => 0 <= col_hours_worked m) (group (merged e r p) k)).
  { unfold group. apply Forall_forall. intros m Hm. apply filter_In in Hm.
    rewrite Forall_forall in Hh. now apply Hh. }
  assert (Hgr : Forall (fun m => match col_rate_per_hour m with
                                 | Some rate => 0 <= rate < 2 ^ 53
                                 | None => True
                                 end) (group (merged e r p) k)).
  { unfold group. apply Forall_forall. intros m Hm. apply filter_In in Hm.
    rewrite Forall_forall in Hr. now apply Hr. }
  assert (Hgsh : sum (map col_hours_worked (group (merged e r p) k)) < 2 ^ 53).
  { pose proof (sum_filter_le col_hours_worked (fun m => col_project_id m =? k) _ Hh).
    unfold group. lia. }
  assert (Hgsp : sum_skipna (map exact_payment (group (merged e r p) k)) < 2 ^ 53).
  { assert (Hpn' : Forall (fun a => match exact_payment a with
                                    | Some z => 0 <= z
                                    | None => True
                                    end) (merged e r p)).
    { now rewrite Forall_map in Hpn. }
    pose proof (sum_skipna_filter_le exact_payment (fun m => col_project_id m =? k) _ Hpn').
    unfold group. lia. }
  destruct (machine_sums _ Hgh Hgr Hgsh Hgsp) as [Hs1 [Hs2 Hs3]].
  f_equal.
  - unfold group_total_hours. rewrite Hhd. exact Hs1.
  - unfold group_total_payment, payment_dtype, rate_dtype, merged_dtype, unmatched.
    rewrite Hhd, Hrd.
    destruct (existsb is_null (map col_rate_per_hour (merged e r p))) eqn:En;
      cbn [product_dtype as_payment].
    + exact Hs2.
    + apply Hs3. unfold group. now apply existsb_map_filter_false.
Qed.


Lemma groupby_agg_keys hours payment df :
  map Fot.project_id (groupby_agg hours payment df) =
  group_keys (map col_project_id df).
Proof. unfold groupby_agg. rewrite map_map. simpl. apply map_id. Qed.

Lemma aggregate_keys e r p :
  map Fot.project_id (aggregate e r p) =
  group_keys (map col_project_id (merged e r p)).
Proof. apply groupby_agg_keys. Qed.

(** The row of a key in a list of rows made one per key. *)
Lemma fot_row_map (row : Z -> Fot.t) keys k :
  (forall k', Fot.project_id (row k') = k') ->
  In k keys ->
  fot_row (map row keys) k = Some (row k).
Proof.
  intros Hrow Hin. unfold fot_row.
  induction keys as [|h t IH]; [destruct Hin|].
  simpl. rewrite Hrow. destruct (h =? k) eqn:E.
  - apply Z.eqb_eq in E. now subst h.
  - apply IH. destruct Hin as [->|Hin]; [|exact Hin].
    rewrite Z.eqb_refl in E. discriminate.
Qed.

(** Every assignment leaves at least one merged row, and every merged row
    comes from an assignment: the merged frame has the project ids of the
    input. *)
Lemma merged_project_ids e r projects k :
  In k (map col_project_id (merged e r projects)) <->
  In k (map Project.project_id projects).
Proof.
  induction projects as [|a l IH]; [simpl; tauto|].
  rewrite merged_cons, map_app, in_app_iff, IH. simpl.
  assert (Ha : In k (map col_project_id (rows_of e r a)) <-> Project.project_id a = k).
  { split.
    - intros Hin. apply in_map_iff in Hin. destruct Hin as [m [<- Hm]].
      unfold col_project_id. now rewrite (rows_of_project _ _ _ _ Hm).
    - intros <-. pose proof (rows_of_nonempty e r a) as Hne.
      destruct (rows_of e r a) as [|m ms] eqn:E; [congruence|].
      left. unfold col_project_id.
      now rewrite (rows_of_project e r a m) by (rewrite E; now left). }
  rewrite Ha. tauto.
Qed.

(** On non-empty inputs the Transformer returns and pushes the aggregate
    of the merged frame. *)
Lemma transform_data_returns e p r :
  e <> [] -> p <> [] -> r <> [] ->
  transform_data (extracted e p r) =
  (push_fot_stats (aggregate e r p) (extracted e p r),
   Returned (transform_message (aggregate e r p))).
Proof.
  intros He Hp Hr. unfold transform_data, pd_merge, aggregate. cbn [DataFrame extracted
    employees_data projects_data rates_data].
  pose proof (merge_left_covers_left Z.eqb (fun a => Some (Project.employee_id a))
                Employee.employee_id p e) as Hcov.
  fold (merge_employees p e) in *.
  destruct e as [|e0 e']; [congruence|]. destruct r as [|r0 r']; [congruence|].
  destruct p as [|p0 p']; [congruence|]. cbn [has_columns andb].
  destruct (Hcov p0 (or_introl eq_refl)) as [o Ho].
  destruct (merge_employees (p0 :: p') (e0 :: e')) as [|m ms] eqn:E; [destruct Ho|].
  cbn [has_columns andb]. unfold merged. rewrite E. reflexivity.
Qed.

(** On an empty roster, assignment list or rate card the Transformer
    raises and pushes nothing. *)
Lemma transform_data_raises_on_empty e p r :
  e = [] \/ p = [] \/ r = [] ->
  exists key, transform_data (extracted e p r) = (extracted e p r, Raised (KeyError key)).
Proof.
  intros H. unfold transform_data, pd_merge. cbn [DataFrame extracted
    employees_data projects_data rates_data].
  destruct p as [|p0 p']; [eexists; reflexivity|].
  destruct e as [|e0 e']; [eexists; reflexivity|].
  destruct r as [|r0 r']; [|destruct H as [H|[H|H]]; discriminate].
  cbn [has_columns andb]. rewrite andb_false_r. eexists; reflexivity.
Qed.

Lemma integral_as_payment float z : integral (as_payment float z) = Some z.
Proof. now destruct float. Qed.

(** With unique keys the exact totals of the merged frame are those of
    the formula. *)
Lemma exact_totals_unique_keys e r p k :
  NoDup (map Employee.employee_id e) ->
  NoDup (map Rate.position r) ->
  exact_total_hours (merged e r p) k = spec_total_hours p k /\
  exact_total_payment (merged e r p) k = spec_total_payment e r p k.
Proof.
  intros Hue Hur. split.
  - rewrite exact_total_hours_merged. unfold spec_total_hours.
    f_equal. apply map_ext. intros a.
    destruct (rows_of_unique_keys e r a Hue Hur) as [oe [orate [-> _]]].
    unfold col_hours_worked, sum. simpl. lia.
  - rewrite exact_total_payment_merged. unfold spec_total_payment.
    f_equal. apply map_ext. intros a.
    destruct (rows_of_unique_keys e r a Hue Hur) as [oe [orate [-> Hc]]].
    unfold sum_skipna. cbn [map fold_right]. rewrite Hc. unfold spec_payment.
    destruct (spec_position e (Project.employee_id a)) as [pos|]; [|reflexivity].
    destruct (spec_rate r pos) as [rate|]; simpl; lia.
Qed.

(** C1 (as amended).  Hours and rates are non-negative integers, no rate
    reaches 2^53, and over the merged frame the hours, and the payments,
    add up to less than 2^53.  When the roster then lists every
    [employee_id] once and the rate card every [position] once, the
    Transformer returns on non-empty inputs, and the row of every project
    holds as [total_payment] the sum over that project's assignments of
    [hours_worked x rate_per_hour], the rate looked up through the
    employee's position and an assignment without a match counting 0; its
    [total_hours] is the sum of their hours.  The payment is an integer
    when every assignment found its rate and a float of that value
    otherwise. *)
Theorem transform_total_payment_unique_keys e p r :
  e <> [] -> p <> [] -> r <> [] ->
  NoDup (map Employee.employee_id e) ->
  NoDup (map Rate.position r) ->
  exact_range e r p = true ->
  exists fot msg,
    transform_data (extracted e p r) =
      (push_fot_stats fot (extracted e p r), Returned msg) /\
    (forall k, In k (map Project.project_id p) ->
       fot_row fot k =
       Some (Fot.mk k (spec_total_hours p k)
                    (as_payment (unmatched e r p) (spec_total_payment e r p k)))) /\
    (forall row, In row fot ->
       integral (Fot.total_payment row) =
       Some (spec_total_payment e r p (Fot.project_id row))).
Proof.
  intros He Hp Hr Hue Hur Hrange.
  exists (aggregate e r p), (transform_message (aggregate e r p)).
  split; [now apply transform_data_returns|].
  rewrite (aggregate_exact e r p Hrange).
  split.
  - intros k Hk.
    rewrite fot_row_map by (try reflexivity; apply group_keys_In;
                             now apply merged_project_ids).
    destruct (exact_totals_unique_keys e r p k Hue Hur) as [-> ->]. reflexivity.
  - intros row Hin. apply in_map_iff in Hin. destruct Hin as [k [<- _]].
    cbn [Fot.total_payment Fot.project_id]. rewrite integral_as_payment.
    now destruct (exact_totals_unique_keys e r p k Hue Hur) as [_ ->].
Qed.

(** The scenario of the specification, as an instance of the theorem. *)
Lemma transform_scenario :
  transform_data (extracted scenario_employees scenario_projects scenario_rates) =
    (push_fot_stats scenario_fot
       (extracted scenario_employees scenario_projects scenario_rates),
     Returned "Проанализировано 3 проектов") /\
  exists fot msg,
    transform_data (extracted scenario_employees scenario_projects scenario_rates) =
      (push_fot_stats fot
         (extracted scenario_employees scenario_projects scenario_rates),
       Returned msg) /\
    (forall k, In k (map Project.project_id scenario_projects) ->
       fot_row fot k =
       Some (Fot.mk k (spec_total_hours scenario_projects k)
               (as_payment
                  (unmatched scenario_employees scenario_rates scenario_projects)
                  (spec_total_payment scenario_employees scenario_rates
                     scenario_projects k)))) /\
    (forall row, In row fot ->
       integral (Fot.total_payment row) =
       Some (spec_total_payment scenario_employees scenario_rates scenario_projects
               (Fot.project_id row))).
Proof.
  split; [reflexivity|].
  apply (transform_total_payment_unique_keys
           scenario_employees scenario_projects scenario_rates);
    try discriminate; try reflexivity;
    repeat constructor; simpl; intuition (try discriminate; try lia).
Defined.

(** 2^62 hours at a rate of 2: the int64 product wraps around, and the
    project is paid -2^63 where the formula gives 2^63. *)
Lemma transform_int64_wraps :
  NoDup (map Employee.employee_id scenario_employees) /\
  NoDup (map Rate.position cheap_rates) /\
  fot_stats (fst (transform_data
                    (extracted scenario_employees long_hours cheap_rates))) =
    Some [Fot.mk 1 4611686018427387904 (PyInt (-9223372036854775808))] /\
  spec_total_payment scenario_employees cheap_rates long_hours 1 =
    9223372036854775808.
Proof.
  repeat split; try reflexivity;
    repeat constructor; simpl; intuition (try discriminate; try lia).
Qed.

(** Why the keys must be unique, as the data model declares them and the
    code does not check: on a roster that lists an employee twice the
    merge keeps the assignment once per roster row, so the project is paid
    1000 where the formula gives 500 (and its 10 hours count as 20). *)
Example transform_doubled_roster :
  fot_stats (fst (transform_data
                    (extracted doubled_employees one_project scenario_rates))) =
    Some [Fot.mk 1 20 (PyInt 1000)] /\
  spec_total_payment doubled_employees scenario_rates one_project 1 = 500 /\
  spec_total_hours one_project 1 = 10.
Proof. repeat split; reflexivity. Qed.

Lemma NoDup_count_occ_one (l : list Z) (k : Z) :
  NoDup l -> In k l -> count_occ Z.eq_dec l k = 1%nat.
Proof.
  intros Hnd Hin. apply (proj1 (NoDup_count_occ' Z.eq_dec l) Hnd k Hin).
Qed.

(** C2 (as amended).  On a non-empty roster and a non-empty rate card,
    for every assignment list and every project id in it, the Transformer
    returns and its aggregate holds that id exactly once; the aggregate
    repeats no id and holds no id the assignments lack, whether or not any
    join matched. *)
Theorem transform_one_row_per_project e p r k :
  e <> [] -> r <> [] ->
  In k (map Project.project_id p) ->
  exists fot msg,
    transform_data (extracted e p r) =
      (push_fot_stats fot (extracted e p r), Returned msg) /\
    count_occ Z.eq_dec (map Fot.project_id fot) k = 1%nat /\
    NoDup (map Fot.project_id fot) /\
    (forall k', In k' (map Fot.project_id fot) <-> In k' (map Project.project_id p)).
Proof.
  intros He Hr Hk.
  assert (Hp : p <> []) by (intros ->; destruct Hk).
  exists (aggregate e r p), (transform_message (aggregate e r p)).
  split; [now apply transform_data_returns|].
  assert (Hnd : NoDup (map Fot.project_id (aggregate e r p))).
  { rewrite aggregate_keys. apply sorted_lt_NoDup, group_keys_sorted. }
  assert (Hin : forall k', In k' (map Fot.project_id (aggregate e r p)) <->
                           In k' (map Project.project_id p)).
  { intros k'. rewrite aggregate_keys, group_keys_In. apply merged_project_ids. }
  split; [apply NoDup_count_occ_one; [exact Hnd|now apply Hin]|].
  split; [exact Hnd|exact Hin].
Qed.

(** Project 7 has two assignments, of employees 8 and 9, whom the roster
    lacks: both joins fail on each of its rows, and it has its one row
    all the same. *)
Lemma transform_one_row_per_project_unmatched :
  fot_stats (fst (transform_data
                    (extracted scenario_employees unmatched_projects scenario_rates))) =
    Some [Fot.mk 3 2 (PyFloat (Float.mk 0 0));
          Fot.mk 5 6 (PyFloat (Float.mk 300 0));
          Fot.mk 7 5 (PyFloat (Float.mk 0 0))] /\
  exists fot msg,
    transform_data
      (extracted scenario_employees unmatched_projects scenario_rates) =
      (push_fot_stats fot
         (extracted scenario_employees unmatched_projects scenario_rates),
       Returned msg) /\
    count_occ Z.eq_dec (map Fot.project_id fot) 7 = 1%nat /\
    NoDup (map Fot.project_id fot) /\
    (forall k', In k' (map Fot.project_id fot) <->
                In k' (map Project.project_id unmatched_projects)).
Proof.
  split; [reflexivity|].
  apply (transform_one_row_per_project scenario_employees unmatched_projects
           scenario_rates 7); try discriminate.
  simpl. tauto.
Defined.

(** C3 (as amended).  On a non-empty roster and a non-empty rate card,
    and on data whose sums are exact (non-negative integers, totals below
    2^53), an assignment whose [employee_id] the roster lacks keeps one
    merged row, whose payment is null.  The Transformer returns, and the
    row of the assignment's project in the aggregate counts the
    assignment's hours on top of the hours of the project's other rows,
    while its [total_payment] is the payment of those other rows alone,
    as a float: the null adds 0 and does not void the group. *)
Theorem transform_absent_employee e r pre a post :
  e <> [] -> r <> [] ->
  ~ In (Project.employee_id a) (map Employee.employee_id e) ->
  exact_range e r (pre ++ a :: post) = true ->
  exists fot msg row,
    transform_data (extracted e (pre ++ a :: post) r) =
      (push_fot_stats fot (extracted e (pre ++ a :: post) r), Returned msg) /\
    (forall dt, map (col_payment dt) (rows_of e r a) = [None]) /\
    fot_row fot (Project.project_id a) = Some row /\
    Fot.total_hours row =
      Project.hours_worked a +
      exact_total_hours (merged e r (pre ++ post)) (Project.project_id a) /\
    Fot.total_payment row =
      PyFloat (Float.mk (exact_total_payment (merged e r (pre ++ post))
                                             (Project.project_id a)) 0).
Proof.
  intros He Hr Habs Hrange.
  set (p := pre ++ a :: post) in *. set (k := Project.project_id a).
  exists (aggregate e r p), (transform_message (aggregate e r p)).
  exists (Fot.mk k (Project.hours_worked a + exact_total_hours (merged e r (pre ++ post)) k)
                 (PyFloat (Float.mk (exact_total_payment (merged e r (pre ++ post)) k) 0))).
  pose proof (rows_of_absent_employee e r a Habs) as Hrows.
  split; [apply transform_data_returns; try assumption; subst p; now destruct pre|].
  split; [intros dt; now rewrite Hrows|].
  split; [|split; reflexivity].
  rewrite (aggregate_exact e r p Hrange).
  rewrite fot_row_map;
    [|reflexivity
     |apply group_keys_In, merged_project_ids; subst p k;
      rewrite map_app, in_app_iff; right; now left].
  assert (Hgroup : group (merged e r p) k =
                   group (merged e r pre) k ++ [((a, None), None)] ++
                   group (merged e r post) k).
  { subst p. rewrite merged_app, merged_cons, !group_app, group_rows_of, Hrows.
    subst k. now rewrite Z.eqb_refl. }
  assert (Hun : unmatched e r p = true).
  { unfold unmatched. subst p. rewrite merged_app, merged_cons, Hrows, !map_app, !existsb_app.
    cbn [map existsb col_rate_per_hour snd option_map is_null app].
    now rewrite orb_true_r. }
  rewrite Hun. cbn [as_payment]. f_equal. f_equal.
  - unfold exact_total_hours.
    rewrite Hgroup, merged_app, group_app, !map_app, !sum_app.
    change (sum (map col_hours_worked [((a, None), None)]))
      with (Project.hours_worked a + 0).
    unfold merged_row. lia.
  - f_equal. f_equal. unfold exact_total_payment.
    rewrite Hgroup, merged_app, group_app, !map_app, !sum_skipna_app.
    change (sum_skipna (map exact_payment [((a, None), None)])) with 0.
    unfold merged_row. lia.
Qed.

(** Project 7 with a stranger's 4 hours and 10 hours of a developer at 50:
    14 hours, paid 500.0. *)
Lemma transform_absent_employee_scenario :
  fot_stats (fst (transform_data
                    (extracted scenario_employees stranger_projects scenario_rates))) =
    Some [Fot.mk 7 14 (PyFloat (Float.mk 500 0))] /\
  exists fot msg row,
    transform_data
      (extracted scenario_employees ([] ++ Project.mk 7 9 4 :: [Project.mk 7 1 10])
         scenario_rates) =
      (push_fot_stats fot
         (extracted scenario_employees
            ([] ++ Project.mk 7 9 4 :: [Project.mk 7 1 10]) scenario_rates),
       Returned msg) /\
    (forall dt,
       map (col_payment dt)
           (rows_of scenario_employees scenario_rates (Project.mk 7 9 4)) = [None]) /\
    fot_row fot (Project.project_id (Project.mk 7 9 4)) = Some row /\
    Fot.total_hours row =
      Project.hours_worked (Project.mk 7 9 4) +
      exact_total_hours
        (merged scenario_employees scenario_rates ([] ++ [Project.mk 7 1 10]))
        (Project.project_id (Project.mk 7 9 4)) /\
    Fot.total_payment row =
      PyFloat (Float.mk
                 (exact_total_payment
                    (merged scenario_employees scenario_rates
                       ([] ++ [Project.mk 7 1 10]))
                    (Project.project_id (Project.mk 7 9 4))) 0).
Proof.
  split; [reflexivity|].
  apply (transform_absent_employee scenario_employees scenario_rates
           [] (Project.mk 7 9 4) [Project.mk 7 1 10]);
    try discriminate; try reflexivity.
  simpl. intuition lia.
Defined.

(** An empty roster: the first merge has no [employee_id] column on the
    right, the Transformer raises and pushes no aggregate, so project 1 is
    in no output. *)
Lemma transform_empty_roster_raises :
  transform_data (extracted [] one_project scenario_rates) =
    (extracted [] one_project scenario_rates, Raised (KeyError "employee_id")) /\
  fot_stats (fst (transform_data (extracted [] one_project scenario_rates))) = None /\
  In 1 (map Project.project_id one_project).
Proof. repeat split; try reflexivity. now left. Qed.

(** An empty rate card: employee 9 is not on the roster, and the second
    merge raises, so the assignment's hours are counted nowhere. *)
Lemma transform_empty_rates_raises :
  ~ In (Project.employee_id (Project.mk 7 9 4))
       (map Employee.employee_id scenario_employees) /\
  transform_data (extracted scenario_employees stranger_projects []) =
    (extracted scenario_employees stranger_projects [], Raised (KeyError "position")) /\
  fot_stats (fst (transform_data
                    (extracted scenario_employees stranger_projects []))) = None.
Proof. repeat split; try reflexivity. simpl. intuition lia. Qed.

(** 2^53 + 1 hours of a developer at a rate of 1, beside the hours of a
    stranger: the null makes the payment column a float64 column, where
    2^53 + 1 is rounded to 2^53. *)
Example transform_float64_rounds :
  fot_stats (fst (transform_data
                    (extracted scenario_employees
                       [Project.mk 1 1 9007199254740993; Project.mk 1 9 3]
                       [Rate.mk "developer" 1]))) =
    Some [Fot.mk 1 9007199254740996 (PyFloat (Float.mk 9007199254740992 0))].
Proof. reflexivity. Qed.

(* ------------------------------------------------------------------ *)
(** * Properties of the Loader *)

Lemma max_rowid_app rows r :
  max_rowid (rows ++ [r]) = Z.max (max_rowid rows) (Z.max (Stored.id r) 0).
Proof.
  unfold max_rowid. induction rows as [|h t IH]; simpl; [lia|]. rewrite IH. lia.
Qed.

Lemma max_rowid_nonneg rows : 0 <= max_rowid rows.
Proof. unfold max_rowid. induction rows as [|h t IH]; simpl; lia. Qed.

Lemma contents_created db : contents (created db) = contents db.
Proof. unfold created, contents. destruct (project_fot db) eqn:E; simpl; now rewrite ?E. Qed.

Lemma project_fot_created db : project_fot (created db) = Some (contents db).
Proof. unfold created, contents. destruct (project_fot db) eqn:E; simpl; now rewrite ?E. Qed.

Lemma sqlite_sequence_created db : sqlite_sequence (created db) = sqlite_sequence db.
Proof. unfold created. now destruct (project_fot db). Qed.

Lemma unchanged_refl db : unchanged db db.
Proof. split; reflexivity. Qed.

Lemma unchanged_created db : unchanged db (created db).
Proof. split; [apply contents_created|apply sqlite_sequence_created]. Qed.

Lemma unchanged_created_of db d : unchanged db d -> unchanged db (created d).
Proof.
  intros [H1 H2]. split; [now rewrite contents_created|now rewrite sqlite_sequence_created].
Qed.

Lemma keeps_rows_step db c d p :
  keeps_rows db c -> unchanged db d -> keeps_rows db (step c d p).
Proof.
  intros [_ Hs] Hd. split; [exact Hd|]. cbn [step seen].
  apply Forall_app. split; [exact Hs|]. now constructor.
Qed.

(** What each statement of the Loader does where it is issued. *)
Lemma execute_create c :
  pending c = None ->
  execute CreateTableIfNotExists c =
  match next_fault (sql_faults c) with
  | Some e => (step c (disk c) None, Raised e)
  | None => (step c (created (disk c)) None, Returned tt)
  end.
Proof.
  intros Hp. unfold execute, view. rewrite Hp.
  destruct (next_fault (sql_faults c)); [reflexivity|].
  cbn [apply_statement]. unfold created.
  destruct (project_fot (disk c)); reflexivity.
Qed.

Lemma execute_delete c rows :
  pending c = None -> autocommit c = false ->
  project_fot (disk c) = Some rows ->
  execute DeleteFrom c =
  match next_fault (sql_faults c) with
  | Some e => (step c (disk c) None, Raised e)
  | None =>
      (step c (disk c) (Some (mkDatabase (Some []) (sqlite_sequence (disk c)))),
       Returned tt)
  end.
Proof.
  intros Hp Ha Hrows. unfold execute, view. rewrite Hp, Ha.
  destruct (next_fault (sql_faults c)); [reflexivity|].
  cbn [apply_statement]. now rewrite Hrows.
Qed.

Lemma execute_probe c w :
  pending c = Some w ->
  execute HasTable c =
  (step c (disk c) (Some w),
   match next_fault (sql_faults c) with
   | Some e => Raised e
   | None => Returned tt
   end).
Proof.
  intros Hp. unfold execute, view. rewrite Hp.
  destruct (next_fault (sql_faults c)); reflexivity.
Qed.

Lemma execute_insert now row c w rows :
  pending c = Some w -> project_fot w = Some rows ->
  execute (InsertInto now row) c =
  match next_fault (sql_faults c) with
  | Some e => (step c (disk c) (Some w), Raised e)
  | None =>
      if binds row
      then (step c (disk c)
                 (Some (mkDatabase (Some (rows ++ [store (next_rowid w) now row]))
                                   (next_rowid w))),
            Returned tt)
      else (step c (disk c) (Some w), Raised too_large)
  end.
Proof.
  intros Hp Hrows. unfold execute, view. rewrite Hp.
  destruct (next_fault (sql_faults c)); [reflexivity|].
  cbn [apply_statement]. rewrite Hrows.
  destruct (binds row); reflexivity.
Qed.

Lemma execute_commit c :
  execute Commit c =
  match next_fault (sql_faults c) with
  | Some e => (step c (disk c) (pending c), Raised e)
  | None => (step c (view c) None, Returned tt)
  end.
Proof. reflexivity. Qed.

Lemma execute_rollback c :
  execute Rollback c =
  match next_fault (sql_faults c) with
  | Some e => (step c (disk c) (pending c), Raised e)
  | None => (step c (disk c) None, Returned tt)
  end.
Proof. reflexivity. Qed.

Lemma skipn_S_tl {A} k (l : list A) : skipn (S k) l = skipn k (tl l).
Proof. destruct l; [now destruct k|reflexivity]. Qed.

(** The INSERTs of [to_sql], inside the open transaction: the disk stays
    as it is; they return exactly when no fault strikes and every row
    binds, and then the transaction holds the rows under consecutive
    fresh keys. *)
Lemma run_inserts now df : forall c w rows,
  pending c = Some w -> project_fot w = Some rows ->
  exists c' o,
    executemany (map (InsertInto now) df) c = (c', o) /\
    disk c' = disk c /\ autocommit c' = autocommit c /\
    (forall db, keeps_rows db c -> keeps_rows db c') /\
    (sql_faults c = [] -> sql_faults c' = []) /\
    match o with
    | Returned _ =>
        strikes (List.length df) (sql_faults c) = false /\
        storable df = true /\
        sql_faults c' = skipn (List.length df) (sql_faults c) /\
        exists w',
          pending c' = Some w' /\
          project_fot w' = Some (rows ++ number_rows now (next_rowid w) df) /\
          next_rowid w' = next_rowid w + Z.of_nat (List.length df) /\
          (df = [] -> w' = w) /\
          (df <> [] ->
           sqlite_sequence w' = next_rowid w + Z.of_nat (List.length df) - 1)
    | Raised e =>
        (strikes (List.length df) (sql_faults c) = true \/
         storable df = false /\ e = too_large) /\
        exists w', pending c' = Some w'
    end.
Proof.
  induction df as [|row rest IH]; intros c w rows Hpend Hrows.
  - exists c, (Returned tt). cbn [map executemany]. unfold ret.
    split; [reflexivity|]. split; [reflexivity|]. split; [reflexivity|].
    split; [tauto|]. split; [tauto|].
    split; [reflexivity|]. split; [reflexivity|]. split; [reflexivity|].
    exists w. split; [exact Hpend|].
    split; [now rewrite app_nil_r|].
    split; [cbn [List.length]; lia|].
    split; [reflexivity|congruence].
  - cbn [map executemany]. unfold bind.
    rewrite (execute_insert now row c w rows Hpend Hrows).
    cbn [List.length strikes storable forallb].
    destruct (next_fault (sql_faults c)) as [e|] eqn:F.
    { eexists _, _. split; [reflexivity|]. cbn [step disk autocommit pending sql_faults].
      split; [reflexivity|]. split; [reflexivity|].
      split; [intros db K; apply keeps_rows_step; [exact K|apply K]|].
      split; [now intros ->|].
      split; [now left|now exists w]. }
    destruct (binds row) eqn:B.
    2:{ eexists _, _. split; [reflexivity|]. cbn [step disk autocommit pending sql_faults].
        split; [reflexivity|]. split; [reflexivity|].
        split; [intros db K; apply keeps_rows_step; [exact K|apply K]|].
        split; [now intros ->|].
        split; [right; split; reflexivity|now exists w]. }
    set (w1 := mkDatabase (Some (rows ++ [store (next_rowid w) now row])) (next_rowid w)).
    set (c1 := step c (disk c) (Some w1)).
    assert (Hnext : next_rowid w1 = next_rowid w + 1).
    { unfold next_rowid at 1. unfold contents. subst w1. cbn [project_fot sqlite_sequence].
      rewrite max_rowid_app. unfold store. cbn [Stored.id].
      pose proof (max_rowid_nonneg rows). unfold next_rowid, contents. rewrite Hrows. lia. }
    destruct (IH c1 w1 _ eq_refl eq_refl) as [c' [o [Hex [Hd [Ha [Hk [Hnil' Ho]]]]]]].
    exists c', o. split; [exact Hex|].
    split; [exact Hd|]. split; [exact Ha|].
    split; [intros db K; apply Hk; apply keeps_rows_step; [exact K|apply K]|].
    assert (Hf : sql_faults c1 = tl (sql_faults c)) by reflexivity.
    split; [intros E; apply Hnil'; rewrite Hf, E; reflexivity|].
    cbn [is_null negb orb andb].
    rewrite Hf in Ho.
    destruct o as [u|e].
    + destruct Ho as [Hs [Hst [Hfa [w' [Hp' [Htab [Hn [Hnil Hseq]]]]]]]].
      split; [exact Hs|]. split; [exact Hst|].
      split; [now rewrite skipn_S_tl|].
      exists w'. split; [exact Hp'|].
      split; [rewrite Htab, <- app_assoc; cbn [number_rows app]; now rewrite Hnext|].
      split; [rewrite Hn, Hnext; lia|].
      split; [discriminate|].
      intros _. destruct rest as [|r2 rest'].
      * rewrite (Hnil eq_refl). subst w1. cbn [sqlite_sequence List.length]. lia.
      * rewrite Hseq by discriminate. rewrite Hnext. cbn [List.length]. lia.
    + destruct Ho as [[Hs|[Hst He]] Hw]; (split; [|exact Hw]).
      * now left.
      * right. split; [exact Hst|exact He].
Qed.

Lemma strikes_weaken k env : strikes k env = true -> strikes (S k) env = true.
Proof.
  revert env. induction k as [|k IH]; intros env H; [discriminate|].
  cbn [strikes] in *. apply orb_true_iff in H. apply orb_true_iff.
  destruct H as [H|H]; [now left|]. right. now apply IH.
Qed.

Lemma strikes_more k j env : strikes k env = true -> strikes (k + j) env = true.
Proof.
  intros H. induction j as [|j IH].
  - now rewrite Nat.add_0_r.
  - rewrite Nat.add_succ_r. now apply strikes_weaken.
Qed.

Lemma strikes_split k j env :
  strikes (k + j) env = strikes k env || strikes j (skipn k env).
Proof.
  revert env. induction k as [|k IH]; intros env; [reflexivity|].
  cbn [Nat.add strikes]. rewrite IH, skipn_S_tl. now rewrite orb_assoc.
Qed.

Lemma strikes_nil k : strikes k [] = false.
Proof. induction k as [|k IH]; [reflexivity|]. cbn [strikes tl]. exact IH. Qed.

Lemma tl_skipn {A} k (l : list A) : tl (skipn k l) = skipn (S k) l.
Proof.
  revert l. induction k as [|k IH]; intros l; [now destruct l|].
  destruct l as [|a l]; [reflexivity|]. cbn [skipn]. rewrite IH. reflexivity.
Qed.

Lemma strikes_1 env : strikes 1 env = negb (is_null (next_fault env)).
Proof. cbn [strikes]. apply orb_false_r. Qed.

(** The whole body, statement by statement.  Either a fault strikes one
    of the statements up to the commit of [to_sql], or a row does not
    bind: then the body raises and every image of the disk has the rows it
    had.  Or the commit is reached: then the disk holds the new table from
    there on, and the body returns unless a fault strikes one of the two
    statements that remain. *)
Lemma load_body_run env now df db :
  df <> [] ->
  exists c o,
    load_body now df (connect env db) = (c, o) /\
    (((strikes (4 + List.length df) env = true \/ storable df = false) /\
      keeps_rows db c /\ is_raised o = true /\
      (env = [] -> disk c = created db /\ o = Raised too_large))
     \/
     (strikes (4 + List.length df) env = false /\ storable df = true /\
      disk c = loaded now df db /\
      Forall (fun d => unchanged db d \/ d = loaded now df db) (seen c) /\
      (is_raised o = true <->
       strikes 2 (skipn (4 + List.length df) env) = true))).
Proof.
  intros Hne. unfold load_body, bind.
  set (c0 := connect env db).
  assert (K0 : keeps_rows db c0).
  { split; [apply unchanged_refl|]. repeat constructor; reflexivity. }
  assert (S4 : forall k, strikes (S k) env =
                         negb (is_null (next_fault env)) || strikes k (tl env))
    by reflexivity.
  rewrite (execute_create c0 eq_refl).
  change (sql_faults c0) with env.
  destruct (next_fault env) as [e|] eqn:F0.
  { eexists _, _. split; [reflexivity|]. left.
    split; [left; cbn [Nat.add]; rewrite S4; reflexivity|].
    split; [apply keeps_rows_step; [exact K0|apply unchanged_refl]|].
    split; [reflexivity|]. intros ->. discriminate. }
  change (disk c0) with db.
  set (c1 := step c0 (created db) None).
  assert (K1 : keeps_rows db c1).
  { apply keeps_rows_step; [exact K0|apply unchanged_created]. }
  rewrite (execute_delete c1 (contents db) eq_refl eq_refl (project_fot_created db)).
  change (sql_faults c1) with (tl env).
  destruct (next_fault (tl env)) as [e|] eqn:F1.
  { eexists _, _. split; [reflexivity|]. left.
    split; [left; cbn [Nat.add]; rewrite S4; cbn [is_null negb orb];
            cbn [strikes]; rewrite F1; reflexivity|].
    split; [apply keeps_rows_step; [exact K1|apply unchanged_created]|].
    split; [reflexivity|]. intros ->. discriminate. }
  set (cleared := mkDatabase (Some []) (sqlite_sequence (disk c1))).
  set (c2 := step c1 (disk c1) (Some cleared)).
  assert (K2 : keeps_rows db c2).
  { apply keeps_rows_step; [exact K1|apply unchanged_created]. }
  unfold to_sql, bind.
  rewrite (execute_probe c2 cleared eq_refl).
  change (sql_faults c2) with (tl (tl env)).
  assert (S3 : strikes (4 + List.length df) env =
               negb (is_null (next_fault (tl (tl env)))) ||
               strikes (1 + List.length df) (tl (tl (tl env)))).
  { cbn [Nat.add]. rewrite S4. cbn [is_null negb orb].
    cbn [strikes]. rewrite F1. reflexivity. }
  set (c3 := step c2 (disk c2) (Some cleared)).
  assert (K3 : keeps_rows db c3).
  { apply keeps_rows_step; [exact K2|apply unchanged_created]. }
  destruct (next_fault (tl (tl env))) as [e|] eqn:F2.
  { eexists _, _. split; [reflexivity|]. left.
    split; [left; rewrite S3; reflexivity|].
    split; [exact K3|]. split; [reflexivity|]. intros ->. discriminate. }
  cbn [is_null negb orb] in S3.
  replace (1 + List.length df)%nat with (List.length df + 1)%nat in S3 by lia.
  rewrite (strikes_split (List.length df) 1 (tl (tl (tl env)))), strikes_1 in S3.
  destruct (run_inserts now df c3 cleared [] eq_refl eq_refl)
    as [c4 [o4 [Hex [Hd4 [Ha4 [Hk4 [Hnil4 Ho4]]]]]]].
  rewrite Hex.
  change (sql_faults c3) with (tl (tl (tl env))) in Ho4, Hnil4.
  pose proof (Hk4 db K3) as K4.
  assert (D4 : disk c4 = created db) by (rewrite Hd4; reflexivity).
  destruct o4 as [u|e].
  2:{ (* an INSERT raised: pandas rolls back *)
      destruct Ho4 as [Hwhy [w4 Hp4]].
      assert (Hcause : strikes (4 + List.length df) env = true \/ storable df = false).
      { destruct Hwhy as [Hs|[Hs _]]; [left|now right].
        rewrite S3, Hs. reflexivity. }
      rewrite execute_rollback.
      destruct (next_fault (sql_faults c4)) as [e'|] eqn:F4.
      - eexists _, _. split; [reflexivity|]. left.
        split; [exact Hcause|].
        split; [apply keeps_rows_step; [exact K4|apply K4]|].
        split; [reflexivity|].
        intros ->. rewrite Hnil4 in F4 by reflexivity. discriminate.
      - eexists _, _. split; [reflexivity|]. left.
        split; [exact Hcause|].
        split; [apply keeps_rows_step; [exact K4|apply K4]|].
        split; [reflexivity|].
        intros ->. split; [exact D4|].
        destruct Hwhy as [Hs|[_ ->]]; [|reflexivity].
        cbn [tl] in Hs. now rewrite strikes_nil in Hs. }
  destruct Ho4 as [Hs [Hst [Hfa [w' [Hp' [Htab [Hn [_ Hseq]]]]]]]].
  rewrite Hs in S3. cbn [orb] in S3.
  assert (Hw' : w' = loaded now df db).
  { destruct w' as [t sq']. cbn [project_fot sqlite_sequence] in *.
    unfold loaded. rewrite Htab, (Hseq Hne). cbn [app].
    assert (Hnr : next_rowid cleared = Z.max (sqlite_sequence db) 0 + 1).
    { unfold next_rowid, cleared, contents. cbn [project_fot sqlite_sequence max_rowid fold_right disk c1 step].
      now rewrite sqlite_sequence_created. }
    rewrite Hnr. f_equal. lia. }
  rewrite execute_commit. rewrite Hfa.
  destruct (next_fault (skipn (List.length df) (tl (tl (tl env))))) as [e|] eqn:F4.
  { (* the commit of to_sql is struck: pandas rolls back *)
    rewrite execute_rollback.
    set (c5 := step c4 (disk c4) (pending c4)).
    assert (K5 : keeps_rows db c5) by (apply keeps_rows_step; [exact K4|apply K4]).
    assert (Hcause : strikes (4 + List.length df) env = true) by (now rewrite S3).
    destruct (next_fault (sql_faults c5)) as [e'|];
      (eexists _, _; split; [reflexivity|]; left;
       split; [now left|];
       split; [apply keeps_rows_step; [exact K5|apply K5]|];
       split; [reflexivity|]; intros ->; destruct (List.length df); discriminate). }
  (* committed *)
  set (c5 := step c4 (view c4) None).
  assert (D5 : disk c5 = loaded now df db).
  { cbn [c5 step disk]. unfold view. now rewrite Hp'. }
  assert (N4 : Forall (fun d => unchanged db d \/ d = loaded now df db) (seen c4)).
  { eapply Forall_impl; [|apply K4]. intros d Hd. now left. }
  assert (N5 : Forall (fun d => unchanged db d \/ d = loaded now df db) (seen c5)).
  { cbn [c5 step seen]. apply Forall_app. split; [exact N4|].
    constructor; [|constructor]. right. unfold view. now rewrite Hp'. }
  assert (F5 : sql_faults c5 = skipn (4 + List.length df) env).
  { cbn [c5 step sql_faults]. rewrite Hfa, tl_skipn.
    cbn [Nat.add]. now rewrite !skipn_S_tl. }
  rewrite execute_commit, F5.
  assert (Hno : strikes (4 + List.length df) env = false) by (now rewrite S3).
  set (rest := skipn (4 + List.length df) env) in *.
  destruct (next_fault rest) as [e|] eqn:F6.
  { eexists _, _. split; [reflexivity|]. right.
    split; [exact Hno|]. split; [exact Hst|].
    split; [exact D5|].
    split.
    - cbn [step seen]. apply Forall_app. split; [exact N5|].
      constructor; [|constructor]. now right.
    - cbn [strikes]. rewrite F6. split; reflexivity. }
  set (c6 := step c5 (view c5) None).
  assert (D6 : disk c6 = loaded now df db) by exact D5.
  assert (N6 : Forall (fun d => unchanged db d \/ d = loaded now df db) (seen c6)).
  { cbn [c6 step seen]. apply Forall_app. split; [exact N5|].
    constructor; [|constructor]. right. exact D5. }
  unfold read_sql.
  assert (F7 : sql_faults c6 = tl rest) by (cbn [c6 step sql_faults]; now rewrite F5).
  rewrite F7.
  assert (V6 : project_fot (view c6) =
               Some (number_rows now (Z.max (sqlite_sequence db) 0 + 1) df)).
  { unfold view. cbn [c6 step pending]. fold c6. now rewrite D6. }
  rewrite V6.
  destruct (next_fault (tl rest)) as [e|] eqn:F8.
  - eexists _, _. split; [reflexivity|]. right.
    split; [exact Hno|]. split; [exact Hst|].
    split; [exact D6|].
    split.
    + cbn [step seen]. apply Forall_app. split; [exact N6|].
      constructor; [|constructor]. now right.
    + cbn [strikes]. rewrite F6, F8. split; reflexivity.
  - eexists _, _. split; [reflexivity|]. right.
    split; [exact Hno|]. split; [exact Hst|].
    split; [exact D6|].
    split.
    + cbn [step seen]. apply Forall_app. split; [exact N6|].
      constructor; [|constructor]. now right.
    + cbn [strikes]. rewrite F6, F8. split; discriminate.
Qed.

(** The final image is the last one seen. *)
Lemma execute_last s c : In (disk (fst (execute s c))) (seen (fst (execute s c))).
Proof.
  assert (H : forall d p, In (disk (step c d p)) (seen (step c d p))).
  { intros d p. cbn [step disk seen]. apply in_or_app. right. now left. }
  unfold execute.
  destruct (next_fault (sql_faults c)); [apply H|].
  destruct s; try apply H;
    (destruct (apply_statement _ (view c)); [|apply H];
     destruct (pending c); [apply H|];
     match goal with
     | |- context [if ?b then _ else _] => destruct b
     end; apply H).
Qed.

Lemma executemany_last ss : forall c,
  In (disk c) (seen c) ->
  In (disk (fst (executemany ss c))) (seen (fst (executemany ss c))).
Proof.
  induction ss as [|s ss IH]; intros c Hc; [exact Hc|].
  cbn [executemany]. unfold bind.
  pose proof (execute_last s c) as H.
  destruct (execute s c) as [c' [u|e]]; cbn [fst] in *; [now apply IH|exact H].
Qed.

Lemma read_sql_last query c :
  In (disk (fst (read_sql query c))) (seen (fst (read_sql query c))).
Proof.
  assert (H : forall d p, In (disk (step c d p)) (seen (step c d p))).
  { intros d p. cbn [step disk seen]. apply in_or_app. right. now left. }
  unfold read_sql.
  destruct (next_fault (sql_faults c)); [apply H|].
  destruct (project_fot (view c)); apply H.
Qed.

Lemma load_body_last now df env db :
  In (disk (fst (load_body now df (connect env db))))
     (seen (fst (load_body now df (connect env db)))).
Proof.
  unfold load_body, bind.
  pose proof (execute_last CreateTableIfNotExists (connect env db)) as H1.
  destruct (execute CreateTableIfNotExists (connect env db)) as [c1 [u1|e1]];
    cbn [fst] in *; [|exact H1].
  pose proof (execute_last DeleteFrom c1) as H2.
  destruct (execute DeleteFrom c1) as [c2 [u2|e2]]; cbn [fst] in *; [|exact H2].
  assert (H3 : In (disk (fst (to_sql now df c2))) (seen (fst (to_sql now df c2)))).
  { unfold to_sql, bind.
    pose proof (execute_last HasTable c2) as Ha.
    destruct (execute HasTable c2) as [ca [ua|ea]]; cbn [fst] in *; [|exact Ha].
    pose proof (executemany_last (map (InsertInto now) df) ca Ha) as Hb.
    destruct (executemany (map (InsertInto now) df) ca) as [cb [ub|eb]]; cbn [fst] in *.
    - pose proof (execute_last Commit cb) as Hc.
      destruct (execute Commit cb) as [cc [uc|ec]]; cbn [fst] in *; [exact Hc|].
      pose proof (execute_last Rollback cc) as Hd.
      destruct (execute Rollback cc) as [cd [ud|ed]]; exact Hd.
    - pose proof (execute_last Rollback cb) as Hd.
      destruct (execute Rollback cb) as [cd [ud|ed]]; exact Hd. }
  destruct (to_sql now df c2) as [c3 [u3|e3]]; cbn [fst] in *; [|exact H3].
  pose proof (execute_last Commit c3) as H4.
  destruct (execute Commit c3) as [c4 [u4|e4]]; cbn [fst] in *; [|exact H4].
  pose proof (read_sql_last verification_query c4) as H5.
  destruct (read_sql verification_query c4) as [c5 [u5|e5]]; exact H5.
Qed.

Lemma payload_number_rows now rowid df :
  map payload (number_rows now rowid df) = map stored_values df.
Proof.
  revert rowid. induction df as [|row rest IH]; intros rowid; [reflexivity|].
  cbn [number_rows map]. now rewrite IH.
Qed.

Lemma length_number_rows now rowid df :
  List.length (number_rows now rowid df) = List.length df.
Proof.
  rewrite <- (length_map payload), payload_number_rows. apply length_map.
Qed.

Lemma number_rows_ids now rowid df r :
  In r (number_rows now rowid df) ->
  rowid <= Stored.id r < rowid + Z.of_nat (List.length df).
Proof.
  revert rowid. induction df as [|row rest IH]; intros rowid Hin; [destruct Hin|].
  cbn [List.length]. destruct Hin as [<-|Hin]; [simpl; lia|].
  apply IH in Hin. lia.
Qed.

Lemma number_rows_sorted now rowid df :
  StronglySorted Z.lt (map Stored.id (number_rows now rowid df)).
Proof.
  revert rowid. induction df as [|row rest IH]; intros rowid; simpl; constructor.
  - apply IH.
  - apply Forall_forall. intros i Hi. apply in_map_iff in Hi.
    destruct Hi as [r [<- Hr]]. apply number_rows_ids in Hr. lia.
Qed.

(** A run of the Loader in an environment of faults. *)
Lemma load_to_database_in_run env now x df db :
  fot_stats x = Some df -> df <> [] ->
  exists d images o,
    load_to_database_in env now x db = ((d, images), o) /\
    In d images /\
    (((strikes (4 + List.length df) env = true \/ storable df = false) /\
      unchanged db d /\ Forall (unchanged db) images /\ is_raised o = true /\
      (env = [] -> d = created db /\ o = Raised too_large))
     \/
     (strikes (4 + List.length df) env = false /\ storable df = true /\
      d = loaded now df db /\
      Forall (fun d => unchanged db d \/ d = loaded now df db) images /\
      (is_raised o = true <-> strikes 2 (skipn (4 + List.length df) env) = true) /\
      (is_raised o = false -> o = Returned (load_message df)))).
Proof.
  intros Hx Hne. unfold load_to_database_in. rewrite Hx.
  destruct df as [|row rest] eqn:Edf; [congruence|]. rewrite <- Edf in *.
  pose proof (load_body_last now df env db) as Hlast.
  destruct (load_body_run env now df db Hne) as [c [o [Hrun Hcases]]].
  rewrite Hrun in *. cbn [fst] in Hlast.
  eexists _, _, _. split; [reflexivity|]. split; [exact Hlast|].
  unfold close.
  destruct Hcases as [[Hcause [[Kd Ks] [Hr Hnil]]]|[Hno [Hst [Hd [Hs Ho]]]]].
  - left. split; [exact Hcause|]. split; [exact Kd|]. split; [exact Ks|].
    destruct o as [u|e]; [discriminate|]. split; [reflexivity|].
    intros E. destruct (Hnil E) as [H1 H2]. split; [exact H1|congruence].
  - right. split; [exact Hno|]. split; [exact Hst|]. split; [exact Hd|].
    split; [exact Hs|].
    destruct o as [u|e]; cbn [is_raised] in *.
    + split; [exact Ho|]. reflexivity.
    + split; [exact Ho|]. discriminate.
Qed.

(** Where no statement fails of itself: a non-empty aggregate whose
    integers fit is loaded, and the table holds exactly its rows. *)
Lemma load_to_database_returns now x df db :
  fot_stats x = Some df -> df <> [] -> storable df = true ->
  load_to_database now x db = (loaded now df db, Returned (load_message df)).
Proof.
  intros Hx Hne Hst. unfold load_to_database.
  destruct (load_to_database_in_run [] now x df db Hx Hne)
    as [d [images [o [-> [_ [[[Hs|Hs] _]|[_ [_ [-> [_ [Ho Hret]]]]]]]]]]].
  - now rewrite strikes_nil in Hs.
  - congruence.
  - rewrite Hret; [reflexivity|].
    destruct (is_raised o); [|reflexivity].
    destruct Ho as [Ho _]. specialize (Ho eq_refl).
    destruct (4 + List.length df)%nat; cbn [skipn] in Ho; now rewrite strikes_nil in Ho.
Qed.

(** An aggregate with an integer that does not fit: the INSERT raises,
    pandas rolls back, and the rows of the table are as they were. *)
Lemma load_to_database_overflow now x df db :
  fot_stats x = Some df -> storable df = false ->
  load_to_database now x db = (created db, Raised too_large).
Proof.
  intros Hx Hst. assert (Hne : df <> []) by (intros ->; discriminate).
  unfold load_to_database.
  destruct (load_to_database_in_run [] now x df db Hx Hne)
    as [d [images [o [-> [_ [[_ [_ [_ [_ Hnil]]]]|[_ [Hst' _]]]]]]]].
  - destruct (Hnil eq_refl) as [-> ->]. reflexivity.
  - congruence.
Qed.

Lemma load_to_database_raises now x db :
  fot_stats x = None \/ fot_stats x = Some [] ->
  load_to_database now x db = (db, Raised (ValueError "Нет данных для загрузки")).
Proof.
  intros [H|H]; unfold load_to_database, load_to_database_in; now rewrite H.
Qed.

(** What [load_to_database] does, by the aggregate it pulls. *)
Lemma load_to_database_cases now x db :
  ((fot_stats x = None \/ fot_stats x = Some []) /\
   load_to_database now x db = (db, Raised (ValueError "Нет данных для загрузки"))) \/
  (exists df, fot_stats x = Some df /\ df <> [] /\ storable df = false /\
     load_to_database now x db = (created db, Raised too_large)) \/
  (exists df, fot_stats x = Some df /\ df <> [] /\ storable df = true /\
     load_to_database now x db = (loaded now df db, Returned (load_message df))).
Proof.
  destruct (fot_stats x) as [[|row rest]|] eqn:E.
  - left. split; [now right|]. apply load_to_database_raises. now right.
  - right. destruct (storable (row :: rest)) eqn:Est.
    + right. exists (row :: rest). split; [reflexivity|]. split; [discriminate|].
      split; [exact Est|]. now apply (load_to_database_returns now x (row :: rest)).
    + left. exists (row :: rest). split; [reflexivity|]. split; [discriminate|].
      split; [exact Est|]. now apply (load_to_database_overflow now x (row :: rest)).
  - left. split; [now left|]. apply load_to_database_raises. now left.
Qed.

(** C4 (as amended).  On the aggregate of a Transformer (its payment
    column of one type), the Loader raises its [ValueError] exactly when
    the aggregate it pulls is absent or empty, and it raises at all
    exactly then or when the aggregate holds an integer that does not fit
    64 bits, which SQLite refuses.  Whenever it raises, the rows of the
    table and its key sequence are as they were (for the [ValueError] the
    database is not touched at all).  A non-empty aggregate whose integers
    fit is written: the run returns and the table holds its rows, the
    numbers as doubles. *)
Theorem load_raises_iff_no_data now x db :
  uniform_payments x = true ->
  (snd (load_to_database now x db) = Raised (ValueError "Нет данных для загрузки") <->
   fot_stats x = None \/ fot_stats x = Some []) /\
  (is_raised (snd (load_to_database now x db)) = true <->
   fot_stats x = None \/ fot_stats x = Some [] \/
   exists df, fot_stats x = Some df /\ storable df = false) /\
  (fot_stats x = None \/ fot_stats x = Some [] ->
   fst (load_to_database now x db) = db) /\
  (is_raised (snd (load_to_database now x db)) = true ->
   unchanged db (fst (load_to_database now x db))) /\
  (forall df, fot_stats x = Some df -> df <> [] -> storable df = true ->
     snd (load_to_database now x db) = Returned (load_message df) /\
     map payload (contents (fst (load_to_database now x db))) =
       map stored_values df).
Proof.
  intros _.
  destruct (load_to_database_cases now x db)
    as [[Hno Hrun]|[[df [Hx [Hne [Hst Hrun]]]]|[df [Hx [Hne [Hst Hrun]]]]]];
    rewrite Hrun; cbn [fst snd is_raised].
  - split; [tauto|]. split; [tauto|]. split; [reflexivity|].
    split; [intros _; apply unchanged_refl|].
    intros df Hx Hne _. destruct Hno as [H|H]; congruence.
  - split.
    { split; [discriminate|]. intros [H|H]; congruence. }
    split.
    { split; [|reflexivity]. intros _. right. right. now exists df. }
    split; [intros [H|H]; congruence|].
    split; [intros _; apply unchanged_created|].
    intros df' Hx' _ Hst'. congruence.
  - split.
    { split; [discriminate|]. intros [H|H]; congruence. }
    split.
    { split; [discriminate|]. intros [H|[H|[df' [H1 H2]]]]; congruence. }
    split; [intros [H|H]; congruence|].
    split; [discriminate|].
    intros df' Hx' _ _. assert (df' = df) by congruence. subst df'.
    split; [reflexivity|].
    unfold loaded, contents. cbn [project_fot]. apply payload_number_rows.
Qed.

(** The scenario's aggregate, loaded over the table of the day before. *)
Lemma load_raises_iff_no_data_scenario :
  load_to_database "2025-01-02 00:00:00" (with_fot_stats scenario_fot)
    scenario_database =
    (loaded "2025-01-02 00:00:00" scenario_fot scenario_database,
     Returned "Загружено 3 записей") /\
  (snd (load_to_database "2025-01-02 00:00:00" (with_fot_stats scenario_fot) scenario_database) = Raised (ValueError "Нет данных для загрузки") <->
   fot_stats (with_fot_stats scenario_fot) = None \/ fot_stats (with_fot_stats scenario_fot) = Some []) /\
  (is_raised (snd (load_to_database "2025-01-02 00:00:00" (with_fot_stats scenario_fot) scenario_database)) = true <->
   fot_stats (with_fot_stats scenario_fot) = None \/ fot_stats (with_fot_stats scenario_fot) = Some [] \/
   exists df, fot_stats (with_fot_stats scenario_fot) = Some df /\ storable df = false) /\
  (fot_stats (with_fot_stats scenario_fot) = None \/ fot_stats (with_fot_stats scenario_fot) = Some [] ->
   fst (load_to_database "2025-01-02 00:00:00" (with_fot_stats scenario_fot) scenario_database) = scenario_database) /\
  (is_raised (snd (load_to_database "2025-01-02 00:00:00" (with_fot_stats scenario_fot) scenario_database)) = true ->
   unchanged scenario_database (fst (load_to_database "2025-01-02 00:00:00" (with_fot_stats scenario_fot) scenario_database))) /\
  (forall df, fot_stats (with_fot_stats scenario_fot) = Some df -> df <> [] -> storable df = true ->
     snd (load_to_database "2025-01-02 00:00:00" (with_fot_stats scenario_fot) scenario_database) = Returned (load_message df) /\
     map payload (contents (fst (load_to_database "2025-01-02 00:00:00" (with_fot_stats scenario_fot) scenario_database))) =
       map stored_values df).
Proof.
  split; [reflexivity|].
  apply (load_raises_iff_no_data "2025-01-02 00:00:00" (with_fot_stats scenario_fot)
           scenario_database).
  reflexivity.
Defined.

(** A one-row aggregate whose hours and payment are 2^64: it is not
    empty, and the Loader raises all the same. *)
Lemma load_overflow_raises :
  huge_fot <> [] /\
  load_to_database "2025-01-02 00:00:00" (with_fot_stats huge_fot) scenario_database =
    (scenario_database, Raised too_large).
Proof. split; [discriminate|reflexivity]. Qed.

(** What the REAL columns keep: 2^53 + 1 hours are stored as 2^53, a
    payment of 0.5 as it is. *)
Example load_stores_doubles :
  map payload
      (contents (fst (load_to_database "2025-01-02 00:00:00"
                        (with_fot_stats
                           [Fot.mk 1 9007199254740993 (PyFloat (Float.mk 1 1))])
                        empty_database))) =
    [Values.mk 1 (Float.mk 9007199254740992 0) (Float.mk 1 1)].
Proof. reflexivity. Qed.

(** C5.  Loading the same non-empty aggregate twice leaves as many rows
    as loading it once, with the same [project_id], [total_hours] and
    [total_payment] in the same order; when its integers fit these are the
    rows of the aggregate, each once. *)
Theorem load_twice_same_data now1 now2 x df db :
  fot_stats x = Some df -> df <> [] ->
  List.length (contents (fst (load_to_database now2 x
                                (fst (load_to_database now1 x db))))) =
  List.length (contents (fst (load_to_database now1 x db))) /\
  map payload (contents (fst (load_to_database now2 x
                                (fst (load_to_database now1 x db))))) =
  map payload (contents (fst (load_to_database now1 x db))) /\
  (storable df = true ->
   map payload (contents (fst (load_to_database now1 x db))) =
     map stored_values df /\
   List.length (contents (fst (load_to_database now1 x db))) = List.length df).
Proof.
  intros Hx Hne.
  destruct (storable df) eqn:Hst.
  - rewrite !(load_to_database_returns _ x df _ Hx Hne Hst).
    cbn [fst]. unfold loaded, contents. cbn [project_fot].
    rewrite !payload_number_rows, !length_number_rows.
    repeat split; reflexivity.
  - rewrite !(load_to_database_overflow _ x df _ Hx Hst).
    cbn [fst]. rewrite !contents_created.
    split; [reflexivity|]. split; [reflexivity|]. discriminate.
Qed.

Lemma load_twice_same_data_scenario :
  List.length (contents (fst (load_to_database "2025-01-02 00:00:00"
                                (with_fot_stats scenario_fot)
                                (fst (load_to_database "2025-01-01 00:00:00"
                                        (with_fot_stats scenario_fot)
                                        empty_database))))) =
  List.length (contents (fst (load_to_database "2025-01-01 00:00:00"
                                (with_fot_stats scenario_fot) empty_database))) /\
  map payload (contents (fst (load_to_database "2025-01-02 00:00:00"
                                (with_fot_stats scenario_fot)
                                (fst (load_to_database "2025-01-01 00:00:00"
                                        (with_fot_stats scenario_fot)
                                        empty_database))))) =
  map payload (contents (fst (load_to_database "2025-01-01 00:00:00"
                                (with_fot_stats scenario_fot) empty_database))) /\
  (storable scenario_fot = true ->
   map payload (contents (fst (load_to_database "2025-01-01 00:00:00"
                                 (with_fot_stats scenario_fot) empty_database))) =
     map stored_values scenario_fot /\
   List.length (contents (fst (load_to_database "2025-01-01 00:00:00"
                                 (with_fot_stats scenario_fot) empty_database))) =
     List.length scenario_fot).
Proof.
  apply (load_twice_same_data "2025-01-01 00:00:00" "2025-01-02 00:00:00"
           (with_fot_stats scenario_fot) scenario_fot empty_database);
    [reflexivity|discriminate].
Defined.

(** The same one-row aggregate loaded twice at the same timestamp: the
    row is stored under key 1 after the first run and under key 2 after
    the second. *)
Example load_twice_changes_id :
  map Stored.id
      (contents (fst (load_to_database "2025-01-01 00:00:00"
                        (with_fot_stats [Fot.mk 1 10 (PyInt 500)]) empty_database))) =
    [1] /\
  map Stored.id
      (contents (fst (load_to_database "2025-01-01 00:00:00"
                        (with_fot_stats [Fot.mk 1 10 (PyInt 500)])
                        (fst (load_to_database "2025-01-01 00:00:00"
                                (with_fot_stats [Fot.mk 1 10 (PyInt 500)])
                                empty_database))))) =
    [2].
Proof. split; reflexivity. Qed.

(** C6.  A run of the Loader on a non-empty aggregate of a Transformer
    (its payment column of one type), in whatever environment of failing
    statements.  Every image the database file
    holds during the run, which is what a reader finds or what is left
    when the process stops there, has either the rows and the key
    sequence the database had before the run or is the whole new table:
    never a part of either.  The image the run leaves is the last of
    them.  When a fault strikes one of the statements up to the commit
    (the CREATE, the DELETE, pandas' look-up of the table, the INSERTs and
    the commit), or a row does not bind, the run raises and every image,
    the last included, has the rows the table had.  Otherwise the run
    leaves the new table, whole; and it returns exactly when no statement
    at all is struck and every row binds. *)
Theorem load_replaces_atomically env now x df db :
  fot_stats x = Some df -> df <> [] -> uniform df = true ->
  Forall (fun d => unchanged db d \/ d = loaded now df db)
         (snd (fst (load_to_database_in env now x db))) /\
  In (fst (fst (load_to_database_in env now x db)))
     (snd (fst (load_to_database_in env now x db))) /\
  (strikes (4 + List.length df) env = true \/ storable df = false ->
   is_raised (snd (load_to_database_in env now x db)) = true /\
   unchanged db (fst (fst (load_to_database_in env now x db))) /\
   Forall (unchanged db) (snd (fst (load_to_database_in env now x db)))) /\
  (strikes (4 + List.length df) env = false -> storable df = true ->
   fst (fst (load_to_database_in env now x db)) = loaded now df db) /\
  (snd (load_to_database_in env now x db) = Returned (load_message df) <->
   strikes (6 + List.length df) env = false /\ storable df = true).
Proof.
  intros Hx Hne _.
  assert (H6 : strikes (6 + List.length df) env =
               strikes (4 + List.length df) env ||
               strikes 2 (skipn (4 + List.length df) env)).
  { replace (6 + List.length df)%nat with ((4 + List.length df) + 2)%nat by lia.
    apply strikes_split. }
  destruct (load_to_database_in_run env now x df db Hx Hne)
    as [d [images [o [-> [Hlast Hcases]]]]]. cbn [fst snd].
  destruct Hcases as [[Hcause [Hd [Hi [Hr Hnil]]]]|[Hno [Hst [Hd [Hi [Ho Hret]]]]]].
  - split; [eapply Forall_impl; [|exact Hi]; intros; now left|].
    split; [exact Hlast|].
    split; [intros _; split; [exact Hr|split; [exact Hd|exact Hi]]|].
    split; [intros H1 H2; destruct Hcause; congruence|].
    split.
    + intros ->. discriminate.
    + intros [H1 H2]. rewrite H6 in H1. apply orb_false_elim in H1.
      destruct Hcause; destruct H1; congruence.
  - split; [exact Hi|]. split; [exact Hlast|].
    split; [intros [H|H]; congruence|].
    split; [intros _ _; exact Hd|].
    rewrite H6, Hno. cbn [orb]. split.
    + intros ->. split; [|exact Hst].
      destruct (strikes 2 (skipn (4 + List.length df) env)); [|reflexivity].
      destruct Ho as [_ Ho]. now specialize (Ho eq_refl).
    + intros [H1 _]. apply Hret.
      destruct (is_raised o); [|reflexivity].
      destruct Ho as [Ho _]. specialize (Ho eq_refl). congruence.
Qed.

(** The disk fails during the second INSERT of a run that replaces the
    scenario's table by two rows: the run raises, and the table still
    holds the scenario's three rows. *)
Lemma load_replaces_atomically_scenario :
  Forall (fun d => unchanged scenario_database d \/
                   d = loaded "2025-01-02 00:00:00"
                         [Fot.mk 9 1 (PyInt 20); Fot.mk 8 2 (PyInt 30)]
                         scenario_database)
         (snd (fst (load_to_database_in
                      [None; None; None; None;
                       Some (OperationalError "disk I/O error")]
                      "2025-01-02 00:00:00"
                      (with_fot_stats [Fot.mk 9 1 (PyInt 20); Fot.mk 8 2 (PyInt 30)])
                      scenario_database))) /\
  In (fst (fst (load_to_database_in
                  [None; None; None; None;
                   Some (OperationalError "disk I/O error")]
                  "2025-01-02 00:00:00"
                  (with_fot_stats [Fot.mk 9 1 (PyInt 20); Fot.mk 8 2 (PyInt 30)])
                  scenario_database)))
     (snd (fst (load_to_database_in
                  [None; None; None; None;
                   Some (OperationalError "disk I/O error")]
                  "2025-01-02 00:00:00"
                  (with_fot_stats [Fot.mk 9 1 (PyInt 20); Fot.mk 8 2 (PyInt 30)])
                  scenario_database))) /\
  (strikes (4 + List.length [Fot.mk 9 1 (PyInt 20); Fot.mk 8 2 (PyInt 30)])
           [None; None; None; None; Some (OperationalError "disk I/O error")] = true \/
   storable [Fot.mk 9 1 (PyInt 20); Fot.mk 8 2 (PyInt 30)] = false ->
   is_raised (snd (load_to_database_in
                     [None; None; None; None;
                      Some (OperationalError "disk I/O error")]
                     "2025-01-02 00:00:00"
                     (with_fot_stats [Fot.mk 9 1 (PyInt 20); Fot.mk 8 2 (PyInt 30)])
                     scenario_database)) = true /\
   unchanged scenario_database
     (fst (fst (load_to_database_in
                  [None; None; None; None;
                   Some (OperationalError "disk I/O error")]
                  "2025-01-02 00:00:00"
                  (with_fot_stats [Fot.mk 9 1 (PyInt 20); Fot.mk 8 2 (PyInt 30)])
                  scenario_database))) /\
   Forall (unchanged scenario_database)
     (snd (fst (load_to_database_in
                  [None; None; None; None;
                   Some (OperationalError "disk I/O error")]
                  "2025-01-02 00:00:00"
                  (with_fot_stats [Fot.mk 9 1 (PyInt 20); Fot.mk 8 2 (PyInt 30)])
                  scenario_database)))) /\
  (strikes (4 + List.length [Fot.mk 9 1 (PyInt 20); Fot.mk 8 2 (PyInt 30)])
           [None; None; None; None; Some (OperationalError "disk I/O error")] = false ->
   storable [Fot.mk 9 1 (PyInt 20); Fot.mk 8 2 (PyInt 30)] = true ->
   fst (fst (load_to_database_in
               [None; None; None; None;
                Some (OperationalError "disk I/O error")]
               "2025-01-02 00:00:00"
               (with_fot_stats [Fot.mk 9 1 (PyInt 20); Fot.mk 8 2 (PyInt 30)])
               scenario_database)) =
   loaded "2025-01-02 00:00:00" [Fot.mk 9 1 (PyInt 20); Fot.mk 8 2 (PyInt 30)]
          scenario_database) /\
  (snd (load_to_database_in
          [None; None; None; None; Some (OperationalError "disk I/O error")]
          "2025-01-02 00:00:00"
          (with_fot_stats [Fot.mk 9 1 (PyInt 20); Fot.mk 8 2 (PyInt 30)])
          scenario_database) =
   Returned (load_message [Fot.mk 9 1 (PyInt 20); Fot.mk 8 2 (PyInt 30)]) <->
   strikes (6 + List.length [Fot.mk 9 1 (PyInt 20); Fot.mk 8 2 (PyInt 30)])
           [None; None; None; None; Some (OperationalError "disk I/O error")] = false /\
   storable [Fot.mk 9 1 (PyInt 20); Fot.mk 8 2 (PyInt 30)] = true).
Proof.
  apply (load_replaces_atomically
           [None; None; None; None; Some (OperationalError "disk I/O error")]
           "2025-01-02 00:00:00"
           (with_fot_stats [Fot.mk 9 1 (PyInt 20); Fot.mk 8 2 (PyInt 30)])
           [Fot.mk 9 1 (PyInt 20); Fot.mk 8 2 (PyInt 30)] scenario_database);
    [reflexivity|discriminate|reflexivity].
Defined.

(** What the run of that scenario leaves, and what a run without the
    fault leaves. *)
Example load_fault_scenario_values :
  load_to_database_in
    [None; None; None; None; Some (OperationalError "disk I/O error")]
    "2025-01-02 00:00:00"
    (with_fot_stats [Fot.mk 9 1 (PyInt 20); Fot.mk 8 2 (PyInt 30)])
    scenario_database =
    ((scenario_database, repeat scenario_database 7),
     Raised (OperationalError "disk I/O error")) /\
  map Stored.project_id
      (contents (fst (load_to_database "2025-01-02 00:00:00"
                        (with_fot_stats [Fot.mk 9 1 (PyInt 20); Fot.mk 8 2 (PyInt 30)])
                        scenario_database))) = [9; 8].
Proof. split; reflexivity. Qed.

(** On a connection in autocommit mode the same DELETE would reach the
    disk at once: the atomic replace rests on the connection's implicit
    transaction. *)
Example autocommit_delete_is_visible :
  contents (disk (fst (execute DeleteFrom
                         (mkConnection scenario_database None true []
                                       [scenario_database])))) = [].
Proof. reflexivity. Qed.

Lemma ids_bounded_empty : ids_bounded empty_database.
Proof. constructor. Qed.

Lemma ids_bounded_loaded now df db : ids_bounded (loaded now df db).
Proof.
  unfold ids_bounded, loaded, contents. cbn [project_fot sqlite_sequence].
  apply Forall_forall. intros r Hr. apply number_rows_ids in Hr. lia.
Qed.

Lemma ids_bounded_unchanged db d : unchanged db d -> ids_bounded db -> ids_bounded d.
Proof. unfold ids_bounded. intros [-> ->]. trivial. Qed.

(** Every key of a freshly loaded table is above the sequence value the
    database had, and so above every key stored before. *)
Lemma loaded_ids_fresh now df db r :
  In r (contents (loaded now df db)) ->
  Z.max (sqlite_sequence db) 0 < Stored.id r <= sqlite_sequence (loaded now df db).
Proof.
  unfold loaded, contents. cbn [project_fot sqlite_sequence].
  intros Hr. apply number_rows_ids in Hr. lia.
Qed.

(** C9.  Over two consecutive runs of the Loader that load data (each
    aggregate is non-empty and its integers fit), from any database: each
    run stores one row per row of its aggregate; the keys of a run's rows
    increase in stored order and lie above the sequence value the database
    had before the run and up to the one it has after it, so every key of
    the second run exceeds every key of the first, although each run
    deletes all rows first.  With the same input both runs store the same
    [project_id], [total_hours] and [total_payment], and no key of the one
    is a key of the other. *)
Theorem load_ids_increase now1 now2 x1 x2 df1 df2 db :
  fot_stats x1 = Some df1 -> df1 <> [] -> storable df1 = true ->
  fot_stats x2 = Some df2 -> df2 <> [] -> storable df2 = true ->
  List.length (contents (fst (load_to_database now1 x1 db))) = List.length df1 /\
  List.length (contents (fst (load_to_database now2 x2
                                (fst (load_to_database now1 x1 db))))) =
    List.length df2 /\
  StronglySorted Z.lt
    (map Stored.id (contents (fst (load_to_database now1 x1 db)))) /\
  StronglySorted Z.lt
    (map Stored.id
       (contents (fst (load_to_database now2 x2 (fst (load_to_database now1 x1 db)))))) /\
  (forall r1,
     In r1 (contents (fst (load_to_database now1 x1 db))) ->
     sqlite_sequence db < Stored.id r1 <=
     sqlite_sequence (fst (load_to_database now1 x1 db))) /\
  (forall r2,
     In r2 (contents (fst (load_to_database now2 x2
                             (fst (load_to_database now1 x1 db))))) ->
     sqlite_sequence (fst (load_to_database now1 x1 db)) < Stored.id r2 <=
     sqlite_sequence (fst (load_to_database now2 x2
                             (fst (load_to_database now1 x1 db))))) /\
  (forall r1 r2,
     In r1 (contents (fst (load_to_database now1 x1 db))) ->
     In r2 (contents (fst (load_to_database now2 x2
                             (fst (load_to_database now1 x1 db))))) ->
     Stored.id r1 < Stored.id r2) /\
  (df1 = df2 ->
   map payload (contents (fst (load_to_database now1 x1 db))) =
   map payload (contents (fst (load_to_database now2 x2
                                 (fst (load_to_database now1 x1 db))))) /\
   forall r1 r2,
     In r1 (contents (fst (load_to_database now1 x1 db))) ->
     In r2 (contents (fst (load_to_database now2 x2
                             (fst (load_to_database now1 x1 db))))) ->
     Stored.id r1 <> Stored.id r2).
Proof.
  intros Hx1 Hne1 Hst1 Hx2 Hne2 Hst2.
  rewrite (load_to_database_returns now1 x1 df1 db Hx1 Hne1 Hst1). cbn [fst].
  rewrite (load_to_database_returns now2 x2 df2 _ Hx2 Hne2 Hst2). cbn [fst].
  assert (Hlt : forall r1 r2,
             In r1 (contents (loaded now1 df1 db)) ->
             In r2 (contents (loaded now2 df2 (loaded now1 df1 db))) ->
             Stored.id r1 < Stored.id r2).
  { intros r1 r2 H1 H2. apply loaded_ids_fresh in H1, H2. lia. }
  split; [unfold loaded, contents; cbn [project_fot]; apply length_number_rows|].
  split; [unfold loaded, contents; cbn [project_fot]; apply length_number_rows|].
  split; [apply number_rows_sorted|].
  split; [apply number_rows_sorted|].
  split; [intros r1 H1; apply loaded_ids_fresh in H1; lia|].
  split; [intros r2 H2; apply loaded_ids_fresh in H2; lia|].
  split; [exact Hlt|].
  intros <-. split.
  - unfold loaded, contents. cbn [project_fot]. now rewrite !payload_number_rows.
  - intros r1 r2 H1 H2. specialize (Hlt r1 r2 H1 H2). lia.
Qed.

(** Two daily runs on the scenario's aggregate, from an empty database. *)
Lemma load_ids_increase_scenario :
  List.length (contents (fst (load_to_database "2025-01-01 00:00:00" (with_fot_stats scenario_fot) empty_database))) = List.length scenario_fot /\
  List.length (contents (fst (load_to_database "2025-01-02 00:00:00" (with_fot_stats scenario_fot)
                                (fst (load_to_database "2025-01-01 00:00:00" (with_fot_stats scenario_fot) empty_database))))) =
    List.length scenario_fot /\
  StronglySorted Z.lt
    (map Stored.id (contents (fst (load_to_database "2025-01-01 00:00:00" (with_fot_stats scenario_fot) empty_database)))) /\
  StronglySorted Z.lt
    (map Stored.id
       (contents (fst (load_to_database "2025-01-02 00:00:00" (with_fot_stats scenario_fot) (fst (load_to_database "2025-01-01 00:00:00" (with_fot_stats scenario_fot) empty_database)))))) /\
  (forall r1,
     In r1 (contents (fst (load_to_database "2025-01-01 00:00:00" (with_fot_stats scenario_fot) empty_database))) ->
     sqlite_sequence empty_database < Stored.id r1 <=
     sqlite_sequence (fst (load_to_database "2025-01-01 00:00:00" (with_fot_stats scenario_fot) empty_database))) /\
  (forall r2,
     In r2 (contents (fst (load_to_database "2025-01-02 00:00:00" (with_fot_stats scenario_fot)
                             (fst (load_to_database "2025-01-01 00:00:00" (with_fot_stats scenario_fot) empty_database))))) ->
     sqlite_sequence (fst (load_to_database "2025-01-01 00:00:00" (with_fot_stats scenario_fot) empty_database)) < Stored.id r2 <=
     sqlite_sequence (fst (load_to_database "2025-01-02 00:00:00" (with_fot_stats scenario_fot)
                             (fst (load_to_database "2025-01-01 00:00:00" (with_fot_stats scenario_fot) empty_database))))) /\
  (forall r1 r2,
     In r1 (contents (fst (load_to_database "2025-01-01 00:00:00" (with_fot_stats scenario_fot) empty_database))) ->
     In r2 (contents (fst (load_to_database "2025-01-02 00:00:00" (with_fot_stats scenario_fot)
                             (fst (load_to_database "2025-01-01 00:00:00" (with_fot_stats scenario_fot) empty_database))))) ->
     Stored.id r1 < Stored.id r2) /\
  (scenario_fot = scenario_fot ->
   map payload (contents (fst (load_to_database "2025-01-01 00:00:00" (with_fot_stats scenario_fot) empty_database))) =
   map payload (contents (fst (load_to_database "2025-01-02 00:00:00" (with_fot_stats scenario_fot)
                                 (fst (load_to_database "2025-01-01 00:00:00" (with_fot_stats scenario_fot) empty_database))))) /\
   forall r1 r2,
     In r1 (contents (fst (load_to_database "2025-01-01 00:00:00" (with_fot_stats scenario_fot) empty_database))) ->
     In r2 (contents (fst (load_to_database "2025-01-02 00:00:00" (with_fot_stats scenario_fot)
                             (fst (load_to_database "2025-01-01 00:00:00" (with_fot_stats scenario_fot) empty_database))))) ->
     Stored.id r1 <> Stored.id r2).
Proof.
  apply (load_ids_increase "2025-01-01 00:00:00" "2025-01-02 00:00:00"
           (with_fot_stats scenario_fot) (with_fot_stats scenario_fot)
           scenario_fot scenario_fot empty_database);
    first [reflexivity | discriminate].
Defined.

(** The keys themselves: 1, 2, 3 and then 4, 5, 6. *)
Example load_ids_scenario_values :
  map Stored.id
    (contents (fst (load_to_database "2025-01-01 00:00:00"
                      (with_fot_stats scenario_fot) empty_database))) = [1; 2; 3] /\
  map Stored.id
    (contents (fst (load_to_database "2025-01-02 00:00:00"
                      (with_fot_stats scenario_fot)
                      (fst (load_to_database "2025-01-01 00:00:00"
                              (with_fot_stats scenario_fot) empty_database))))) =
  [4; 5; 6].
Proof. split; reflexivity. Qed.

(* ------------------------------------------------------------------ *)
(** * Properties of the Report Generator *)

Lemma append_assoc (a b c : string) : (a +++ b) +++ c = a +++ b +++ c.
Proof. induction a as [|ch a IH]; simpl; [reflexivity|now rewrite IH]. Qed.

Lemma append_nil_r (a : string) : a +++ "" = a.
Proof. induction a as [|ch a IH]; simpl; [reflexivity|now rewrite IH]. Qed.

(** A loop that appends one piece per row appends the pieces in order. *)
Lemma fold_left_append {A} (piece : A -> string) (l : list A) (init : string) :
  fold_left (fun acc a => acc +++ piece a) l init = init +++ join (map piece l).
Proof.
  revert init. induction l as [|a l IH]; intros init; simpl.
  - now rewrite append_nil_r.
  - now rewrite IH, append_assoc.
Qed.


Lemma denominator_pos a : 0 < Float.denominator a.
Proof. unfold Float.denominator. apply Z.pow_pos_nonneg; lia. Qed.

(** The order of doubles is total and transitive. *)
Lemma leb_total a b : Float.leb a b = false -> Float.leb b a = true.
Proof.
  unfold Float.leb. intros H. apply Z.leb_gt in H. apply Z.leb_le. lia.
Qed.

Lemma leb_trans a b c :
  Float.leb a b = true -> Float.leb b c = true -> Float.leb a c = true.
Proof.
  unfold Float.leb. intros H1 H2. apply Z.leb_le in H1, H2. apply Z.leb_le.
  pose proof (denominator_pos a). pose proof (denominator_pos b).
  pose proof (denominator_pos c).
  apply (Z.mul_le_mono_pos_r _ _ (Float.denominator b)); [lia|].
  transitivity (Float.num b * Float.denominator a * Float.denominator c); nia.
Qed.

Lemma insert_desc_perm r l : Permutation (r :: l) (insert_desc r l).
Proof.
  induction l as [|h t IH]; simpl; [reflexivity|].
  destruct (Float.leb (Stored.total_payment h) (Stored.total_payment r)); [reflexivity|].
  rewrite perm_swap. now apply perm_skip.
Qed.

Lemma insert_desc_sorted r l :
  StronglySorted by_payment_desc l -> StronglySorted by_payment_desc (insert_desc r l).
Proof.
  induction l as [|h t IH]; intros Hs; simpl.
  - repeat constructor.
  - inversion Hs as [|? ? Hst Hall]; subst.
    destruct (Float.leb (Stored.total_payment h) (Stored.total_payment r)) eqn:E.
    + constructor; [exact Hs|].
      constructor; [exact E|].
      eapply Forall_impl; [|exact Hall]. unfold by_payment_desc.
      intros a Ha. eapply leb_trans; [exact Ha|exact E].
    + apply leb_total in E. constructor; [now apply IH|].
      apply Forall_forall. intros y Hy.
      apply (Permutation_in _ (Permutation_sym (insert_desc_perm r t))) in Hy.
      destruct Hy as [<-|Hy]; [exact E|].
      rewrite Forall_forall in Hall. now apply Hall.
Qed.

Lemma order_by_perm rows : Permutation rows (order_by_total_payment_desc rows).
Proof.
  induction rows as [|r l IH]; simpl; [constructor|].
  rewrite <- insert_desc_perm. now apply perm_skip.
Qed.

Lemma order_by_sorted rows :
  StronglySorted by_payment_desc (order_by_total_payment_desc rows).
Proof.
  induction rows as [|r l IH]; simpl; [constructor|]. now apply insert_desc_sorted.
Qed.







(** The table created and still without rows: the header alone. *)
Example generate_report_zero_rows :
  generate_report "2025-01-01 00:05:00" (created empty_database) no_files empty_xcom =
    ((write_file csv_file csv_header
        (write_file report_file "
ОТЧЕТ ПО ФОНДУ ОПЛАТЫ ТРУДА ПО ПРОЕКТАМ
====================================================
Дата анализа: 2025-01-01 00:05:00
Всего проектов: 0

" no_files),
      push_result_data []
        (push_csv_file_path csv_file
           (push_report_file_path report_file
              (push_report "
ОТЧЕТ ПО ФОНДУ ОПЛАТЫ ТРУДА ПО ПРОЕКТАМ
====================================================
Дата анализа: 2025-01-01 00:05:00
Всего проектов: 0

" empty_xcom)))),
     Returned "Отчет успешно создан").
Proof. reflexivity. Qed.

(** How doubles print: [str] switches to an exponent at 1e16, [.2f]
    rounds halves of the binary value to the even hundredth. *)
Example float_printing :
  str_of_float (Float.of_int 10000000000000000) = "1e+16" /\
  str_of_float (Float.of_int 9999999999999998) = "9999999999999998.0" /\
  format_2f (Float.of_int 10000000000000000) = "10000000000000000.00" /\
  str_of_float (Float.mk 5 1) = "2.5" /\
  format_2f (Float.mk 1 3) = "0.12" /\
  format_2f (Float.mk 3 3) = "0.38" /\
  format_2f (Float.mk (-1) 10) = "-0.00" /\
  str_of_float (Float.of_ratio 1 10) = "0.1" /\
  format_2f (Float.of_ratio 2675 1000) = "2.67".
Proof. repeat split; vm_compute; reflexivity. Qed.

(** Where the table does not exist the query raises, with the message
    pandas gives it. *)
Lemma generate_report_no_table now db fs x :
  project_fot db = None ->
  generate_report now db fs x =
    ((fs, x),
     Raised (DatabaseError ("Execution failed on sql '" +++ report_query +++
                            "': " +++ no_such_table))).
Proof.
  intros H. unfold generate_report, read_sql, view, connect.
  cbn [pending disk sql_faults next_fault]. now rewrite H.
Qed.

(* ------------------------------------------------------------------ *)
(** * Properties of the Notifier *)

(** A send that raises delivers nothing; one that returns delivers its
    message and nothing else. *)
Lemma send_email_delivery fs m t t' o :
  send_email fs m t = (t', o) ->
  match o with
  | Returned _ => delivered t' = delivered t ++ [m]
  | Raised _ => delivered t' = delivered t
  end.
Proof.
  unfold send_email. intros H.
  destruct (find (fun f => negb (path_exists fs f)) (files m)).
  - injection H as <- <-. reflexivity.
  - destruct (faults t) as [|[e|] rest]; injection H as <- <-; reflexivity.
Qed.

Lemma send_report_raised_delivers_nothing ds x fs t t1 e :
  send_report ds x fs t = (t1, Raised e) -> delivered t1 = delivered t.
Proof.
  unfold send_report. intros H.
  destruct (compose_html ds x) as [html|e0].
  - destruct (send_email fs (report_email html (attachments fs)) t) as [t' [u|e1]] eqn:E;
      [discriminate|].
    injection H as <- <-. apply (send_email_delivery _ _ _ _ _ E).
  - now injection H as <- <-.
Qed.

(** C8 (as amended).  When composing or sending the report email raises
    [e], the Notifier never returns normally.  Its handler hands
    [send_email] a notice without attachments whose body quotes [e].  If
    that send returns, the notice is the one message delivered and the
    Notifier re-raises [e]; if that send raises too, nothing is delivered
    and the second exception leaves the Notifier instead of [e]. *)
Theorem notifier_failure_handling ds x fs t t1 e :
  send_report ds x fs t = (t1, Raised e) ->
  is_raised (snd (send_email_with_attachments ds x fs t)) = true /\
  files (fallback_email ds e) = [] /\
  (exists before after,
     html_content (fallback_email ds e) = before +++ exception_str e +++ after) /\
  (forall t2,
     send_email fs (fallback_email ds e) t1 = (t2, Returned tt) ->
     send_email_with_attachments ds x fs t = (t2, Raised e) /\
     delivered t2 = delivered t ++ [fallback_email ds e]) /\
  (forall t2 e',
     send_email fs (fallback_email ds e) t1 = (t2, Raised e') ->
     send_email_with_attachments ds x fs t = (t2, Raised e') /\
     delivered t2 = delivered t).
Proof.
  intros Hmain. pose proof (send_report_raised_delivers_nothing _ _ _ _ _ _ Hmain) as Hd.
  unfold send_email_with_attachments. rewrite Hmain.
  split.
  { destruct (send_email fs (fallback_email ds e) t1) as [t2 [u|e']]; reflexivity. }
  split; [reflexivity|].
  split.
  { eexists _, _. unfold fallback_email, fallback_html. cbn [html_content].
    rewrite <- (append_assoc ds). rewrite <- append_assoc. reflexivity. }
  split.
  - intros t2 H2. rewrite H2. split; [reflexivity|].
    rewrite <- Hd. apply (send_email_delivery _ _ _ _ _ H2).
  - intros t2 e' H2. rewrite H2. split; [reflexivity|].
    rewrite <- Hd. apply (send_email_delivery _ _ _ _ _ H2).
Qed.

(** The transport refuses the report and then takes the notice. *)
Lemma notifier_failure_handling_scenario :
  is_raised (snd (send_email_with_attachments "2025-01-01" scenario_report no_files
                    (mkTransport [] [Some (SMTPException "Connection refused")]))) =
    true /\
  files (fallback_email "2025-01-01" (SMTPException "Connection refused")) = [] /\
  (exists before after,
     html_content (fallback_email "2025-01-01" (SMTPException "Connection refused")) =
     before +++ exception_str (SMTPException "Connection refused") +++ after) /\
  (forall t2,
     send_email no_files
       (fallback_email "2025-01-01" (SMTPException "Connection refused"))
       (mkTransport [] []) = (t2, Returned tt) ->
     send_email_with_attachments "2025-01-01" scenario_report no_files
       (mkTransport [] [Some (SMTPException "Connection refused")]) =
       (t2, Raised (SMTPException "Connection refused")) /\
     delivered t2 =
       delivered (mkTransport [] [Some (SMTPException "Connection refused")]) ++
       [fallback_email "2025-01-01" (SMTPException "Connection refused")]) /\
  (forall t2 e',
     send_email no_files
       (fallback_email "2025-01-01" (SMTPException "Connection refused"))
       (mkTransport [] []) = (t2, Raised e') ->
     send_email_with_attachments "2025-01-01" scenario_report no_files
       (mkTransport [] [Some (SMTPException "Connection refused")]) =
       (t2, Raised e') /\
     delivered t2 =
       delivered (mkTransport [] [Some (SMTPException "Connection refused")])).
Proof.
  apply (notifier_failure_handling "2025-01-01" scenario_report no_files
           (mkTransport [] [Some (SMTPException "Connection refused")])
           (mkTransport [] []) (SMTPException "Connection refused")).
  reflexivity.
Defined.

(** The transport refuses the report and the notice alike: no message is
    delivered, and the exception that leaves the Notifier is the one of
    the notice, not the original. *)
Lemma notifier_fallback_send_fails :
  send_report "2025-01-01" scenario_report no_files transport_down =
    (mkTransport [] [Some (SMTPException "Connection refused again")],
     Raised (SMTPException "Connection refused")) /\
  send_email_with_attachments "2025-01-01" scenario_report no_files transport_down =
    (mkTransport [] [], Raised (SMTPException "Connection refused again")) /\
  delivered (fst (send_email_with_attachments "2025-01-01" scenario_report no_files
                    transport_down)) = [].
Proof. repeat split; reflexivity. Qed.

Lemma attachments_exist fs :
  find (fun f => negb (path_exists fs f)) (attachments fs) = None.
Proof.
  unfold attachments.
  destruct (path_exists fs report_file) eqn:E1;
    destruct (path_exists fs csv_file) eqn:E2; simpl; rewrite ?E1, ?E2; reflexivity.
Qed.

(** C10.  Whichever of the two files exist, when the report composes and
    the transport takes the message the Notifier returns normally, having
    delivered the report email alone, with exactly the files that exist
    attached, in the order report then CSV: two, one or none.  No notice
    is sent and nothing is raised. *)
Theorem notifier_missing_files_omitted ds x fs t rows :
  result_data x = Some rows ->
  accepts_next t = true ->
  exists html t',
    compose_html ds x = Returned html /\
    send_email_with_attachments ds x fs t =
      (t', Returned "Email отправлен с прикрепленными файлами") /\
    delivered t' = delivered t ++ [report_email html (attachments fs)] /\
    files (report_email html (attachments fs)) =
      filter (path_exists fs) [report_file; csv_file].
Proof.
  intros Hx Hacc.
  assert (Hfiles : attachments fs = filter (path_exists fs) [report_file; csv_file]).
  { unfold attachments. simpl.
    destruct (path_exists fs report_file); destruct (path_exists fs csv_file);
      reflexivity. }
  unfold send_email_with_attachments, send_report, compose_html. rewrite Hx.
  unfold send_email. cbn [files report_email]. rewrite attachments_exist.
  unfold accepts_next in Hacc.
  destruct (faults t) as [|[e|] rest]; [|discriminate|];
    (eexists _, _; split; [reflexivity|]; split; [reflexivity|];
     split; [reflexivity|exact Hfiles]).
Qed.

(** Neither file exists: the report email goes out with no attachment. *)
Lemma notifier_no_files_scenario :
  attachments no_files = [] /\
  exists html t',
    compose_html "2025-01-01" scenario_report = Returned html /\
    send_email_with_attachments "2025-01-01" scenario_report no_files
      (mkTransport [] []) =
      (t', Returned "Email отправлен с прикрепленными файлами") /\
    delivered t' =
      delivered (mkTransport [] []) ++ [report_email html (attachments no_files)] /\
    files (report_email html (attachments no_files)) =
      filter (path_exists no_files) [report_file; csv_file].
Proof.
  split; [reflexivity|].
  apply (notifier_missing_files_omitted "2025-01-01" scenario_report no_files
           (mkTransport [] []) (order_by_total_payment_desc (contents scenario_database)));
    reflexivity.
Defined.

(* ------------------------------------------------------------------ *)
(** * Further properties of the Transformer *)

Lemma merge_employees_nonempty p e : p <> [] -> merge_employees p e <> [].
Proof.
  intros Hp. destruct p as [|a l]; [congruence|].
  destruct (merge_left_covers_left Z.eqb (fun a => Some (Project.employee_id a))
              Employee.employee_id (a :: l) e a (or_introl eq_refl)) as [o Ho].
  unfold merge_employees. intros E. rewrite E in Ho. exact Ho.
Qed.

Lemma has_columns_false {A} (l : list A) : has_columns l = false <-> l = [].
Proof. destruct l; simpl; split; congruence. Qed.

(** What [transform_data] does, by the emptiness of its three frames. *)
Lemma transform_data_cases x :
  let e := DataFrame (employees_data x) in
  let p := DataFrame (projects_data x) in
  let r := DataFrame (rates_data x) in
  ((e = [] \/ p = [] \/ r = []) /\
   exists key, transform_data x = (x, Raised (KeyError key))) \/
  (e <> [] /\ p <> [] /\ r <> [] /\
   transform_data x =
     (push_fot_stats (aggregate e r p) x,
      Returned (transform_message (aggregate e r p)))).
Proof.
  intros e p r. unfold transform_data, pd_merge. fold e p r.
  destruct p as [|p0 p'] eqn:Ep.
  { left. split; [tauto|]. eexists; reflexivity. }
  destruct e as [|e0 e'] eqn:Ee.
  { left. split; [tauto|]. eexists; reflexivity. }
  cbn [has_columns andb].
  fold (merge_employees (p0 :: p') (e0 :: e')).
  pose proof (merge_employees_nonempty (p0 :: p') (e0 :: e')) as Hne.
  destruct (merge_employees (p0 :: p') (e0 :: e')) as [|m ms] eqn:Em;
    [exfalso; apply Hne; [discriminate|reflexivity]|].
  destruct r as [|r0 r'] eqn:Er.
  { left. split; [tauto|]. eexists; reflexivity. }
  right. repeat split; try discriminate.
  cbn [has_columns andb]. unfold aggregate, merged. rewrite Em. reflexivity.
Qed.

Lemma group_keys_nil col : group_keys col = [] -> col = [].
Proof.
  intros H. destruct col as [|h t]; [reflexivity|].
  assert (Hin : In h (group_keys (h :: t))) by (apply group_keys_In; now left).
  rewrite H in Hin. destruct Hin.
Qed.

Lemma merged_nonempty e r p : p <> [] -> merged e r p <> [].
Proof.
  intros Hp. destruct p as [|a l]; [congruence|].
  rewrite merged_cons. pose proof (rows_of_nonempty e r a).
  destruct (rows_of e r a); [congruence|discriminate].
Qed.

Lemma groupby_agg_nonempty hours payment df :
  df <> [] -> groupby_agg hours payment df <> [].
Proof.
  intros Hdf E. apply Hdf.
  assert (Hk : group_keys (map col_project_id df) = []).
  { rewrite <- (groupby_agg_keys hours payment), E. reflexivity. }
  apply group_keys_nil in Hk. now destruct df.
Qed.

Lemma aggregate_nonempty e r p : p <> [] -> aggregate e r p <> [].
Proof. intros Hp. now apply groupby_agg_nonempty, merged_nonempty. Qed.

(** X1.  The Transformer raises exactly when one of the three record
    lists it pulls is absent or empty: the merge then finds no column to
    join on.  It raises a [KeyError] and pushes nothing. *)
Theorem transform_raises_iff_no_records x :
  (is_raised (snd (transform_data x)) = true <->
   DataFrame (employees_data x) = [] \/
   DataFrame (projects_data x) = [] \/
   DataFrame (rates_data x) = []) /\
  (is_raised (snd (transform_data x)) = true ->
   exists key, transform_data x = (x, Raised (KeyError key))).
Proof.
  destruct (transform_data_cases x) as [[Hempty [key Hk]]|[He [Hp [Hr Hret]]]].
  - rewrite Hk. simpl. split; [tauto|]. intros _. now exists key.
  - rewrite Hret. simpl. split; [|discriminate].
    split; [discriminate|]. intros [H|[H|H]]; contradiction.
Qed.

Lemma transform_returned_nonempty x x' msg :
  transform_data x = (x', Returned msg) ->
  exists fot, fot_stats x' = Some fot /\ fot <> [].
Proof.
  intros H.
  destruct (transform_data_cases x) as [[_ [key Hk]]|[He [Hp [Hr Hret]]]].
  - rewrite Hk in H. discriminate.
  - rewrite Hret in H. injection H as <- <-.
    eexists. split; [reflexivity|].
    now apply aggregate_nonempty.
Qed.

(** X2.  Whenever the Transformer returns, the aggregate it pushed is not
    empty, lists the projects by strictly ascending [project_id], and the
    message counts its rows; the other keys of the store are as they
    were. *)
Theorem transform_output_ascending x x' msg :
  transform_data x = (x', Returned msg) ->
  exists fot,
    fot_stats x' = Some fot /\
    fot <> [] /\
    StronglySorted Z.lt (map Fot.project_id fot) /\
    msg = transform_message fot /\
    x' = push_fot_stats fot x.
Proof.
  intros H.
  destruct (transform_data_cases x) as [[_ [key Hk]]|[He [Hp [Hr Hret]]]].
  - rewrite Hk in H. discriminate.
  - rewrite Hret in H. injection H as <- <-.
    eexists. split; [reflexivity|].
    split; [now apply aggregate_nonempty|].
    split; [rewrite aggregate_keys; apply group_keys_sorted|].
    split; reflexivity.
Qed.

Lemma transform_output_ascending_scenario :
  exists fot,
    fot_stats (push_fot_stats scenario_fot
                 (extracted scenario_employees scenario_projects scenario_rates)) =
      Some fot /\
    fot <> [] /\
    StronglySorted Z.lt (map Fot.project_id fot) /\
    "Проанализировано 3 проектов" = transform_message fot /\
    push_fot_stats scenario_fot
      (extracted scenario_employees scenario_projects scenario_rates) =
    push_fot_stats fot
      (extracted scenario_employees scenario_projects scenario_rates).
Proof.
  apply (transform_output_ascending
           (extracted scenario_employees scenario_projects scenario_rates)).
  reflexivity.
Defined.

Lemma sum_map_add {A} (f g : A -> Z) l :
  sum (map (fun a => f a + g a) l) = sum (map f l) + sum (map g l).
Proof. unfold sum. induction l as [|a l IH]; simpl; [reflexivity|]. rewrite IH. lia. Qed.

Lemma sum_indicator (k0 c : Z) keys :
  NoDup keys -> In k0 keys ->
  sum (map (fun k => if k0 =? k then c else 0) keys) = c.
Proof.
  unfold sum. induction keys as [|h t IH]; intros Hnd Hin; [destruct Hin|].
  inversion Hnd as [|? ? Hnotin Hnd']; subst. simpl.
  destruct (k0 =? h) eqn:E.
  - apply Z.eqb_eq in E. subst h.
    assert (Hz : fold_right Z.add 0 (map (fun k => if k0 =? k then c else 0) t) = 0).
    { clear IH Hnd Hnd' Hin. induction t as [|h' t' IHt]; simpl; [reflexivity|].
      destruct (k0 =? h') eqn:E'.
      - apply Z.eqb_eq in E'. subst h'. exfalso. apply Hnotin. now left.
      - apply IHt. intros H. apply Hnotin. now right. }
    rewrite Hz. lia.
  - destruct Hin as [->|Hin]; [rewrite Z.eqb_refl in E; discriminate|].
    rewrite (IH Hnd' Hin). lia.
Qed.

(** Summing a column group by group, over keys that cover the frame and
    repeat none, gives the sum of the column. *)
Lemma sum_over_groups (v : merged_row -> Z) keys df :
  NoDup keys ->
  (forall m, In m df -> In (col_project_id m) keys) ->
  sum (map (fun k => sum (map v (group df k))) keys) = sum (map v df).
Proof.
  intros Hnd. induction df as [|m t IH]; intros Hcover.
  - unfold group. simpl. unfold sum. induction keys; simpl; [reflexivity|].
    inversion Hnd; subst. now rewrite IHkeys.
  - assert (Hstep : forall k,
               sum (map v (group (m :: t) k)) =
               (if col_project_id m =? k then v m else 0) + sum (map v (group t k))).
    { intros k. unfold group. simpl. destruct (col_project_id m =? k); reflexivity. }
    rewrite (map_ext _ _ Hstep), sum_map_add.
    rewrite sum_indicator by (auto; apply Hcover; now left).
    rewrite IH by (intros; apply Hcover; now right). reflexivity.
Qed.


Lemma sum_skipna_as_sum (l : list merged_row) :
  sum_skipna (map exact_payment l) =
  sum (map (fun m => match exact_payment m with Some v => v | None => 0 end) l).
Proof.
  unfold sum_skipna, sum. induction l as [|m t IH]; simpl; [reflexivity|].
  rewrite IH. destruct (exact_payment m); lia.
Qed.

Lemma merged_column_sums_unique_keys e r p :
  NoDup (map Employee.employee_id e) ->
  NoDup (map Rate.position r) ->
  sum (map col_hours_worked (merged e r p)) = sum (map Project.hours_worked p) /\
  sum_skipna (map exact_payment (merged e r p)) = sum (map (spec_payment e r) p).
Proof.
  intros He Hr. induction p as [|a l [IHh IHp]]; [split; reflexivity|].
  rewrite merged_cons, !map_app, sum_app, sum_skipna_app, IHh, IHp.
  destruct (rows_of_unique_keys e r a He Hr) as [oe [orate [-> Hc]]].
  cbn [map]. rewrite Hc. unfold spec_payment, sum, sum_skipna, col_hours_worked.
  cbn [fold_right map fst].
  destruct (spec_position e (Project.employee_id a)) as [pos|]; [|split; lia].
  destruct (spec_rate r pos) as [rate|]; simpl; split; lia.
Qed.

(** X3.  On data whose sums are exact (non-negative integers, totals
    below 2^53), grouping neither loses nor repeats a row: over the whole
    aggregate the [total_hours] add up to the hours column of the merged
    frame and the [total_payment] to its payment column, nulls skipped.
    With unique roster and rate keys these are the hours of all
    assignments and the payments the formula gives them. *)
Theorem transform_totals_conserved e p r :
  e <> [] -> p <> [] -> r <> [] ->
  exact_range e r p = true ->
  exists fot msg payments,
    transform_data (extracted e p r) =
      (push_fot_stats fot (extracted e p r), Returned msg) /\
    map Fot.total_payment fot = map (as_payment (unmatched e r p)) payments /\
    sum (map Fot.total_hours fot) = sum (map col_hours_worked (merged e r p)) /\
    sum payments = sum_skipna (map exact_payment (merged e r p)) /\
    (NoDup (map Employee.employee_id e) -> NoDup (map Rate.position r) ->
     sum (map Fot.total_hours fot) = sum (map Project.hours_worked p) /\
     sum payments = sum (map (spec_payment e r) p)).
Proof.
  intros He Hp Hr Hrange.
  set (df := merged e r p).
  exists (aggregate e r p), (transform_message (aggregate e r p)),
         (map (exact_total_payment df) (group_keys (map col_project_id df))).
  split; [now apply transform_data_returns|].
  rewrite (aggregate_exact e r p Hrange). fold df.
  assert (Hnd : NoDup (group_keys (map col_project_id df)))
    by apply sorted_lt_NoDup, group_keys_sorted.
  assert (Hcover : forall m, In m df -> In (col_project_id m)
                                          (group_keys (map col_project_id df))).
  { intros m Hm. apply group_keys_In. now apply in_map. }
  assert (Hh : sum (map Fot.total_hours
                        (map (fun k => Fot.mk k (exact_total_hours df k)
                                         (as_payment (unmatched e r p)
                                                     (exact_total_payment df k)))
                             (group_keys (map col_project_id df)))) =
               sum (map col_hours_worked df)).
  { rewrite map_map. cbn [Fot.total_hours].
    unfold exact_total_hours. now apply sum_over_groups. }
  assert (Hpay : sum (map (exact_total_payment df) (group_keys (map col_project_id df))) =
                 sum_skipna (map exact_payment df)).
  { unfold exact_total_payment. rewrite sum_skipna_as_sum.
    erewrite map_ext by (intros k; apply sum_skipna_as_sum).
    now apply sum_over_groups. }
  split; [now rewrite !map_map|].
  split; [exact Hh|]. split; [exact Hpay|].
  intros Hue Hur. rewrite Hh, Hpay. subst df.
  now apply merged_column_sums_unique_keys.
Qed.

(** The scenario: 23 hours and 1050 paid in all. *)
Lemma transform_totals_conserved_scenario :
  sum (map Project.hours_worked scenario_projects) = 23 /\
  sum (map (spec_payment scenario_employees scenario_rates) scenario_projects) = 1050 /\
  exists fot msg payments,
    transform_data (extracted scenario_employees scenario_projects scenario_rates) =
      (push_fot_stats fot
         (extracted scenario_employees scenario_projects scenario_rates),
       Returned msg) /\
    map Fot.total_payment fot =
      map (as_payment (unmatched scenario_employees scenario_rates scenario_projects))
          payments /\
    sum (map Fot.total_hours fot) =
      sum (map col_hours_worked
             (merged scenario_employees scenario_rates scenario_projects)) /\
    sum payments =
      sum_skipna (map exact_payment
                    (merged scenario_employees scenario_rates scenario_projects)) /\
    (NoDup (map Employee.employee_id scenario_employees) ->
     NoDup (map Rate.position scenario_rates) ->
     sum (map Fot.total_hours fot) = sum (map Project.hours_worked scenario_projects) /\
     sum payments =
       sum (map (spec_payment scenario_employees scenario_rates) scenario_projects)).
Proof.
  split; [reflexivity|]. split; [reflexivity|].
  apply (transform_totals_conserved scenario_employees scenario_projects scenario_rates);
    try discriminate. reflexivity.
Defined.

(* ------------------------------------------------------------------ *)
(** * How the tasks compose *)

(** On records whose integers fit 64 bits every number of the aggregate
    binds to the INSERT. *)
Lemma aggregate_storable e r p :
  forallb (fun a => in_int64 (Project.project_id a) &&
                    in_int64 (Project.hours_worked a)) p = true ->
  forallb (fun rt => in_int64 (Rate.rate_per_hour rt)) r = true ->
  storable (aggregate e r p) = true.
Proof.
  intros Hp Hr. unfold storable, aggregate, groupby_agg.
  apply forallb_forall. intros row Hrow. apply in_map_iff in Hrow.
  destruct Hrow as [k [<- Hk]].
  assert (Hhd : hours_dtype p = int64).
  { unfold hours_dtype, infer_dtype.
    assert (H : forallb in_int64 (map Project.hours_worked p) = true).
    { apply forallb_forall. intros h Hh. apply in_map_iff in Hh.
      destruct Hh as [a [<- Ha]]. rewrite forallb_forall in Hp.
      specialize (Hp a Ha). now apply andb_prop in Hp. }
    now rewrite H. }
  assert (Hrd : infer_dtype (map Rate.rate_per_hour r) = int64).
  { unfold infer_dtype.
    assert (H : forallb in_int64 (map Rate.rate_per_hour r) = true).
    { apply forallb_forall. intros x Hx. apply in_map_iff in Hx.
      destruct Hx as [rt [<- Hrt]]. rewrite forallb_forall in Hr. now apply Hr. }
    now rewrite H. }
  unfold binds. cbn [Fot.project_id Fot.total_hours Fot.total_payment].
  apply andb_true_intro. split; [apply andb_true_intro; split|].
  - apply group_keys_In, merged_project_ids in Hk. apply in_map_iff in Hk.
    destruct Hk as [a [<- Ha]]. rewrite forallb_forall in Hp.
    specialize (Hp a Ha). now apply andb_prop in Hp.
  - unfold group_total_hours. rewrite Hhd. apply sum_int64_in_int64.
  - unfold group_total_payment, payment_dtype, rate_dtype, merged_dtype.
    rewrite Hhd, Hrd.
    destruct (existsb is_null (map col_rate_per_hour (merged e r p)));
      cbn [product_dtype column_sum fits_sqlite]; [reflexivity|].
    apply sum_int64_in_int64.
Qed.

(** X4.  On records whose integers fit 64 bits, what a Transformer that
    returned has pushed, the Loader always accepts: its guard against an
    empty aggregate cannot fire and every number binds, so the run returns
    and the table then holds the aggregate, row for row, whatever the
    database held before. *)
Theorem transform_then_load_returns x x' msg now db :
  transform_data x = (x', Returned msg) ->
  int64_records x = true ->
  exists fot,
    fot_stats x' = Some fot /\
    snd (load_to_database now x' db) = Returned (load_message fot) /\
    map payload (contents (fst (load_to_database now x' db))) =
      map stored_values fot.
Proof.
  intros H H64.
  destruct (transform_data_cases x) as [[_ [key Hk]]|[He [Hp [Hr Hret]]]];
    [rewrite Hk in H; discriminate|].
  rewrite Hret in H. injection H as <- <-.
  unfold int64_records in H64. apply andb_prop in H64. destruct H64 as [H1 H2].
  eexists. split; [reflexivity|].
  rewrite (load_to_database_returns now (push_fot_stats _ x) _ db eq_refl
             (aggregate_nonempty _ _ _ Hp) (aggregate_storable _ _ _ H1 H2)).
  split; [reflexivity|].
  unfold loaded, contents. cbn [fst project_fot]. apply payload_number_rows.
Qed.

Lemma transform_then_load_returns_scenario :
  exists fot,
    fot_stats (push_fot_stats scenario_fot
                 (extracted scenario_employees scenario_projects scenario_rates)) =
      Some fot /\
    snd (load_to_database "2025-01-01 00:00:00"
           (push_fot_stats scenario_fot
              (extracted scenario_employees scenario_projects scenario_rates))
           scenario_database) = Returned (load_message fot) /\
    map payload
      (contents (fst (load_to_database "2025-01-01 00:00:00"
                        (push_fot_stats scenario_fot
                           (extracted scenario_employees scenario_projects
                              scenario_rates))
                        scenario_database))) = map stored_values fot.
Proof.
  apply (transform_then_load_returns
           (extracted scenario_employees scenario_projects scenario_rates)
           _ "Проанализировано 3 проектов");
    reflexivity.
Defined.

(** X5.  The Loader keeps the database well-formed: on a database where
    no stored key exceeds the sequence value, a run, whether it loads or
    raises, leaves such a database again, and the sequence value never
    goes down. *)
Theorem load_keeps_ids_bounded now x db :
  ids_bounded db ->
  ids_bounded (fst (load_to_database now x db)) /\
  sqlite_sequence db <= sqlite_sequence (fst (load_to_database now x db)).
Proof.
  intros Hb.
  destruct (load_to_database_cases now x db)
    as [[_ ->]|[[df [_ [_ [_ ->]]]]|[df [_ [_ [_ ->]]]]]]; cbn [fst].
  - split; [exact Hb|lia].
  - split; [apply (ids_bounded_unchanged db); [apply unchanged_created|exact Hb]|].
    rewrite sqlite_sequence_created. lia.
  - split; [apply ids_bounded_loaded|]. unfold loaded. cbn [sqlite_sequence]. lia.
Qed.

Lemma load_keeps_ids_bounded_scenario :
  ids_bounded (fst (load_to_database "2025-01-02 00:00:00"
                      (with_fot_stats scenario_fot) scenario_database)) /\
  sqlite_sequence scenario_database <=
  sqlite_sequence (fst (load_to_database "2025-01-02 00:00:00"
                          (with_fot_stats scenario_fot) scenario_database)).
Proof.
  apply (load_keeps_ids_bounded "2025-01-02 00:00:00" (with_fot_stats scenario_fot)
           scenario_database).
  apply ids_bounded_loaded.
Defined.


Lemma generate_report_returns now db fs x rows :
  project_fot db = Some rows ->
  generate_report now db fs x =
    ((write_file csv_file (to_csv (order_by_total_payment_desc rows))
        (write_file report_file
           (render_report now (order_by_total_payment_desc rows)) fs),
      push_result_data (order_by_total_payment_desc rows)
        (push_csv_file_path csv_file
           (push_report_file_path report_file
              (push_report (render_report now (order_by_total_payment_desc rows)) x)))),
     Returned "Отчет успешно создан").
Proof.
  intros H. unfold generate_report, read_sql, view, connect.
  cbn [pending disk sql_faults next_fault]. now rewrite H.
Qed.

(** X6.  After a Loader run that returned, the Report Generator returns
    too: the rows it hands on are the aggregate that was loaded, as the
    table keeps it (the numbers as doubles), reordered by payment, and the
    header of its report counts as many projects as the aggregate has. *)
Theorem load_then_report_returns now x db msg db' now' fs x0 :
  load_to_database now x db = (db', Returned msg) ->
  exists fot fs' x' df,
    fot_stats x = Some fot /\
    generate_report now' db' fs x0 = ((fs', x'), Returned "Отчет успешно создан") /\
    result_data x' = Some df /\
    Permutation (map stored_values fot) (map payload df) /\
    StronglySorted by_payment_desc df /\
    report x' = Some (report_header now' df +++ join (map report_block df)) /\
    List.length df = List.length fot.
Proof.
  intros H.
  destruct (load_to_database_cases now x db)
    as [[_ Hr]|[[fot [_ [_ [_ Hr]]]]|[fot [Hf [Hne [Hst Hr]]]]]];
    rewrite Hr in H; [discriminate|discriminate|]. injection H as <- _.
  set (rows := number_rows now (Z.max (sqlite_sequence db) 0 + 1) fot).
  assert (Hperm : Permutation (map stored_values fot)
                              (map payload (order_by_total_payment_desc rows))).
  { rewrite <- (payload_number_rows now (Z.max (sqlite_sequence db) 0 + 1) fot).
    apply Permutation_map, order_by_perm. }
  exists fot. eexists _, _, (order_by_total_payment_desc rows).
  split; [exact Hf|].
  split; [apply (generate_report_returns now' (loaded now fot db) fs x0 rows eq_refl)|].
  split; [reflexivity|]. split; [exact Hperm|].
  split; [apply order_by_sorted|].
  split; [cbn [report push_result_data push_csv_file_path push_report_file_path
               push_report]; unfold render_report; now rewrite fold_left_append|].
  rewrite <- (length_map payload), <- (length_map stored_values).
  symmetry. now apply Permutation_length.
Qed.

Lemma load_then_report_returns_scenario :
  exists fot fs' x' df,
    fot_stats (with_fot_stats scenario_fot) = Some fot /\
    generate_report "2025-01-01 00:05:00" scenario_database no_files empty_xcom =
      ((fs', x'), Returned "Отчет успешно создан") /\
    result_data x' = Some df /\
    Permutation (map stored_values fot) (map payload df) /\
    StronglySorted by_payment_desc df /\
    report x' =
      Some (report_header "2025-01-01 00:05:00" df +++ join (map report_block df)) /\
    List.length df = List.length fot.
Proof.
  apply (load_then_report_returns "2025-01-01 00:00:00" (with_fot_stats scenario_fot)
           empty_database (load_message scenario_fot)).
  reflexivity.
Defined.

Lemma generate_report_cases now db fs x :
  (project_fot db = None /\ is_raised (snd (generate_report now db fs x)) = true) \/
  (exists rows, project_fot db = Some rows).
Proof.
  destruct (project_fot db) as [rows|] eqn:E.
  - right. now exists rows.
  - left. split; [reflexivity|]. now rewrite generate_report_no_table.
Qed.

(** X7.  A Report Generator run that returns replaces its two files: what
    they hold afterwards is what a run on an empty file system writes,
    whatever they held before.  No other file changes, the four inputs of
    the earlier tasks stay in the store, and the two paths it pushes are
    the files it wrote. *)
Theorem generate_report_overwrites now db fs x fs' x' msg :
  generate_report now db fs x = ((fs', x'), Returned msg) ->
  fs' report_file = fst (fst (generate_report now db no_files empty_xcom)) report_file /\
  fs' csv_file = fst (fst (generate_report now db no_files empty_xcom)) csv_file /\
  (forall p, p <> report_file -> p <> csv_file -> fs' p = fs p) /\
  (employees_data x' = employees_data x /\ projects_data x' = projects_data x /\
   rates_data x' = rates_data x /\ fot_stats x' = fot_stats x) /\
  (report_file_path x' = Some report_file /\ csv_file_path x' = Some csv_file /\
   report x' = fs' report_file).
Proof.
  intros H.
  destruct (generate_report_cases now db fs x) as [[_ Hr]|[rows Hrows]];
    [rewrite H in Hr; discriminate|].
  rewrite (generate_report_returns now db fs x rows Hrows) in H.
  injection H as <- <- _.
  rewrite (generate_report_returns now db no_files empty_xcom rows Hrows).
  cbn [fst]. split; [reflexivity|]. split; [reflexivity|].
  split.
  { intros p Hp1 Hp2. unfold write_file.
    apply String.eqb_neq in Hp1, Hp2. now rewrite Hp1, Hp2. }
  split; [repeat split|]. repeat split.
Qed.

Lemma generate_report_overwrites_scenario :
  fst (fst (generate_report "2025-01-02 00:05:00" scenario_database
              (fst (fst (generate_report "2025-01-01 00:05:00" scenario_database
                           no_files empty_xcom)))
              scenario_report)) "/tmp/other.txt" = None /\
  (fst (fst (generate_report "2025-01-02 00:05:00" scenario_database
               (fst (fst (generate_report "2025-01-01 00:05:00" scenario_database
                            no_files empty_xcom)))
               scenario_report)) report_file =
   fst (fst (generate_report "2025-01-02 00:05:00" scenario_database no_files
               empty_xcom)) report_file /\
   fst (fst (generate_report "2025-01-02 00:05:00" scenario_database
               (fst (fst (generate_report "2025-01-01 00:05:00" scenario_database
                            no_files empty_xcom)))
               scenario_report)) csv_file =
   fst (fst (generate_report "2025-01-02 00:05:00" scenario_database no_files
               empty_xcom)) csv_file /\
   (forall p, p <> report_file -> p <> csv_file ->
      fst (fst (generate_report "2025-01-02 00:05:00" scenario_database
                  (fst (fst (generate_report "2025-01-01 00:05:00" scenario_database
                               no_files empty_xcom)))
                  scenario_report)) p =
      fst (fst (generate_report "2025-01-01 00:05:00" scenario_database
                  no_files empty_xcom)) p) /\
   (employees_data
      (snd (fst (generate_report "2025-01-02 00:05:00" scenario_database
                   (fst (fst (generate_report "2025-01-01 00:05:00"
                                scenario_database no_files empty_xcom)))
                   scenario_report))) = employees_data scenario_report /\
    projects_data
      (snd (fst (generate_report "2025-01-02 00:05:00" scenario_database
                   (fst (fst (generate_report "2025-01-01 00:05:00"
                                scenario_database no_files empty_xcom)))
                   scenario_report))) = projects_data scenario_report /\
    rates_data
      (snd (fst (generate_report "2025-01-02 00:05:00" scenario_database
                   (fst (fst (generate_report "2025-01-01 00:05:00"
                                scenario_database no_files empty_xcom)))
                   scenario_report))) = rates_data scenario_report /\
    fot_stats
      (snd (fst (generate_report "2025-01-02 00:05:00" scenario_database
                   (fst (fst (generate_report "2025-01-01 00:05:00"
                                scenario_database no_files empty_xcom)))
                   scenario_report))) = fot_stats scenario_report) /\
   (report_file_path
      (snd (fst (generate_report "2025-01-02 00:05:00" scenario_database
                   (fst (fst (generate_report "2025-01-01 00:05:00"
                                scenario_database no_files empty_xcom)))
                   scenario_report))) = Some report_file /\
    csv_file_path
      (snd (fst (generate_report "2025-01-02 00:05:00" scenario_database
                   (fst (fst (generate_report "2025-01-01 00:05:00"
                                scenario_database no_files empty_xcom)))
                   scenario_report))) = Some csv_file /\
    report
      (snd (fst (generate_report "2025-01-02 00:05:00" scenario_database
                   (fst (fst (generate_report "2025-01-01 00:05:00"
                                scenario_database no_files empty_xcom)))
                   scenario_report))) =
    fst (fst (generate_report "2025-01-02 00:05:00" scenario_database
                (fst (fst (generate_report "2025-01-01 00:05:00" scenario_database
                             no_files empty_xcom)))
                scenario_report)) report_file)).
Proof.
  split; [reflexivity|].
  apply (generate_report_overwrites "2025-01-02 00:05:00" scenario_database
           (fst (fst (generate_report "2025-01-01 00:05:00" scenario_database
                        no_files empty_xcom)))
           scenario_report _ _ "Отчет успешно создан").
  reflexivity.
Defined.

Lemma attachments_after_report content1 content2 fs :
  attachments (write_file csv_file content2 (write_file report_file content1 fs)) =
  [report_file; csv_file].
Proof. reflexivity. Qed.

(** The report email on a transport that takes it. *)
Lemma send_report_accepted ds x fs t rows :
  result_data x = Some rows ->
  accepts_next t = true ->
  send_email_with_attachments ds x fs t =
    (mkTransport
       (delivered t ++
        [report_email (html_head ds +++ join (map html_row rows) +++ html_tail)
           (attachments fs)])
       (tl (faults t)),
     Returned "Email отправлен с прикрепленными файлами").
Proof.
  intros Hx Hacc.
  unfold send_email_with_attachments, send_report, compose_html. rewrite Hx.
  rewrite fold_left_append, append_assoc.
  unfold send_email. cbn [files report_email]. rewrite attachments_exist.
  unfold accepts_next in Hacc.
  destruct (faults t) as [|[e|] rest]; [reflexivity|discriminate|reflexivity].
Qed.

(** X8.  After a Report Generator run that returned, on the files and the
    store it left, the Notifier cannot fail to compose: when the transport
    takes the message it returns, and the one email it delivers carries
    both files, the report first, and in its table one row per row the
    Report Generator read, in the same order. *)
Theorem report_then_notify_attaches_both now db fs x fs' x' msg ds t :
  generate_report now db fs x = ((fs', x'), Returned msg) ->
  accepts_next t = true ->
  exists rows t',
    result_data x' = Some rows /\
    send_email_with_attachments ds x' fs' t =
      (t', Returned "Email отправлен с прикрепленными файлами") /\
    delivered t' =
      delivered t ++
      [report_email (html_head ds +++ join (map html_row rows) +++ html_tail)
         [report_file; csv_file]].
Proof.
  intros H Hacc.
  destruct (generate_report_cases now db fs x) as [[_ Hr]|[rows Hrows]];
    [rewrite H in Hr; discriminate|].
  rewrite (generate_report_returns now db fs x rows Hrows) in H.
  injection H as <- <- _.
  exists (order_by_total_payment_desc rows). eexists. split; [reflexivity|].
  erewrite send_report_accepted; [|reflexivity|exact Hacc].
  rewrite attachments_after_report. split; reflexivity.
Qed.

Lemma report_then_notify_attaches_both_scenario :
  exists rows t',
    result_data scenario_report = Some rows /\
    send_email_with_attachments "2025-01-01" scenario_report
      (fst (fst (generate_report "2025-01-01 00:05:00" scenario_database no_files
                   (with_fot_stats scenario_fot))))
      (mkTransport [] []) =
      (t', Returned "Email отправлен с прикрепленными файлами") /\
    delivered t' =
      delivered (mkTransport [] []) ++
      [report_email
         (html_head "2025-01-01" +++ join (map html_row rows) +++ html_tail)
         [report_file; csv_file]].
Proof.
  apply (report_then_notify_attaches_both "2025-01-01 00:05:00" scenario_database
           no_files (with_fot_stats scenario_fot) _ _ "Отчет успешно создан"
           "2025-01-01" (mkTransport [] []));
    reflexivity.
Defined.

(** X9.  A call of the Notifier delivers at most one message and keeps
    what was delivered before: the report email when it returns, and when
    it raises either the notice for the exception of its [try] block or
    nothing.  The report and the notice never go out together. *)
Theorem notifier_delivers_at_most_one ds x fs t :
  exists sent,
    delivered (fst (send_email_with_attachments ds x fs t)) = delivered t ++ sent /\
    (List.length sent <= 1)%nat /\
    match snd (send_email_with_attachments ds x fs t) with
    | Returned _ => exists html, sent = [report_email html (attachments fs)]
    | Raised _ => sent = [] \/ exists e, sent = [fallback_email ds e]
    end.
Proof.
  unfold send_email_with_attachments.
  destruct (send_report ds x fs t) as [t1 [s|e]] eqn:Hmain.
  - unfold send_report in Hmain.
    destruct (compose_html ds x) as [html|e0]; [|discriminate].
    destruct (send_email fs (report_email html (attachments fs)) t) as [t' [u|e1]] eqn:E;
      [|discriminate].
    injection Hmain as <- _. pose proof (send_email_delivery _ _ _ _ _ E) as Hd.
    cbn [fst snd]. eexists. split; [exact Hd|]. split; [simpl; lia|]. now exists html.
  - pose proof (send_report_raised_delivers_nothing _ _ _ _ _ _ Hmain) as Hd1.
    destruct (send_email fs (fallback_email ds e) t1) as [t2 [u|e']] eqn:E;
      pose proof (send_email_delivery _ _ _ _ _ E) as Hd2; cbn [fst snd].
    + exists [fallback_email ds e]. rewrite Hd2, Hd1.
      split; [reflexivity|]. split; [simpl; lia|]. right. now exists e.
    + exists []. rewrite Hd2, Hd1, app_nil_r.
      split; [reflexivity|]. split; [simpl; lia|]. now left.
Qed.

(* ------------------------------------------------------------------ *)
(** * Properties of the Data Generator *)

Lemma randint_range a b g : a <= b -> a <= fst (randint a b g) <= b.
Proof.
  intros Hab. unfold randint, randbelow. cbn [fst].
  assert (Hn : Z.to_nat (b - a + 1) <> 0%nat) by lia.
  pose proof (Nat.mod_upper_bound (g 0%nat) _ Hn). lia.
Qed.

Lemma choice_in seq g : seq <> [] -> In (fst (choice seq g)) seq.
Proof.
  intros Hne. unfold choice, randbelow. cbn [fst]. apply nth_In.
  apply Nat.mod_upper_bound. destruct seq; [congruence|discriminate].
Qed.

Lemma choices_spec n seq g :
  seq <> [] ->
  List.length (fst (choices n seq g)) = n /\
  Forall (fun c => In c seq) (fst (choices n seq g)).
Proof.
  intros Hne. revert g. induction n as [|m IH]; intros g; cbn [choices].
  - split; [reflexivity|constructor].
  - destruct (choice seq g) as [c g1] eqn:Ec.
    destruct (choices m seq g1) as [cs g2] eqn:Ecs. cbn [fst].
    destruct (IH g1) as [Hlen Hall]. rewrite Ecs in Hlen, Hall. cbn [fst] in *.
    split; [cbn [List.length]; congruence|].
    constructor; [|exact Hall].
    pose proof (choice_in seq g Hne) as Hin. now rewrite Ec in Hin.
Qed.

Lemma length_range first n : List.length (range first n) = n.
Proof. revert first. induction n; intros; simpl; [reflexivity|now rewrite IHn]. Qed.

Lemma range_In first n k : In k (range first n) <-> first <= k < first + Z.of_nat n.
Proof.
  revert first. induction n as [|m IH]; intros first; simpl; [lia|].
  rewrite IH. lia.
Qed.

Lemma range_sorted first n : StronglySorted Z.lt (range first n).
Proof.
  revert first. induction n as [|m IH]; intros first; simpl; constructor; [apply IH|].
  apply Forall_forall. intros k Hk. apply range_In in Hk. lia.
Qed.

Lemma range_app first n m :
  range first (n + m) = range first n ++ range (first + Z.of_nat n) m.
Proof.
  revert first. induction n as [|n IH]; intros first.
  - simpl. now rewrite Z.add_0_r.
  - cbn [Nat.add range app]. rewrite IH.
    replace (first + Z.of_nat (S n)) with (first + 1 + Z.of_nat n) by lia.
    reflexivity.
Qed.

Lemma map_fst_combine_range {B} first (l : list B) :
  map fst (combine (range first (List.length l)) l) = range first (List.length l).
Proof.
  revert first. induction l as [|b l IH]; intros first; simpl; [reflexivity|].
  now rewrite IH.
Qed.

Lemma map_snd_combine_range {B} first (l : list B) :
  map snd (combine (range first (List.length l)) l) = l.
Proof.
  revert first. induction l as [|b l IH]; intros first; simpl; [reflexivity|].
  now rewrite IH.
Qed.

(** X10.  Whatever the random source draws, [generate_employees_data]
    makes a roster of exactly 100 employees numbered 1 to 100, each number
    once, each with one of the seven positions, and the file it writes
    holds the frame it returns. *)
Theorem generate_employees_data_roster data_dir g files :
  map Employee.employee_id (fst (fst (generate_employees_data data_dir g files))) =
    range 1 100 /\
  NoDup (map Employee.employee_id
           (fst (fst (generate_employees_data data_dir g files)))) /\
  Forall (fun e => In (Employee.position e) positions)
         (fst (fst (generate_employees_data data_dir g files))) /\
  csv_tables (snd (generate_employees_data data_dir g files))
             (os_path_join data_dir "employees.csv") =
    Some (fst (fst (generate_employees_data data_dir g files))).
Proof.
  unfold generate_employees_data.
  assert (Hpos : positions <> []) by discriminate.
  destruct (choices_spec 100 positions g Hpos) as [Hlen Hall].
  destruct (choices 100 positions g) as [drawn g'] eqn:E. cbn [fst snd] in *.
  assert (Hids : map Employee.employee_id
                   (map (fun c => Employee.mk (fst c) (snd c))
                        (combine (range 1 100) drawn)) = range 1 100).
  { rewrite map_map. cbn [Employee.employee_id].
    rewrite <- Hlen at 1. rewrite map_fst_combine_range. now rewrite Hlen. }
  split; [exact Hids|].
  split; [rewrite Hids; apply sorted_lt_NoDup, range_sorted|].
  split.
  - apply Forall_forall. intros e He. apply in_map_iff in He.
    destruct He as [[i c] [<- Hin]]. cbn [Employee.position snd].
    apply in_combine_r in Hin. rewrite Forall_forall in Hall. now apply Hall.
  - unfold write_csv. cbn [csv_tables]. now rewrite String.eqb_refl.
Qed.

Lemma draw_rates_spec seq g :
  map Rate.position (fst (draw_rates seq g)) = seq /\
  Forall (fun r => 20 <= Rate.rate_per_hour r <= 100) (fst (draw_rates seq g)).
Proof.
  revert g. induction seq as [|pos rest IH]; intros g; cbn [draw_rates].
  - split; [reflexivity|constructor].
  - pose proof (randint_range 20 100 g ltac:(lia)) as Hr.
    destruct (randint 20 100 g) as [rate g1]. cbn [fst] in Hr.
    destruct (IH g1) as [Hm Hall].
    destruct (draw_rates rest g1) as [more g2]. cbn [fst] in *.
    split; [simpl; now rewrite Hm|]. constructor; [exact Hr|exact Hall].
Qed.

(** X11.  Whatever the random source draws, [generate_rates_data] makes
    one rate per position, in the order of the list and so each position
    once, every rate between 20 and 100, and the file it writes holds the
    list it returns. *)
Theorem generate_rates_data_card data_dir g files :
  map Rate.position (fst (fst (generate_rates_data data_dir g files))) = positions /\
  NoDup (map Rate.position (fst (fst (generate_rates_data data_dir g files)))) /\
  Forall (fun r => 20 <= Rate.rate_per_hour r <= 100)
         (fst (fst (generate_rates_data data_dir g files))) /\
  json_values (snd (generate_rates_data data_dir g files))
              (os_path_join data_dir "rates.json") =
    Some (fst (fst (generate_rates_data data_dir g files))).
Proof.
  unfold generate_rates_data.
  destruct (draw_rates_spec positions g) as [Hm Hall].
  destruct (draw_rates positions g) as [rates g']. cbn [fst snd] in *.
  split; [exact Hm|].
  split.
  { rewrite Hm. unfold positions.
    repeat constructor; simpl; intuition discriminate. }
  split; [exact Hall|].
  unfold write_json. cbn [json_values]. now rewrite String.eqb_refl.
Qed.

Lemma employee_projects_spec n employee_id counter g :
  List.length (fst (fst (employee_projects n employee_id counter g))) = n /\
  snd (fst (employee_projects n employee_id counter g)) = counter + Z.of_nat n /\
  map Project.project_id (fst (fst (employee_projects n employee_id counter g))) =
    range counter n /\
  map Project.employee_id (fst (fst (employee_projects n employee_id counter g))) =
    repeat employee_id n /\
  Forall (fun a => 5 <= Project.hours_worked a <= 40)
         (fst (fst (employee_projects n employee_id counter g))).
Proof.
  revert counter g. induction n as [|m IH]; intros counter g; cbn [employee_projects].
  - cbn [fst snd]. repeat split; try reflexivity; try lia; constructor.
  - pose proof (randint_range 5 40 g ltac:(lia)) as Hh.
    destruct (randint 5 40 g) as [hours g1]. cbn [fst] in Hh.
    destruct (IH (counter + 1) g1) as [Hlen [Hc [Hids [Hemp Hall]]]].
    destruct (employee_projects m employee_id (counter + 1) g1) as [[rest c'] g2].
    cbn [fst snd] in *.
    repeat split.
    + cbn [List.length]. now rewrite Hlen.
    + lia.
    + cbn [map range Project.project_id]. now rewrite Hids.
    + cbn [map repeat Project.employee_id]. now rewrite Hemp.
    + constructor; [exact Hh|exact Hall].
Qed.

(** The loops of [generate_projects_data] from any counter: the numbers of
    projects drawn for the employees, one to three each, decide the
    records. *)
Lemma projects_records_spec employee_ids counter g :
  exists counts,
    List.length counts = List.length employee_ids /\
    Forall (fun n => (1 <= n <= 3)%nat) counts /\
    map Project.employee_id (fst (fst (projects_records employee_ids counter g))) =
      flat_map (fun ic => repeat (fst ic) (snd ic)) (combine employee_ids counts) /\
    List.length (fst (fst (projects_records employee_ids counter g))) =
      list_sum counts /\
    snd (fst (projects_records employee_ids counter g)) =
      counter + Z.of_nat (List.length (fst (fst (projects_records employee_ids counter g)))) /\
    map Project.project_id (fst (fst (projects_records employee_ids counter g))) =
      range counter (List.length (fst (fst (projects_records employee_ids counter g)))) /\
    Forall (fun a => 5 <= Project.hours_worked a <= 40)
           (fst (fst (projects_records employee_ids counter g))).
Proof.
  revert counter g.
  induction employee_ids as [|employee_id rest IH]; intros counter g;
    cbn [projects_records].
  - exists []. cbn [fst snd]. repeat split; try reflexivity;
      try (simpl; lia); constructor.
  - pose proof (randint_range 1 3 g ltac:(lia)) as Hn.
    destruct (randint 1 3 g) as [num g1]. cbn [fst] in Hn.
    destruct (employee_projects_spec (Z.to_nat num) employee_id counter g1)
      as [Hlen1 [Hc1 [Hids1 [Hemp1 Hall1]]]].
    destruct (employee_projects (Z.to_nat num) employee_id counter g1)
      as [[own counter1] g2]. cbn [fst snd] in *.
    destruct (IH counter1 g2) as [counts [Hlc [Hcounts [Hemp [Hlen [Hc [Hids Hall]]]]]]].
    destruct (projects_records rest counter1 g2) as [[others counter2] g3].
    cbn [fst snd] in *.
    exists (Z.to_nat num :: counts). repeat split.
    + cbn [List.length]. now rewrite Hlc.
    + constructor; [lia|exact Hcounts].
    + rewrite map_app, Hemp1, Hemp. reflexivity.
    + rewrite length_app, Hlen1, Hlen. reflexivity.
    + rewrite length_app, Hc, Hc1, Hlen1. lia.
    + rewrite map_app, length_app, range_app, Hids1, Hids, Hlen1, Hc1. reflexivity.
    + apply Forall_app. split; assumption.
Qed.

Lemma list_sum_bounds counts :
  Forall (fun n => (1 <= n <= 3)%nat) counts ->
  (List.length counts <= list_sum counts <= 3 * List.length counts)%nat.
Proof. induction 1 as [|n l Hn _ IH]; simpl; lia. Qed.

(** X12.  Whatever the random source draws, [generate_projects_data]
    gives every employee of the roster it is handed one to three
    projects, in roster order: the records number the projects 1, 2, 3,
    ... without a gap, so each [project_id] occurs once; there are at
    least as many records as employees and at most three times as many;
    every [hours_worked] lies between 5 and 40; and the file written
    holds the frame returned. *)
Theorem generate_projects_data_records employees_df data_dir g files :
  exists counts,
    List.length counts = List.length employees_df /\
    Forall (fun n => (1 <= n <= 3)%nat) counts /\
    map Project.employee_id
        (fst (fst (generate_projects_data employees_df data_dir g files))) =
      flat_map (fun ic => repeat (fst ic) (snd ic))
               (combine (map Employee.employee_id employees_df) counts) /\
    map Project.project_id
        (fst (fst (generate_projects_data employees_df data_dir g files))) =
      range 1 (List.length
                 (fst (fst (generate_projects_data employees_df data_dir g files)))) /\
    (List.length employees_df <=
     List.length (fst (fst (generate_projects_data employees_df data_dir g files))) <=
     3 * List.length employees_df)%nat /\
    Forall (fun a => 5 <= Project.hours_worked a <= 40)
           (fst (fst (generate_projects_data employees_df data_dir g files))) /\
    excel_tables (snd (generate_projects_data employees_df data_dir g files))
                 (os_path_join data_dir "projects.xlsx") =
      Some (fst (fst (generate_projects_data employees_df data_dir g files))).
Proof.
  unfold generate_projects_data.
  destruct (projects_records_spec (map Employee.employee_id employees_df) 1 g)
    as [counts [Hlc [Hcounts [Hemp [Hlen [_ [Hids Hall]]]]]]].
  destruct (projects_records (map Employee.employee_id employees_df) 1 g)
    as [[records counter] g']. cbn [fst snd] in *.
  rewrite length_map in Hlc.
  exists counts. split; [exact Hlc|]. split; [exact Hcounts|].
  split; [exact Hemp|]. split; [exact Hids|].
  split; [rewrite Hlen, <- Hlc; now apply list_sum_bounds|].
  split; [exact Hall|].
  unfold write_excel. cbn [excel_tables]. now rewrite String.eqb_refl.
Qed.

Lemma repeat_pairs_in (ids : list Z) counts k :
  In k (flat_map (fun ic => repeat (fst ic) (snd ic)) (combine ids counts)) ->
  In k ids.
Proof.
  intros H. apply in_flat_map in H. destruct H as [[i c] [Hic Hk]].
  apply repeat_spec in Hk. cbn [fst] in Hk. subst k. now apply in_combine_l in Hic.
Qed.

(** What the three generators, called as [main] calls them, hand on. *)
Lemma generate_all_spec data_dir g files e r p g' files' :
  generate_all data_dir g files = (((e, r, p), g'), files') ->
  map Employee.employee_id e = range 1 100 /\
  Forall (fun emp => In (Employee.position emp) positions) e /\
  map Rate.position r = positions /\
  Forall (fun rt => 20 <= Rate.rate_per_hour rt <= 100) r /\
  map Project.project_id p = range 1 (List.length p) /\
  (100 <= List.length p <= 300)%nat /\
  Forall (fun a => In (Project.employee_id a) (map Employee.employee_id e)) p /\
  Forall (fun a => 5 <= Project.hours_worked a <= 40) p /\
  csv_tables files' (os_path_join data_dir "employees.csv") = Some e /\
  excel_tables files' (os_path_join data_dir "projects.xlsx") = Some p /\
  json_values files' (os_path_join data_dir "rates.json") = Some r.
Proof.
  unfold generate_all, generate_employees_data, generate_rates_data,
    generate_projects_data.
  assert (Hpos : positions <> []) by discriminate.
  destruct (choices_spec 100 positions g Hpos) as [Hlen Hall].
  destruct (choices 100 positions g) as [drawn g1]. cbn [fst] in Hlen, Hall.
  destruct (draw_rates_spec positions g1) as [Hrp Hrb].
  destruct (draw_rates positions g1) as [rates g2]. cbn [fst] in Hrp, Hrb.
  set (df := map (fun c => Employee.mk (fst c) (snd c)) (combine (range 1 100) drawn)).
  destruct (projects_records_spec (map Employee.employee_id df) 1 g2)
    as [counts [Hlc [Hcounts [Hemp [Hplen [_ [Hids Hhours]]]]]]].
  destruct (projects_records (map Employee.employee_id df) 1 g2)
    as [[records counter] g3]. cbn [fst snd] in *.
  intros H. injection H as <- <- <- _ <-.
  assert (Hdf : map Employee.employee_id df = range 1 100).
  { subst df. rewrite map_map. cbn [Employee.employee_id].
    rewrite <- Hlen at 1. rewrite map_fst_combine_range. now rewrite Hlen. }
  assert (Hdflen : List.length df = 100%nat).
  { rewrite <- (length_map Employee.employee_id), Hdf. apply length_range. }
  split; [exact Hdf|].
  split.
  { apply Forall_forall. intros emp He. subst df. apply in_map_iff in He.
    destruct He as [[i c] [<- Hin]]. cbn [Employee.position snd].
    apply in_combine_r in Hin. rewrite Forall_forall in Hall. now apply Hall. }
  split; [exact Hrp|]. split; [exact Hrb|]. split; [exact Hids|].
  split.
  { rewrite length_map, Hdflen in Hlc. pose proof (list_sum_bounds counts Hcounts). lia. }
  split.
  { apply Forall_forall. intros a Ha.
    apply (repeat_pairs_in _ counts). rewrite <- Hemp. now apply in_map. }
  split; [exact Hhours|].
  unfold write_csv, write_json, write_excel. cbn [csv_tables excel_tables json_values].
  now rewrite !String.eqb_refl.
Qed.

Lemma find_by_key {A K} (eqb : K -> K -> bool) (key : A -> K) (k : K) (l : list A) :
  (forall a b, eqb a b = true <-> a = b) ->
  In k (map key l) ->
  exists x, find (fun y => eqb k (key y)) l = Some x /\ In x l /\ key x = k.
Proof.
  intros Heq Hin. induction l as [|h t IH]; [destruct Hin|]. simpl.
  destruct (eqb k (key h)) eqn:E.
  - exists h. apply Heq in E. repeat split; [now left|now symmetry].
  - destruct Hin as [Hh|Hin]; [symmetry in Hh; apply Heq in Hh; congruence|].
    destruct (IH Hin) as [x [Hf [Hx Hk]]]. exists x. repeat split; [exact Hf|now right|exact Hk].
Qed.

Lemma group_keys_of_sorted l : StronglySorted Z.lt l -> group_keys l = l.
Proof.
  induction 1 as [|h t Hs IH Hall]; [reflexivity|].
  cbn [group_keys fold_right]. fold (group_keys t). rewrite IH.
  destruct t as [|h' t']; [reflexivity|]. cbn [insert_key].
  inversion Hall as [|? ? Hlt _]; subst. apply Z.ltb_lt in Hlt. now rewrite Hlt.
Qed.

Lemma assignments_of_unique p a :
  NoDup (map Project.project_id p) -> In a p ->
  assignments_of p (Project.project_id a) = [a].
Proof.
  unfold assignments_of. induction p as [|h t IH]; intros Hnd Hin; [destruct Hin|].
  inversion Hnd as [|? ? Hnotin Hnd']; subst. simpl.
  assert (Hnone : forall k, ~ In k (map Project.project_id t) ->
                    filter (fun a0 => Project.project_id a0 =? k) t = []).
  { intros k Hk. clear -Hk. induction t as [|h' t' IHt]; [reflexivity|]. simpl.
    destruct (Project.project_id h' =? k) eqn:E.
    - apply Z.eqb_eq in E. exfalso. apply Hk. now left.
    - apply IHt. intros H. apply Hk. now right. }
  destruct Hin as [->|Hin].
  - rewrite Z.eqb_refl. f_equal. now apply Hnone.
  - destruct (Project.project_id h =? Project.project_id a) eqn:E.
    + apply Z.eqb_eq in E. exfalso. apply Hnotin. rewrite E. now apply in_map.
    + now apply IH.
Qed.

Lemma merged_project_column_unique_keys e r p :
  NoDup (map Employee.employee_id e) ->
  NoDup (map Rate.position r) ->
  map col_project_id (merged e r p) = map Project.project_id p.
Proof.
  intros He Hr. induction p as [|a l IH]; [reflexivity|].
  rewrite merged_cons, map_app, IH.
  now destruct (rows_of_unique_keys e r a He Hr) as [oe [orate [-> _]]].
Qed.

Lemma Forall2_map_of {A B} (R : A -> B -> Prop) (f : A -> B) l :
  (forall a, In a l -> R a (f a)) -> Forall2 R l (map f l).
Proof.
  induction l as [|a l IH]; intros H; simpl; constructor.
  - apply H. now left.
  - apply IH. intros; apply H. now right.
Qed.


(** With unique keys the one row of an assignment holds the rate of the
    employee's position. *)
Lemma rows_of_unique_keys_rate e r a :
  NoDup (map Employee.employee_id e) ->
  NoDup (map Rate.position r) ->
  exists oe orate,
    rows_of e r a = [((a, oe), orate)] /\
    col_rate_per_hour ((a, oe), orate) =
      match spec_position e (Project.employee_id a) with
      | Some pos => spec_rate r pos
      | None => None
      end.
Proof.
  intros He Hr.
  unfold rows_of, merged, merge_employees, merge_rates.
  rewrite (merge_left_single Z.eqb). unfold matches.
  rewrite (filter_unique_key Z.eqb Employee.employee_id Zeqb_eq' _ e He).
  unfold spec_position.
  destruct (find (fun e0 => Project.employee_id a =? Employee.employee_id e0) e)
    as [emp|]; cbn [map option_map]; rewrite merge_left_single;
    unfold matches; cbn [col_position snd option_map].
  - rewrite (filter_unique_key String.eqb Rate.position String.eqb_eq _ r Hr).
    unfold spec_rate.
    destruct (find (fun r0 => String.eqb (Employee.position emp) (Rate.position r0)) r)
      as [rt|]; simpl.
    + exists (Some emp), (Some rt). split; reflexivity.
    + exists (Some emp), None. split; reflexivity.
  - exists None, None. split; reflexivity.
Qed.

(** The row of an assignment whose employee is on the roster and whose
    position has a rate. *)
Lemma rows_of_matched e r a :
  NoDup (map Employee.employee_id e) ->
  NoDup (map Rate.position r) ->
  In (Project.employee_id a) (map Employee.employee_id e) ->
  Forall (fun emp => In (Employee.position emp) (map Rate.position r)) e ->
  exists oe orate rt,
    rows_of e r a = [((a, oe), orate)] /\ In rt r /\
    col_rate_per_hour ((a, oe), orate) = Some (Rate.rate_per_hour rt).
Proof.
  intros He Hr Hemp Hpos.
  destruct (rows_of_unique_keys_rate e r a He Hr) as [oe [orate [Hrows Hc]]].
  rewrite Forall_forall in Hpos.
  destruct (find_by_key Z.eqb Employee.employee_id (Project.employee_id a) e
              Zeqb_eq' Hemp) as [emp [Hfind [Hin _]]].
  unfold spec_position in Hc. rewrite Hfind in Hc. cbn [option_map] in Hc.
  destruct (find_by_key String.eqb Rate.position (Employee.position emp) r
              String.eqb_eq (Hpos emp Hin)) as [rt [Hfind' [Hin' _]]].
  unfold spec_rate in Hc. rewrite Hfind' in Hc. cbn [option_map] in Hc.
  now exists oe, orate, rt.
Qed.

(** Data as the generator makes it: unique keys, every join finds its
    row, 5 to 40 hours per assignment, rates from 20 to 100, at most 300
    assignments. *)
Section MatchedData.
Variables (e : list Employee.t) (r : list Rate.t).
Hypothesis He : NoDup (map Employee.employee_id e).
Hypothesis Hr : NoDup (map Rate.position r).
Hypothesis Hpos : Forall (fun emp => In (Employee.position emp) (map Rate.position r)) e.
Hypothesis Hrates : Forall (fun rt => 20 <= Rate.rate_per_hour rt <= 100) r.

Lemma matched_data_sums p :
  Forall (fun a => In (Project.employee_id a) (map Employee.employee_id e)) p ->
  Forall (fun a => 5 <= Project.hours_worked a <= 40) p ->
  sum (map col_hours_worked (merged e r p)) <= 40 * Z.of_nat (List.length p) /\
  sum_skipna (map exact_payment (merged e r p)) <= 4000 * Z.of_nat (List.length p) /\
  unmatched e r p = false.
Proof.
  unfold unmatched.
  induction p as [|a l IH]; intros Hemp Hhours.
  - repeat split; cbn; lia.
  - inversion Hemp as [|? ? Ha Hemp']; subst.
    inversion Hhours as [|? ? Hh Hhours']; subst.
    destruct (IH Hemp' Hhours') as [IH1 [IH2 IH3]].
    destruct (rows_of_matched e r a He Hr Ha Hpos) as [oe [orate [rt [Hrows [Hin Hrate]]]]].
    rewrite merged_cons, Hrows. cbn [app map existsb].
    unfold exact_payment at 1. rewrite Hrate. cbn [option_map is_null orb].
    unfold sum, sum_skipna in *. cbn [fold_right].
    change (col_hours_worked ((a, oe), orate)) with (Project.hours_worked a).
    rewrite Forall_forall in Hrates. specialize (Hrates rt Hin).
    cbn [List.length]. split; [lia|]. split; [nia|exact IH3].
Qed.

Lemma matched_data_exact_range p :
  Forall (fun a => In (Project.employee_id a) (map Employee.employee_id e)) p ->
  Forall (fun a => 5 <= Project.hours_worked a <= 40) p ->
  (List.length p <= 300)%nat ->
  exact_range e r p = true.
Proof.
  intros Hemp Hhours Hlen.
  destruct (matched_data_sums p Hemp Hhours) as [H1 [H2 _]].
  unfold exact_range.
  repeat (apply andb_true_intro; split).
  - apply forallb_forall. intros a Ha. rewrite Forall_forall in Hhours.
    specialize (Hhours a Ha). apply Z.leb_le. lia.
  - apply forallb_forall. intros rt Hrt. rewrite Forall_forall in Hrates.
    specialize (Hrates rt Hrt). apply andb_true_intro.
    split; [apply Z.leb_le; lia|apply Z.ltb_lt].
    assert (101 < 2 ^ 53) by reflexivity. lia.
  - apply Z.ltb_lt. assert (40 * 300 < 2 ^ 53) by reflexivity. lia.
  - apply Z.ltb_lt. assert (4000 * 300 < 2 ^ 53) by reflexivity. lia.
Qed.

(** The aggregate of such data, in which every project has one
    assignment: int64 columns throughout, one row per assignment. *)
Lemma aggregate_of_matched_data p :
  StronglySorted Z.lt (map Project.project_id p) ->
  Forall (fun a => In (Project.employee_id a) (map Employee.employee_id e)) p ->
  Forall (fun a => 5 <= Project.hours_worked a <= 40) p ->
  (List.length p <= 300)%nat ->
  Forall2 (fun a row =>
             Fot.project_id row = Project.project_id a /\
             Fot.total_hours row = Project.hours_worked a /\
             exists rt, In rt r /\
               Fot.total_payment row =
               PyInt (Project.hours_worked a * Rate.rate_per_hour rt))
          p (aggregate e r p).
Proof.
  intros Hsorted Hemp Hhours Hlen.
  rewrite (aggregate_exact e r p (matched_data_exact_range p Hemp Hhours Hlen)).
  destruct (matched_data_sums p Hemp Hhours) as [_ [_ ->]].
  rewrite (merged_project_column_unique_keys e r p He Hr),
    (group_keys_of_sorted _ Hsorted), map_map.
  apply Forall2_map_of. intros a Ha.
  cbn [Fot.project_id Fot.total_hours Fot.total_payment as_payment].
  split; [reflexivity|].
  rewrite exact_total_hours_merged, exact_total_payment_merged,
    (assignments_of_unique p a (sorted_lt_NoDup _ Hsorted) Ha).
  cbn [map].
  rewrite Forall_forall in Hemp.
  destruct (rows_of_matched e r a He Hr (Hemp a Ha) Hpos)
    as [oe [orate [rt [-> [Hin Hrate]]]]].
  cbn [map]. unfold exact_payment. rewrite Hrate. cbn [option_map].
  unfold sum, sum_skipna, col_hours_worked. cbn [fold_right map fst].
  split; [lia|]. exists rt. split; [exact Hin|]. f_equal. lia.
Qed.

End MatchedData.

(** X13.  Data made by the generator always joins in full.  Whatever the
    random source draws, the Transformer returns on it and its aggregate
    has one row per generated project, in the order generated: the row's
    [total_hours] are the project's hours, and its [total_payment] is
    the integer those hours times a rate of the rate card make, never a
    skipped null.  So every row has 5 to 40 hours and a payment from 100
    to 4000. *)
Theorem generated_data_joins_fully data_dir g files e r p g' files' :
  generate_all data_dir g files = (((e, r, p), g'), files') ->
  exists fot msg,
    transform_data (extracted e p r) =
      (push_fot_stats fot (extracted e p r), Returned msg) /\
    Forall2 (fun a row =>
               Fot.project_id row = Project.project_id a /\
               Fot.total_hours row = Project.hours_worked a /\
               exists rt, In rt r /\
                 Fot.total_payment row =
                 PyInt (Project.hours_worked a * Rate.rate_per_hour rt))
            p fot /\
    Forall (fun row => 5 <= Fot.total_hours row <= 40 /\
                       exists payment,
                         Fot.total_payment row = PyInt payment /\
                         100 <= payment <= 4000) fot.
Proof.
  intros H.
  destruct (generate_all_spec _ _ _ _ _ _ _ _ H)
    as [He [Hepos [Hr [Hrb [Hp [Hplen [Hpemp [Hhours _]]]]]]]].
  assert (Hne : e <> [] /\ p <> [] /\ r <> []).
  { repeat split; intros ->; simpl in *; try discriminate; lia. }
  destruct Hne as [Hne_e [Hne_p Hne_r]].
  assert (Hagg : Forall2 (fun a row =>
             Fot.project_id row = Project.project_id a /\
             Fot.total_hours row = Project.hours_worked a /\
             exists rt, In rt r /\
               Fot.total_payment row =
               PyInt (Project.hours_worked a * Rate.rate_per_hour rt))
          p (aggregate e r p)).
  { apply aggregate_of_matched_data.
    - rewrite He. apply sorted_lt_NoDup, range_sorted.
    - rewrite Hr. unfold positions. repeat constructor; simpl; intuition discriminate.
    - now rewrite Hr.
    - exact Hrb.
    - rewrite Hp. apply range_sorted.
    - exact Hpemp.
    - exact Hhours.
    - lia. }
  exists (aggregate e r p), (transform_message (aggregate e r p)).
  split; [now apply transform_data_returns|]. split; [exact Hagg|].
  clear -Hagg Hhours Hrb. induction Hagg as [|a row p' fot' [_ [Hh [rt [Hin Hpay]]]] _ IH];
    [constructor|].
  inversion Hhours as [|? ? Ha Hrest]; subst. constructor; [|now apply IH].
  rewrite Forall_forall in Hrb. specialize (Hrb rt Hin). rewrite Hh.
  split; [exact Ha|]. eexists. split; [exact Hpay|]. nia.
Qed.

(** * Properties of a run of the DAG *)

(** An extractor that raises has changed nothing, so its second try
    repeats the first. *)
Lemma extract_task_retry e w :
  with_retries (fun _ => extract_task e) w = extract_task e w.
Proof.
  unfold with_retries.
  destruct (extract_task e w) as [w' [s|ex]] eqn:E; [reflexivity|].
  assert (Hw : w' = w).
  { destruct w as [f x d fs t]. unfold extract_task in E. cbn [data_files xcom] in E.
    destruct e; cbn in E;
      [unfold extract_emplooyes_data in E; destruct (csv_tables f _)
      |unfold extract_projects_data in E; destruct (excel_tables f _)
      |unfold extract_rates_data in E; destruct (json_values f _)];
      cbn in E; now inversion E. }
  subst w'. exact E.
Qed.

Lemma extract_task_frame e w :
  data_files (fst (extract_task e w)) = data_files w /\
  database (fst (extract_task e w)) = database w /\
  file_system (fst (extract_task e w)) = file_system w /\
  transport (fst (extract_task e w)) = transport w.
Proof.
  unfold extract_task.
  destruct e;
    [destruct (extract_emplooyes_data (data_files w) (xcom w))
    |destruct (extract_projects_data (data_files w) (xcom w))
    |destruct (extract_rates_data (data_files w) (xcom w))];
    repeat split.
Qed.

(** Whether an extractor returns is decided by the data files alone. *)
Lemma extract_task_outcome e w w' :
  data_files w = data_files w' ->
  snd (extract_task e w) = snd (extract_task e w').
Proof.
  intros H. unfold extract_task. rewrite H.
  destruct e; cbn;
    [unfold extract_emplooyes_data; destruct (csv_tables (data_files w') _)
    |unfold extract_projects_data; destruct (excel_tables (data_files w') _)
    |unfold extract_rates_data; destruct (json_values (data_files w') _)];
    reflexivity.
Qed.

(** Two extractors leave the same world in either order: each writes a
    key of its own. *)
Lemma extract_task_commute e1 e2 w :
  fst (extract_task e1 (fst (extract_task e2 w))) =
  fst (extract_task e2 (fst (extract_task e1 w))).
Proof.
  destruct w as [f x d fs t].
  destruct (csv_tables f (os_path_join DATA_DIR "employees.csv")) eqn:E1;
    destruct (excel_tables f (os_path_join DATA_DIR "projects.xlsx")) eqn:E2;
    destruct (json_values f (os_path_join DATA_DIR "rates.json")) eqn:E3;
    destruct e1, e2;
    unfold extract_task, extract_emplooyes_data, extract_projects_data,
      extract_rates_data;
    repeat (cbn [fst snd data_files xcom database file_system transport];
            rewrite ?E1, ?E2, ?E3);
    reflexivity.
Qed.

Lemma run_independent_extract_cons e order w :
  run_independent (extract_tasks (e :: order)) w =
  (fst (run_independent (extract_tasks order) (fst (extract_task e w))),
   (extractor_id e, snd (extract_task e w)) ::
   snd (run_independent (extract_tasks order) (fst (extract_task e w)))).
Proof.
  unfold extract_tasks. cbn [map run_independent]. rewrite extract_task_retry.
  destruct (extract_task e w) as [w1 o].
  fold (extract_tasks order). cbn [fst snd].
  destruct (run_independent (extract_tasks order) w1) as [w2 log]. reflexivity.
Qed.

Lemma run_independent_extract_frame order w :
  data_files (fst (run_independent (extract_tasks order) w)) = data_files w /\
  database (fst (run_independent (extract_tasks order) w)) = database w /\
  file_system (fst (run_independent (extract_tasks order) w)) = file_system w /\
  transport (fst (run_independent (extract_tasks order) w)) = transport w.
Proof.
  revert w. induction order as [|e order IH]; intros w; [repeat split|].
  rewrite run_independent_extract_cons. cbn [fst].
  destruct (IH (fst (extract_task e w))) as [H1 [H2 [H3 H4]]].
  destruct (extract_task_frame e w) as [F1 [F2 [F3 F4]]].
  rewrite H1, H2, H3, H4. now repeat split.
Qed.

(** The log of the extractors is decided by the data files alone. *)
Lemma run_independent_extract_log order w w' :
  data_files w = data_files w' ->
  snd (run_independent (extract_tasks order) w) =
  snd (run_independent (extract_tasks order) w').
Proof.
  revert w w'. induction order as [|e order IH]; intros w w' H; [reflexivity|].
  rewrite !run_independent_extract_cons. cbn [snd].
  rewrite (extract_task_outcome e w w' H). f_equal. apply IH.
  destruct (extract_task_frame e w) as [-> _].
  destruct (extract_task_frame e w') as [-> _]. exact H.
Qed.

(** The extractors in any two orders: the same world, the same task
    states. *)
Lemma run_independent_extract_perm order1 order2 w :
  Permutation order1 order2 ->
  fst (run_independent (extract_tasks order1) w) =
  fst (run_independent (extract_tasks order2) w) /\
  Permutation (snd (run_independent (extract_tasks order1) w))
              (snd (run_independent (extract_tasks order2) w)).
Proof.
  intros Hperm. revert w.
  induction Hperm as [|e l1 l2 _ IH|e1 e2 l|l1 l2 l3 _ IH1 _ IH2]; intros w.
  - split; [reflexivity|constructor].
  - rewrite !run_independent_extract_cons. cbn [fst snd].
    destruct (IH (fst (extract_task e w))) as [Hw Hl]. split; [exact Hw|].
    now apply perm_skip.
  - rewrite !run_independent_extract_cons. cbn [fst snd].
    rewrite (extract_task_commute e2 e1 w). split; [reflexivity|].
    assert (Ho1 : snd (extract_task e1 (fst (extract_task e2 w))) =
                  snd (extract_task e1 w)).
    { apply extract_task_outcome. now destruct (extract_task_frame e2 w) as [-> _]. }
    assert (Ho2 : snd (extract_task e2 (fst (extract_task e1 w))) =
                  snd (extract_task e2 w)).
    { apply extract_task_outcome. now destruct (extract_task_frame e1 w) as [-> _]. }
    rewrite Ho1, Ho2. apply perm_swap.
  - destruct (IH1 w) as [Hw1 Hl1]. destruct (IH2 w) as [Hw2 Hl2].
    split; [congruence|]. now transitivity (snd (run_independent (extract_tasks l2) w)).
Qed.

Lemma all_returned_perm log1 log2 :
  Permutation log1 log2 -> all_returned log1 = all_returned log2.
Proof.
  unfold all_returned.
  induction 1 as [|x l l' _ IH|x y l|l l' l'' _ IH1 _ IH2]; simpl.
  - reflexivity.
  - now rewrite IH.
  - destruct (negb (is_raised (snd x))), (negb (is_raised (snd y))); reflexivity.
  - congruence.
Qed.

(** X14.  The result of a run does not depend on the order in which the
    scheduler starts the extractors: for any two orders of the same
    extractors the world at the end is the same, and so is the state of
    every task. *)
Theorem run_dag_any_extractor_order order1 order2 ds now w :
  Permutation order1 order2 ->
  fst (run_dag order1 ds now w) = fst (run_dag order2 ds now w) /\
  Permutation (snd (run_dag order1 ds now w)) (snd (run_dag order2 ds now w)).
Proof.
  intros Hperm. unfold run_dag.
  destruct (run_independent_extract_perm order1 order2 w Hperm) as [Hw Hl].
  destruct (run_independent (extract_tasks order1) w) as [w1 log1].
  destruct (run_independent (extract_tasks order2) w) as [w1' log1'].
  cbn [fst snd] in Hw, Hl. subst w1'.
  rewrite (all_returned_perm _ _ Hl).
  destruct (all_returned log1'); [|split; [reflexivity|exact Hl]].
  destruct (run_chain (chain_tasks ds now) w1) as [w2 log2]. cbn [fst snd].
  split; [reflexivity|]. now apply Permutation_app_tail.
Qed.

Ltac run_extractors E1 E2 E3 :=
  unfold all_extractors;
  rewrite !run_independent_extract_cons;
  unfold extract_tasks, extract_task, extract_emplooyes_data, extract_projects_data,
    extract_rates_data;
  repeat (cbn [fst snd data_files xcom database file_system transport map
               run_independent];
          rewrite ?E1, ?E2, ?E3).

(** The extractors, in the order of the file, on data files that are all
    there. *)
Lemma run_extractors_present w e p r :
  csv_tables (data_files w) (os_path_join DATA_DIR "employees.csv") = Some e ->
  excel_tables (data_files w) (os_path_join DATA_DIR "projects.xlsx") = Some p ->
  json_values (data_files w) (os_path_join DATA_DIR "rates.json") = Some r ->
  fst (run_independent (extract_tasks all_extractors) w) =
    mkWorld (data_files w)
            (push_rates_data r (push_projects_data p (push_employees_data e (xcom w))))
            (database w) (file_system w) (transport w) /\
  all_returned (snd (run_independent (extract_tasks all_extractors) w)) = true.
Proof.
  intros E1 E2 E3. run_extractors E1 E2 E3. split; reflexivity.
Qed.

(** The extractors on data files of which one is missing. *)
Lemma run_extractors_missing w :
  csv_tables (data_files w) (os_path_join DATA_DIR "employees.csv") = None \/
  excel_tables (data_files w) (os_path_join DATA_DIR "projects.xlsx") = None \/
  json_values (data_files w) (os_path_join DATA_DIR "rates.json") = None ->
  all_returned (snd (run_independent (extract_tasks all_extractors) w)) = false.
Proof.
  intros H.
  destruct (csv_tables (data_files w) (os_path_join DATA_DIR "employees.csv")) eqn:E1;
    destruct (excel_tables (data_files w) (os_path_join DATA_DIR "projects.xlsx")) eqn:E2;
    destruct (json_values (data_files w) (os_path_join DATA_DIR "rates.json")) eqn:E3;
    try (destruct H as [H|[H|H]]; discriminate);
    run_extractors E1 E2 E3; reflexivity.
Qed.

(** A Transformer that raises has changed nothing, so its second try
    raises again. *)
Lemma transform_task_raises w key :
  transform_data (xcom w) = (xcom w, Raised (KeyError key)) ->
  with_retries (fun _ => transform_task) w = (w, Raised (KeyError key)).
Proof.
  intros H. destruct w as [f x d fs t]. unfold with_retries, transform_task.
  cbn [xcom data_files database file_system transport] in *.
  rewrite H. cbn [xcom data_files database file_system transport]. now rewrite H.
Qed.

(** The chain on a store from which the Transformer returns, with a
    transport that takes the next message: every task returns at its
    first try. *)
Lemma run_chain_returns ds now w fot :
  transform_data (xcom w) =
    (push_fot_stats fot (xcom w), Returned (transform_message fot)) ->
  fot <> [] ->
  storable fot = true ->
  accepts_next (transport w) = true ->
  exists w' rows,
    run_chain (chain_tasks ds now) w =
      (w', [("transform_data", Returned (transform_message fot));
            ("load_to_database", Returned (load_message fot));
            ("generate_report", Returned "Отчет успешно создан");
            ("send_email_notification",
             Returned "Email отправлен с прикрепленными файлами")]) /\
    data_files w' = data_files w /\
    database w' = loaded (now "load_to_database" 1%nat) fot (database w) /\
    rows = order_by_total_payment_desc (contents (database w')) /\
    fot_stats (xcom w') = Some fot /\
    result_data (xcom w') = Some rows /\
    file_system w' report_file =
      Some (render_report (now "generate_report" 1%nat) rows) /\
    file_system w' csv_file = Some (to_csv rows) /\
    (forall path, path <> report_file -> path <> csv_file ->
       file_system w' path = file_system w path) /\
    delivered (transport w') =
      delivered (transport w) ++
      [report_email (html_head ds +++ join (map html_row rows) +++ html_tail)
         [report_file; csv_file]].
Proof.
  intros Ht Hne Hst Hacc. destruct w as [f x d fs t].
  cbn [xcom data_files database file_system transport] in *.
  unfold chain_tasks, run_chain, with_retries, transform_task, load_task,
    report_task, email_task.
  cbn [xcom data_files database file_system transport]. rewrite Ht.
  cbn [xcom data_files database file_system transport].
  rewrite (load_to_database_returns _ (push_fot_stats fot x) fot d eq_refl Hne Hst).
  cbn [xcom data_files database file_system transport].
  rewrite (generate_report_returns _ (loaded (now "load_to_database" 1%nat) fot d)
             fs (push_fot_stats fot x) _ eq_refl).
  cbn [xcom data_files database file_system transport].
  erewrite send_report_accepted; [|reflexivity|exact Hacc].
  rewrite attachments_after_report.
  eexists _, _. split; [reflexivity|].
  cbn [xcom data_files database file_system transport delivered].
  repeat split.
  intros path Hp1 Hp2. unfold write_file.
  apply String.eqb_neq in Hp1, Hp2. now rewrite Hp1, Hp2.
Qed.

Lemma length_run_independent tasks w :
  List.length (snd (run_independent tasks w)) = List.length tasks.
Proof.
  revert w. induction tasks as [|[task_id task] rest IH]; intros w; [reflexivity|].
  cbn [run_independent]. destruct (task w) as [w1 o].
  specialize (IH w1). destruct (run_independent rest w1) as [w2 log].
  cbn [snd List.length] in *. now rewrite IH.
Qed.

(** A run on data files that are all there and hold records whose
    integers fit 64 bits, with a transport that takes the next message. *)
Lemma run_dag_on_records order ds now w e p r :
  Permutation all_extractors order ->
  csv_tables (data_files w) (os_path_join DATA_DIR "employees.csv") = Some e ->
  excel_tables (data_files w) (os_path_join DATA_DIR "projects.xlsx") = Some p ->
  json_values (data_files w) (os_path_join DATA_DIR "rates.json") = Some r ->
  e <> [] -> p <> [] -> r <> [] ->
  int64_records (extracted e p r) = true ->
  accepts_next (transport w) = true ->
  exists rows,
    all_returned (snd (run_dag order ds now w)) = true /\
    List.length (snd (run_dag order ds now w)) = 7%nat /\
    map payload (contents (database (fst (run_dag order ds now w)))) =
      map stored_values (aggregate e r p) /\
    Permutation (contents (database (fst (run_dag order ds now w)))) rows /\
    file_system (fst (run_dag order ds now w)) report_file =
      Some (render_report (now "generate_report" 1%nat) rows) /\
    file_system (fst (run_dag order ds now w)) csv_file = Some (to_csv rows) /\
    delivered (transport (fst (run_dag order ds now w))) =
      delivered (transport w) ++
      [report_email (html_head ds +++ join (map html_row rows) +++ html_tail)
         [report_file; csv_file]].
Proof.
  intros Hperm E1 E2 E3 He Hp Hr H64 Hacc. unfold run_dag.
  unfold int64_records in H64. apply andb_prop in H64.
  cbn [extracted projects_data rates_data DataFrame] in H64. destruct H64 as [H1 H2].
  destruct (run_independent_extract_perm order all_extractors w
              (Permutation_sym Hperm)) as [Hw Hl].
  pose proof (length_run_independent (extract_tasks order) w) as Hlen.
  destruct (run_extractors_present w e p r E1 E2 E3) as [Hw1 Hall].
  destruct (run_independent (extract_tasks order) w) as [w1 log1].
  cbn [fst snd] in Hw, Hl, Hlen. rewrite Hw1 in Hw.
  rewrite (all_returned_perm _ _ Hl), Hall.
  assert (Ht : transform_data (xcom w1) =
               (push_fot_stats (aggregate e r p) (xcom w1),
                Returned (transform_message (aggregate e r p)))).
  { destruct (transform_data_cases (xcom w1)) as [[Hempty _]|[_ [_ [_ Hret]]]];
      subst w1; cbn [xcom employees_data projects_data rates_data push_rates_data
                     push_projects_data push_employees_data DataFrame] in *.
    - destruct Hempty as [H|[H|H]]; contradiction.
    - exact Hret. }
  assert (Hacc1 : accepts_next (transport w1) = true) by (now subst w1).
  destruct (run_chain_returns ds now w1 _ Ht
              (aggregate_nonempty e r p Hp) (aggregate_storable e r p H1 H2) Hacc1)
    as [w2 [rows [Hrun [_ [Hdb [Hrows [_ [_ [Hrep [Hcsv [_ Hmail]]]]]]]]]]].
  rewrite Hrun. cbn [fst snd].
  exists rows. split.
  { unfold all_returned. rewrite forallb_app.
    fold (all_returned log1). now rewrite (all_returned_perm _ _ Hl), Hall. }
  split.
  { rewrite length_app, Hlen. unfold extract_tasks. rewrite length_map.
    rewrite <- (Permutation_length Hperm). reflexivity. }
  split.
  { rewrite Hdb. unfold loaded, contents. cbn [project_fot].
    apply payload_number_rows. }
  split; [rewrite Hrows; apply order_by_perm|].
  split; [exact Hrep|]. split; [exact Hcsv|].
  rewrite Hmail. now subst w1.
Qed.

(** X15.  When the three data files are there and hold records whose
    integers fit 64 bits, and the transport takes the message, a run
    completes: all seven tasks return at their first try, whatever the
    order of the extractors and whatever the store, the database and the
    files held before.  The table then holds the aggregate of the files'
    records as the Loader stores it, row for row; the report and the CSV
    export list the rows of the table; and the Notifier delivers exactly
    one email, the report email with both files attached. *)
Theorem run_dag_completes order ds now w e p r :
  Permutation all_extractors order ->
  csv_tables (data_files w) (os_path_join DATA_DIR "employees.csv") = Some e ->
  excel_tables (data_files w) (os_path_join DATA_DIR "projects.xlsx") = Some p ->
  json_values (data_files w) (os_path_join DATA_DIR "rates.json") = Some r ->
  e <> [] -> p <> [] -> r <> [] ->
  int64_records (extracted e p r) = true ->
  accepts_next (transport w) = true ->
  all_returned (snd (run_dag order ds now w)) = true /\
  List.length (snd (run_dag order ds now w)) = 7%nat /\
  map payload (contents (database (fst (run_dag order ds now w)))) =
    map stored_values (aggregate e r p) /\
  exists rows html,
    Permutation (contents (database (fst (run_dag order ds now w)))) rows /\
    file_system (fst (run_dag order ds now w)) report_file =
      Some (report_header (now "generate_report" 1%nat) rows +++
            join (map report_block rows)) /\
    file_system (fst (run_dag order ds now w)) csv_file =
      Some (csv_header +++ join (map csv_line rows)) /\
    delivered (transport (fst (run_dag order ds now w))) =
      delivered (transport w) ++ [report_email html [report_file; csv_file]].
Proof.
  intros Hperm E1 E2 E3 He Hp Hr H64 Hacc.
  destruct (run_dag_on_records order ds now w e p r Hperm E1 E2 E3 He Hp Hr H64 Hacc)
    as [rows [Hall [Hlen [Hpay [Hrows [Hrep [Hcsv Hmail]]]]]]].
  split; [exact Hall|]. split; [exact Hlen|]. split; [exact Hpay|].
  exists rows. eexists. split; [exact Hrows|].
  split; [rewrite Hrep; unfold render_report; now rewrite fold_left_append|].
  split; [exact Hcsv|exact Hmail].
Qed.

Lemma map_fst_run_independent tasks w :
  map fst (snd (run_independent tasks w)) = map fst tasks.
Proof.
  revert w. induction tasks as [|[task_id task] rest IH]; intros w; [reflexivity|].
  cbn [run_independent]. destruct (task w) as [w1 o].
  specialize (IH w1). destruct (run_independent rest w1) as [w2 log].
  cbn [snd map fst] in *. now rewrite IH.
Qed.

Lemma extractor_id_is_extractor order task_id :
  In task_id (map fst (extract_tasks order)) ->
  task_id = "extract_emplooyes" \/ task_id = "extract_projects" \/
  task_id = "extract_rates".
Proof.
  unfold extract_tasks. rewrite map_map. cbn [fst]. intros H.
  apply in_map_iff in H. destruct H as [e [<- _]]. destruct e; simpl; tauto.
Qed.

(** X16.  When one of the three data files is missing or holds no record,
    a run stops before the Loader: an extractor or the Transformer ends
    raised, neither the Loader nor the Report Generator nor the Notifier
    runs, and the database and the output files are as they were. *)
Theorem run_dag_stops_without_records order ds now w :
  Permutation all_extractors order ->
  DataFrame (csv_tables (data_files w) (os_path_join DATA_DIR "employees.csv")) = [] \/
  DataFrame (excel_tables (data_files w) (os_path_join DATA_DIR "projects.xlsx")) = [] \/
  DataFrame (json_values (data_files w) (os_path_join DATA_DIR "rates.json")) = [] ->
  all_returned (snd (run_dag order ds now w)) = false /\
  ~ In "load_to_database" (map fst (snd (run_dag order ds now w))) /\
  ~ In "generate_report" (map fst (snd (run_dag order ds now w))) /\
  ~ In "send_email_notification" (map fst (snd (run_dag order ds now w))) /\
  database (fst (run_dag order ds now w)) = database w /\
  file_system (fst (run_dag order ds now w)) = file_system w.
Proof.
  intros Hperm Hno. unfold run_dag.
  destruct (run_independent_extract_perm order all_extractors w
              (Permutation_sym Hperm)) as [Hw Hl].
  destruct (run_independent_extract_frame order w) as [_ [Fd [Ff Ft]]].
  pose proof (map_fst_run_independent (extract_tasks order) w) as Hids.
  destruct (run_independent (extract_tasks order) w) as [w1 log1].
  cbn [fst snd] in Hw, Hl, Fd, Ff, Ft, Hids.
  assert (Hnot : forall task_id,
             In task_id (map fst log1) ->
             task_id <> "load_to_database" /\ task_id <> "generate_report" /\
             task_id <> "send_email_notification" /\ task_id <> "transform_data").
  { intros task_id H. rewrite Hids in H.
    destruct (extractor_id_is_extractor order task_id H) as [-> | [-> | ->]];
      repeat split; discriminate. }
  pose proof (all_returned_perm _ _ Hl) as Hall1.
  destruct (csv_tables (data_files w) (os_path_join DATA_DIR "employees.csv"))
    as [e|] eqn:E1;
    [destruct (excel_tables (data_files w) (os_path_join DATA_DIR "projects.xlsx"))
       as [p|] eqn:E2;
     [destruct (json_values (data_files w) (os_path_join DATA_DIR "rates.json"))
        as [r|] eqn:E3|]|].
  2-4: rewrite (run_extractors_missing w) in Hall1 by (rewrite ?E1, ?E2, ?E3; tauto);
       rewrite Hall1; cbn [fst snd]; split; [exact Hall1|];
       repeat split; try assumption;
       intros H; apply Hnot in H; tauto.
  destruct (run_extractors_present w e p r E1 E2 E3) as [Hw1 Hall].
  rewrite Hall in Hall1. rewrite Hall1. rewrite Hw1 in Hw.
  destruct (transform_data_cases (xcom w1)) as [[_ [key Hk]]|[Hne1 [Hne2 [Hne3 _]]]].
  - unfold chain_tasks. cbn [run_chain].
    rewrite (transform_task_raises w1 key Hk). cbn [fst snd].
    unfold all_returned. rewrite forallb_app, map_app. cbn [forallb map fst snd
      is_raised negb andb]. rewrite andb_false_r.
    split; [reflexivity|].
    repeat split; try assumption;
      intros H; apply in_app_or in H; destruct H as [H|H];
      try (apply Hnot in H; tauto);
      destruct H as [H|H]; first [discriminate|destruct H].
  - exfalso. subst w1.
    cbn [xcom employees_data projects_data rates_data push_rates_data
         push_projects_data push_employees_data DataFrame] in *.
    destruct Hno as [H|[H|H]]; contradiction.
Qed.


(** What the generator makes fits 64 bits with room to spare. *)
Lemma generated_int64_records (e : list Employee.t) (r : list Rate.t)
    (p : list Project.t) :
  map Project.project_id p = range 1 (List.length p) ->
  (List.length p <= 300)%nat ->
  Forall (fun a => 5 <= Project.hours_worked a <= 40) p ->
  Forall (fun rt => 20 <= Rate.rate_per_hour rt <= 100) r ->
  int64_records (extracted e p r) = true.
Proof.
  intros Hids Hlen Hhours Hrates. unfold int64_records.
  cbn [extracted projects_data rates_data DataFrame].
  assert (H53 : 400 < 2 ^ 53) by reflexivity.
  apply andb_true_intro. split; apply forallb_forall.
  - intros a Ha. rewrite Forall_forall in Hhours. specialize (Hhours a Ha).
    assert (Hid : In (Project.project_id a) (range 1 (List.length p))).
    { rewrite <- Hids. now apply in_map. }
    apply range_In in Hid.
    apply andb_true_intro. split; apply in_int64_small; lia.
  - intros rt Hrt. rewrite Forall_forall in Hrates. specialize (Hrates rt Hrt).
    apply in_int64_small. lia.
Qed.

(** X17.  Data the generator writes into the DAG's data directory runs
    through the whole DAG, whatever the random source draws: every task
    returns, the table ends with one row per generated project, in the
    order generated, holding the project's hours and its hours times a
    rate of the generated rate card, both as the doubles of these
    integers, and the report email goes out with both files attached. *)
Theorem generated_data_runs_through g files e r p g' order ds now w :
  generate_all DATA_DIR g files = (((e, r, p), g'), data_files w) ->
  Permutation all_extractors order ->
  accepts_next (transport w) = true ->
  all_returned (snd (run_dag order ds now w)) = true /\
  Forall2 (fun a row =>
             Values.project_id row = Project.project_id a /\
             Values.total_hours row = Float.mk (Project.hours_worked a) 0 /\
             exists rt, In rt r /\
               Values.total_payment row =
               Float.mk (Project.hours_worked a * Rate.rate_per_hour rt) 0)
          p (map payload (contents (database (fst (run_dag order ds now w))))) /\
  exists html,
    delivered (transport (fst (run_dag order ds now w))) =
      delivered (transport w) ++ [report_email html [report_file; csv_file]].
Proof.
  intros Hgen Hperm Hacc.
  destruct (generate_all_spec _ _ _ _ _ _ _ _ Hgen)
    as [He [Hepos [Hr [Hrb [Hp [Hplen [Hpemp [Hhours [E1 [E2 E3]]]]]]]]]].
  assert (Hne : e <> [] /\ p <> [] /\ r <> []).
  { repeat split; intros ->; simpl in *; try discriminate; lia. }
  destruct Hne as [Hne_e [Hne_p Hne_r]].
  assert (Hlen : (List.length p <= 300)%nat) by lia.
  destruct (run_dag_on_records order ds now w e p r Hperm E1 E2 E3
              Hne_e Hne_p Hne_r
              (generated_int64_records e r p Hp Hlen Hhours Hrb) Hacc)
    as [rows [Hall [_ [Hpay [_ [_ [_ Hmail]]]]]]].
  split; [exact Hall|]. split; [|eexists; exact Hmail].
  rewrite Hpay.
  assert (Hagg : Forall2 (fun a row =>
             Fot.project_id row = Project.project_id a /\
             Fot.total_hours row = Project.hours_worked a /\
             exists rt, In rt r /\
               Fot.total_payment row =
               PyInt (Project.hours_worked a * Rate.rate_per_hour rt))
          p (aggregate e r p)).
  { apply aggregate_of_matched_data.
    - rewrite He. apply sorted_lt_NoDup, range_sorted.
    - rewrite Hr. unfold positions. repeat constructor; simpl; intuition discriminate.
    - now rewrite Hr.
    - exact Hrb.
    - rewrite Hp. apply range_sorted.
    - exact Hpemp.
    - exact Hhours.
    - exact Hlen. }
  clear -Hagg Hhours Hrb.
  induction Hagg as [|a row p' fot' [Hid [Hh [rt [Hin Hpay]]]] _ IH];
    [constructor|].
  inversion Hhours as [|? ? Ha Hrest]; subst. cbn [map].
  constructor; [|now apply IH].
  pose proof Hrb as Hrb'. rewrite Forall_forall in Hrb'. specialize (Hrb' rt Hin).
  assert (H53 : 4000 < 2 ^ 53) by reflexivity.
  unfold stored_values.
  cbn [Values.project_id Values.total_hours Values.total_payment].
  split; [exact Hid|]. rewrite Hh, Hpay. cbn [to_real].
  split; [apply of_int_small; lia|].
  exists rt. split; [exact Hin|]. apply of_int_small. nia.
Qed.

Lemma generated_data_joins_fully_sample :
  exists fot msg,
    transform_data (extracted sample_employees sample_projects sample_rates) =
      (push_fot_stats fot (extracted sample_employees sample_projects sample_rates),
       Returned msg) /\
    Forall2 (fun a row =>
               Fot.project_id row = Project.project_id a /\
               Fot.total_hours row = Project.hours_worked a /\
               exists rt, In rt sample_rates /\
                 Fot.total_payment row =
                 PyInt (Project.hours_worked a * Rate.rate_per_hour rt))
            sample_projects fot /\
    Forall (fun row => 5 <= Fot.total_hours row <= 40 /\
                       exists payment,
                         Fot.total_payment row = PyInt payment /\
                         100 <= payment <= 4000) fot.
Proof.
  apply (generated_data_joins_fully DATA_DIR sample_rng no_data_files
           sample_employees sample_rates sample_projects
           (snd (fst sample_generated)) (snd sample_generated)).
  reflexivity.
Defined.

Lemma run_dag_any_extractor_order_scenario :
  fst (run_dag all_extractors "2025-01-01" sample_clock (new_world scenario_files)) =
  fst (run_dag sample_order "2025-01-01" sample_clock (new_world scenario_files)) /\
  Permutation
    (snd (run_dag all_extractors "2025-01-01" sample_clock (new_world scenario_files)))
    (snd (run_dag sample_order "2025-01-01" sample_clock (new_world scenario_files))).
Proof.
  apply (run_dag_any_extractor_order all_extractors sample_order).
  unfold all_extractors, sample_order.
  apply perm_trans with [ExtractEmployees; ExtractRates; ExtractProjects].
  - apply perm_skip, perm_swap.
  - apply perm_swap.
Defined.

Lemma run_dag_completes_scenario :
  all_returned
    (snd (run_dag sample_order "2025-01-01" sample_clock (new_world scenario_files))) =
    true /\
  List.length
    (snd (run_dag sample_order "2025-01-01" sample_clock (new_world scenario_files))) =
    7%nat /\
  map payload
    (contents (database
       (fst (run_dag sample_order "2025-01-01" sample_clock
               (new_world scenario_files))))) =
    map stored_values
        (aggregate scenario_employees scenario_rates scenario_projects) /\
  exists rows html,
    Permutation
      (contents (database
         (fst (run_dag sample_order "2025-01-01" sample_clock
                 (new_world scenario_files))))) rows /\
    file_system
      (fst (run_dag sample_order "2025-01-01" sample_clock (new_world scenario_files)))
      report_file =
      Some (report_header (sample_clock "generate_report" 1%nat) rows +++
            join (map report_block rows)) /\
    file_system
      (fst (run_dag sample_order "2025-01-01" sample_clock (new_world scenario_files)))
      csv_file =
      Some (csv_header +++ join (map csv_line rows)) /\
    delivered
      (transport
         (fst (run_dag sample_order "2025-01-01" sample_clock
                 (new_world scenario_files)))) =
      delivered (transport (new_world scenario_files)) ++
      [report_email html [report_file; csv_file]].
Proof.
  apply (run_dag_completes sample_order "2025-01-01" sample_clock
           (new_world scenario_files)
           scenario_employees scenario_projects scenario_rates).
  - unfold all_extractors, sample_order.
    apply perm_trans with [ExtractEmployees; ExtractRates; ExtractProjects].
    + apply perm_skip, perm_swap.
    + apply perm_swap.
  - reflexivity.
  - reflexivity.
  - reflexivity.
  - discriminate.
  - discriminate.
  - discriminate.
  - reflexivity.
  - reflexivity.
Defined.

Lemma run_dag_stops_without_records_scenario :
  all_returned
    (snd (run_dag sample_order "2025-01-01" sample_clock (new_world no_data_files))) =
    false /\
  ~ In "load_to_database"
      (map fst (snd (run_dag sample_order "2025-01-01" sample_clock
                       (new_world no_data_files)))) /\
  ~ In "generate_report"
      (map fst (snd (run_dag sample_order "2025-01-01" sample_clock
                       (new_world no_data_files)))) /\
  ~ In "send_email_notification"
      (map fst (snd (run_dag sample_order "2025-01-01" sample_clock
                       (new_world no_data_files)))) /\
  database
    (fst (run_dag sample_order "2025-01-01" sample_clock (new_world no_data_files))) =
    database (new_world no_data_files) /\
  file_system
    (fst (run_dag sample_order "2025-01-01" sample_clock (new_world no_data_files))) =
    file_system (new_world no_data_files).
Proof.
  apply (run_dag_stops_without_records sample_order "2025-01-01" sample_clock
           (new_world no_data_files)).
  - unfold all_extractors, sample_order.
    apply perm_trans with [ExtractEmployees; ExtractRates; ExtractProjects].
    + apply perm_skip, perm_swap.
    + apply perm_swap.
  - left. reflexivity.
Defined.

Lemma generated_data_runs_through_sample :
  all_returned
    (snd (run_dag sample_order "2025-01-01" sample_clock
            (new_world (snd sample_generated)))) = true /\
  Forall2 (fun a row =>
             Values.project_id row = Project.project_id a /\
             Values.total_hours row = Float.mk (Project.hours_worked a) 0 /\
             exists rt, In rt sample_rates /\
               Values.total_payment row =
               Float.mk (Project.hours_worked a * Rate.rate_per_hour rt) 0)
          sample_projects
          (map payload
             (contents (database
                (fst (run_dag sample_order "2025-01-01" sample_clock
                        (new_world (snd sample_generated))))))) /\
  exists html,
    delivered
      (transport
         (fst (run_dag sample_order "2025-01-01" sample_clock
                 (new_world (snd sample_generated))))) =
      delivered (transport (new_world (snd sample_generated))) ++
      [report_email html [report_file; csv_file]].
Proof.
  apply (generated_data_runs_through sample_rng no_data_files
           sample_employees sample_rates sample_projects
           (snd (fst sample_generated))).
  - reflexivity.
  - unfold all_extractors, sample_order.
    apply perm_trans with [ExtractEmployees; ExtractRates; ExtractProjects].
    + apply perm_skip, perm_swap.
    + apply perm_swap.
  - reflexivity.
Defined.
